(** * WhiskyPay SDK: session gateway, payment verification, checkout handler

    A shallow embedding of the four TypeScript sources of the SDK

      - [fetchSession.ts]   ([mapResponseToSessionType], [fetchSession]),
      - [verifyPayment.ts]  ([verifyPayment], [storeVerifiedSignature]),
      - [createSession.ts]  ([createSession], [validateEmail], [sanitizeInput]),
      - [PaymentModal.tsx]  ([handlePayment] and the session effect
        [fetchSessionCaller] of [PaymentModalComponent]),

    followed by the properties of the payment protocol that the code has.

    Conventions of the embedding.
      - An [async] function is a total function of its arguments, of the
        state it reads (session storage, the [paymentCompleted] flag) and of
        an environment that answers every external call it awaits: the
        HTTP exchanges, [Math.random], the page text, the wallet, the ledger.
        It returns its result together with the new state and a log of what
        it did (exchanges, delays, ledger queries, scheduled callbacks).
      - A JavaScript number that carries money (a price, an amount) is an
        IEEE-754 binary64 value, Rocq's primitive [float]. A duration handed
        to [setTimeout] is a rational number of milliseconds.
      - A JavaScript string is a [string]; the ids, signatures and marker
        texts of this code are ASCII.
      - [try]/[catch] is written out: a block yields a value or the error
        it throws, and the handler is applied to the error. *)

From Stdlib Require Import ZArith QArith Floats Lia Lqa String Ascii List Bool.
From stdpp Require Import base gmap strings list.
Import ListNotations.

Local Open Scope string_scope.
Local Open Scope list_scope.
Local Open Scope nat_scope.

(* ================================================================== *)
(** ** JavaScript values                                                *)
(* ================================================================== *)

Module JS.

(** What a property of a parsed JSON object can be, as far as [||],
    [typeof] and [!] can tell: [JNested] is an array or an object held in
    a field, [JUndefined] is what reading a missing property gives. *)
Inductive JVal : Type :=
| JUndefined
| JNull
| JBool (b : bool)
| JNum (x : float)
| JStr (s : string)
| JNested.

(** ToBoolean. *)
Definition truthy (v : JVal) : bool :=
  match v with
  | JUndefined | JNull => false
  | JBool b => b
  | JNum x => negb ((x =? 0)%float || is_nan x)
  | JStr s => negb (String.eqb s "")
  | JNested => true
  end.

(** [a || b]. *)
Definition or_else (a b : JVal) : JVal := if truthy a then a else b.

Infix "|||" := or_else (at level 50, left associativity).

(** [typeof v === 'number']. *)
Definition isNumber (v : JVal) : bool :=
  match v with JNum _ => true | _ => false end.

(** [o.k] for an object [o]. *)
Definition field (o : gmap string JVal) (k : string) : JVal :=
  default JUndefined (o !! k).

(** The value [JSON.parse] (or [res.json()]) yields: an object with its
    fields, or any other value ([DVal JNested] is an array). *)
Inductive JData : Type :=
| DObj (o : gmap string JVal)
| DVal (v : JVal).

Definition dataTruthy (d : JData) : bool :=
  match d with DObj _ => true | DVal v => truthy v end.

(** [d.k]: reading a property of [null] or [undefined] throws a
    [TypeError], here [None]; numbers, strings, booleans and arrays have
    none of the property names this code reads. *)
Definition getProp (d : JData) (k : string) : option JVal :=
  match d with
  | DObj o => Some (field o k)
  | DVal JNull | DVal JUndefined => None
  | DVal _ => Some JUndefined
  end.

(** A number read from JSON text is never NaN. *)
Definition jsonNumber (v : JVal) : Prop :=
  match v with JNum x => is_nan x = false | _ => True end.

(** [hay.includes(needle)]. *)
Fixpoint includes (needle hay : string) : bool :=
  String.prefix needle hay ||
  match hay with
  | EmptyString => false
  | String _ rest => includes needle rest
  end.

(** The white space [String.prototype.trim] strips, among ASCII
    characters: TAB, LF, VT, FF, CR and SPACE. *)
Definition isWhite (c : ascii) : bool :=
  let n := nat_of_ascii c in
  ((9 <=? n)%nat && (n <=? 13)%nat) || (n =? 32)%nat.

Fixpoint trimStart (s : string) : string :=
  match s with
  | EmptyString => EmptyString
  | String c rest => if isWhite c then trimStart rest else s
  end.

(** [trimEnd]: a character is kept when it is not white space or when
    something is kept after it. *)
Fixpoint trimEnd (s : string) : string :=
  match s with
  | EmptyString => EmptyString
  | String c rest =>
      match trimEnd rest with
      | EmptyString => if isWhite c then EmptyString else String c EmptyString
      | kept => String c kept
      end
  end.

(** [s.trim()]. *)
Definition trim (s : string) : string := trimEnd (trimStart s).

(** [s.replace(/[^class]/g, '')]: the characters of [s] that are in the
    class, in order. *)
Fixpoint keepChars (inClass : ascii -> bool) (s : string) : string :=
  match s with
  | EmptyString => EmptyString
  | String c rest =>
      if inClass c then String c (keepChars inClass rest)
      else keepChars inClass rest
  end.

Fixpoint allChars (inClass : ascii -> bool) (s : string) : bool :=
  match s with
  | EmptyString => true
  | String c rest => inClass c && allChars inClass rest
  end.

Definition between (lo hi : nat) (c : ascii) : bool :=
  (lo <=? nat_of_ascii c)%nat && (nat_of_ascii c <=? hi)%nat.

Definition isLower : ascii -> bool := between 97 122.
Definition isUpper : ascii -> bool := between 65 90.
Definition isDigit : ascii -> bool := between 48 57.
Definition isLetter (c : ascii) : bool := isLower c || isUpper c.
Definition isOneOf (cs : string) (c : ascii) : bool :=
  existsb (Ascii.eqb c) (list_ascii_of_string cs).

(** The integer [Math.round] returns for a binary64 value given by sign,
    mantissa and exponent: [floor (x + 1/2)], ties towards +infinity.
    NaN and the infinities are returned as they are: there is no
    integer, [None]. *)
Definition roundSF (x : spec_float) : option Z :=
  match x with
  | S754_zero _ => Some 0%Z
  | S754_finite s m e =>
      let v := if s then Z.neg m else Z.pos m in
      if (0 <=? e)%Z then Some (v * 2 ^ e)%Z
      else Some ((v + 2 ^ (- e - 1)) / 2 ^ (- e))%Z
  | S754_infinity _ | S754_nan => None
  end.

Definition Math_round (x : float) : option Z := roundSF (Prim2SF x).

End JS.

(* ================================================================== *)
(** ** The network, as the three gateways see it                        *)
(* ================================================================== *)

Module Net.
Import JS.

(** What a rejected [fetch] or a failed property read throws, as far as
    the handlers look: [error.name === 'AbortError'] or anything else. *)
Inductive JsError : Type := AbortError | OtherError.

(** [res.json()]: it rejects on text that is not JSON. *)
Inductive Body : Type := BadJSON | GoodJSON (d : JData).

Record Response : Type := { status : nat; body : Body }.

(** [res.ok]. *)
Definition ok (r : Response) : bool :=
  (200 <=? status r)%nat && (status r <=? 299)%nat.

Inductive FetchResult : Type :=
| Responds (r : Response)
| Rejects (e : JsError).

(** The two URLs every gateway tries: [{base}/api/...] and [{base}/...]. *)
Inductive Endpoint : Type := ApiPrefix | NoPrefix.

Record Request : Type := { endpoint : Endpoint; payload : list string }.

Record Exchange : Type := { request : Request; reply : FetchResult }.

(** What the world does during one iteration of a retry loop: the answer
    to the request to the first URL, to the request to the second URL
    issued after a 404 inside the [try], and to the one issued by the
    [catch]; the text of the page while the iteration runs; the value
    [Math.random()] takes in the backoff computation. *)
Record AttemptNet : Type := {
  primary : FetchResult;
  fallbackTry : FetchResult;
  fallbackCatch : FetchResult;
  page : string;
  random : Q
}.

(** The outcome of the inner [try { fetch ... } catch { fetch ... }]. *)
Inductive Fetched : Type :=
| Got (r : Response)
| Shortcut
| Threw (e : JsError).

(** The inner [try]/[catch] the three gateways share:
<<
    try {
      res = await fetch(api);
      if (!res.ok && res.status === 404) res = await fetch(plain);
    } catch (error) {
      [verifyPayment only: if the page shows a Redis marker, return success]
      res = await fetch(plain);
    }
>>
    [shortcut] says whether the handler returns early. An error of the
    last [fetch] leaves the block. *)
Definition fetchBoth (shortcut : bool) (mk : Endpoint -> Request) (a : AttemptNet)
  : Fetched * list Exchange :=
  let x1 := {| request := mk ApiPrefix; reply := primary a |} in
  let x2 := {| request := mk NoPrefix; reply := fallbackTry a |} in
  let x3 := {| request := mk NoPrefix; reply := fallbackCatch a |} in
  let handler (log : list Exchange) :=
    if shortcut then (Shortcut, log)
    else match fallbackCatch a with
         | Responds r => (Got r, log ++ [x3])
         | Rejects e => (Threw e, log ++ [x3])
         end in
  match primary a with
  | Responds r =>
      if negb (ok r) && (status r =? 404)%nat then
        match fallbackTry a with
        | Responds r2 => (Got r2, [x1; x2])
        | Rejects _ => handler [x1; x2]
        end
      else (Got r, [x1])
  | Rejects _ => handler [x1]
  end.

(** [Math.min(a, b)] on durations. *)
Definition Math_min (a b : Q) : Q := if Qle_bool a b then a else b.

(** [Math.min(1000 * Math.pow(2, attempts) + Math.random() * jitter, cap)],
    in milliseconds. *)
Definition backoffTime (attempts : nat) (rnd jitter cap : Q) : Q :=
  Math_min (1000 * inject_Z (2 ^ Z.of_nat attempts) + rnd * jitter) cap.

(** How one iteration of a retry loop ends: the function returns, or the
    loop goes round again ([continue]) after [attempts++] and a pause. *)
Inductive Flow (R : Type) : Type :=
| Return (r : R)
| Continue (delay : Q).

Arguments Return {R} r.
Arguments Continue {R} delay.

(** The retry loop of the three gateways,
<<
    let attempts = 0;
    while (attempts < maxRetries) { ...body... }
    return exhausted;
>>
    Every path of a body that reaches [continue] has incremented
    [attempts] once, so [maxRetries] iterations are enough: the loop runs
    on [fuel], and [retryLoop_fuel] shows that more fuel changes
    nothing. [pause d] records the awaited [setTimeout] of [d] ms. *)
Section RetryLoop.
Context {St R : Type}.
Variable maxRetries : nat.
Variable iteration : nat -> St -> Flow R * St.
Variable pause : Q -> St -> St.
Variable exhausted : R.

Fixpoint retryLoop (fuel attempts : nat) (st : St) : R * St :=
match fuel with
| 0 => (exhausted, st)
| S fuel' =>
    if attempts <? maxRetries then
      match iteration attempts st with
      | (Return r, st') => (r, st')
      | (Continue d, st') => retryLoop fuel' (S attempts) (pause d st')
      end
    else (exhausted, st)
end.
End RetryLoop.

(** What a gateway call leaves behind on the wire and on the clock. *)
Record Wire : Type := { exchanges : list Exchange; delays : list Q }.

Definition silent : Wire := {| exchanges := []; delays := [] |}.

Definition sent (xs : list Exchange) (w : Wire) : Wire :=
  {| exchanges := exchanges w ++ xs; delays := delays w |}.

Definition waited (d : Q) (w : Wire) : Wire :=
  {| exchanges := exchanges w; delays := delays w ++ [d] |}.

(** [res.status >= 500 || res.status === 429]. *)
Definition retryable (r : Response) : bool :=
  (500 <=? status r) || (status r =? 429).

End Net.

(* ================================================================== *)
(** ** fetchSession.ts                                                  *)
(* ================================================================== *)

Module FetchSession.
Import JS Net.

(** [SessionType]. The type annotations of the source are erased at run
    time: a field holds whatever truthy value the response had under one
    of its aliases; only [price] is checked to be a number. *)
Record SessionType : Type := {
  _id : JVal;
  saasId : JVal;
  saasName : JVal;
  time : JVal;
  email : JVal;
  address : JVal;
  logoUrl : JVal;
  plan : JVal;
  price : float
}.

(** [session[field] === null || session[field] === undefined]. *)
Definition missing (v : JVal) : bool :=
  match v with JNull | JUndefined => true | _ => false end.

(** [data.k] where [data] is known to be truthy, hence not [null]. *)
Definition get (data : JData) (k : string) : JVal :=
  default JUndefined (getProp data k).

(** The alias chains of [mapResponseToSessionType]. *)
Definition resolve_id (data : JData) : JVal :=
  get data "_id" ||| get data "id" ||| get data "sessionId" ||| get data "session_id" ||| JNull.

Definition resolve_saasId (data : JData) : JVal :=
  get data "saasId" ||| get data "saas_id" ||| get data "merchantId" ||| get data "merchant_id" ||| JNull.

Definition resolve_saasName (data : JData) : JVal :=
  get data "saasName" ||| get data "saas_name" ||| get data "merchantName" ||| get data "merchant_name" ||| JNull.

Definition resolve_time (data : JData) : JVal :=
  get data "time" ||| get data "created_at" ||| get data "createdAt" ||| get data "timestamp" ||| JNull.

Definition resolve_email (data : JData) : JVal :=
  get data "email" ||| get data "customerEmail" ||| get data "customer_email" ||| JNull.

Definition resolve_address (data : JData) : JVal :=
  get data "address" ||| get data "walletAddress" ||| get data "wallet_address"
  ||| get data "merchantAddress" ||| get data "merchant_address" ||| JNull.

Definition resolve_logoUrl (data : JData) : JVal :=
  get data "logoUrl" ||| get data "logo_url" ||| get data "logo" ||| JNull.

Definition resolve_plan (data : JData) : JVal :=
  get data "plan" ||| get data "planName" ||| get data "plan_name" ||| JNull.

Definition resolve_price (data : JData) : JVal :=
  if isNumber (get data "price") then get data "price"
  else if isNumber (get data "amount") then get data "amount"
  else if isNumber (get data "planPrice") then get data "planPrice"
  else if isNumber (get data "plan_price") then get data "plan_price"
  else JNull.

(** [mapResponseToSessionType(data)]; [now] is [new Date().toISOString()]. *)
Definition mapResponseToSessionType (now : string) (data : JData) : option SessionType :=
  if negb (dataTruthy data) then None
  else if existsb missing
            [resolve_id data; resolve_saasId data; resolve_email data;
             resolve_address data; resolve_plan data; resolve_price data]
  then None
  else match resolve_price data with
       | JNum p =>
           if (p <=? 0)%float then None
           else Some {| _id := resolve_id data;
                        saasId := resolve_saasId data;
                        saasName := resolve_saasName data ||| JStr "Merchant";
                        time := resolve_time data ||| JStr now;
                        email := resolve_email data;
                        address := resolve_address data;
                        logoUrl := resolve_logoUrl data ||| JStr "";
                        plan := resolve_plan data;
                        price := p |}
       | _ => None
       end.

(** The characters [/[^a-zA-Z0-9-_]/g] leaves in place. *)
Definition idChar (c : ascii) : bool :=
  isLower c || isUpper c || isDigit c || isOneOf "-_" c.

Record FetchEnv : Type := { net : nat -> AttemptNet; now : string }.

Record FetchRun : Type := { result : option SessionType; wire : Wire }.

(** One iteration of the loop of [fetchSession]. *)
Definition fetchIteration (env : FetchEnv) (maxRetries : nat) (id : string)
    (attempts : nat) (w : Wire) : Flow (option SessionType) * Wire :=
  let a := net env attempts in
  let '(fetched, xs) :=
    fetchBoth false (fun e => {| endpoint := e; payload := [id] |}) a in
  let retry :=
    if S attempts <? maxRetries
    then Continue (backoffTime (S attempts) (random a) 1000 8000)
    else Return None in
  let flow :=
    match fetched with
    | Got res =>
        if negb (ok res) then
          if status res =? 404 then Return None
          else if retryable res then retry
          else Return None
        else
          match body res with
          | BadJSON => Return None
          | GoodJSON d =>
              if negb (dataTruthy d) then Return None
              else Return (mapResponseToSessionType (now env) d)
          end
    | Shortcut => Return None
    | Threw _ => retry
    end in
  (flow, sent xs w).

(** [fetchSession(sessionId, apiUrl, maxRetries)]. The base URL only
    changes the host the two requests go to. *)
Definition fetchSession (env : FetchEnv) (sessionId : string) (maxRetries : nat) : FetchRun :=
  if String.eqb sessionId "" then {| result := None; wire := silent |}
  else
    let sanitizedSessionId := keepChars idChar sessionId in
    if negb (String.eqb sanitizedSessionId sessionId)
    then {| result := None; wire := silent |}
    else
      let '(r, w) :=
        retryLoop maxRetries (fetchIteration env maxRetries sanitizedSessionId)
                  waited None maxRetries 0 silent in
      {| result := r; wire := w |}.

End FetchSession.

(* ================================================================== *)
(** ** verifyPayment.ts                                                 *)
(* ================================================================== *)

Module VerifyPayment.
Import JS Net.

(** The item [verified_signatures] of [window.sessionStorage]: absent,
    the JSON text of an array of signatures, or a text some other writer
    left there, on which [JSON.parse] or [includes] throws. *)
Inductive StorageItem : Type :=
| NoItem
| Signatures (l : list string)
| Garbage.

(** [verifiedSignatures ? JSON.parse(verifiedSignatures) : []]; [None]
    when it throws. *)
Definition readSignatures (item : StorageItem) : option (list string) :=
  match item with
  | NoItem => Some []
  | Signatures l => Some l
  | Garbage => None
  end.

(** [signatures.includes(signature)]. *)
Definition listed (signature : string) (signatures : list string) : bool :=
  existsb (String.eqb signature) signatures.

(** [storeVerifiedSignature(signature)], on [window.sessionStorage]:
    [None] when there is no [window] or no session storage. *)
Definition storeVerifiedSignature (signature : string) (storage : option StorageItem)
  : option StorageItem :=
  match storage with
  | None => None
  | Some item =>
      match readSignatures item with
      | Some signatures =>
          if negb (listed signature signatures)
          then Some (Signatures (signatures ++ [signature]))
          else Some item
      | None => Some item
      end
  end.

(** The guard that opens [verifyPayment]: the signature is in the stored
    list. An exception of the lookup is caught and the call goes on. *)
Definition alreadyVerified (signature : string) (storage : option StorageItem) : bool :=
  match storage with
  | Some item =>
      match readSignatures item with
      | Some signatures => listed signature signatures
      | None => false
      end
  | None => false
  end.

(** The three scans of [document.body.innerText]. *)
Definition successMarkers (pageText : string) : bool :=
  includes "Transaction verification successful" pageText
  || includes "Transaction verification successful! (Within tolerance)" pageText
  || includes "Signature already used" pageText
  || includes "Connected to Redis successfully" pageText
  || includes "Payment verified" pageText
  || includes "Found transfer instruction:" pageText.

Definition redisMarkers (pageText : string) : bool :=
  includes "Connected to Redis successfully" pageText
  || includes "Reconnecting to Redis" pageText.

Definition lateMarkers (pageText : string) : bool :=
  includes "Transaction verification successful" pageText
  || includes "Connected to Redis successfully" pageText
  || includes "Reconnecting to Redis" pageText.

Record VerifyResult : Type := {
  success : bool;
  message : JVal;
  data : option JData
}.

Definition verified (text : string) : VerifyResult :=
  {| success := true; message := JStr text; data := None |}.

Definition refused (msg : JVal) : VerifyResult :=
  {| success := false; message := msg; data := None |}.

Definition timeoutMessage : string :=
  "Payment may have been processed. Please check your account dashboard to verify.".

Definition exhaustedMessage : string :=
  "Failed to verify payment after multiple attempts. The payment may still have been processed. Check your account dashboard.".

(** The world of one call: whether there is a [window.document], the
    page text at the scan before the loop, and what happens during each
    iteration of the loop. *)
Record VerifyEnv : Type := {
  hasDocument : bool;
  pageBefore : string;
  net : nat -> AttemptNet
}.

Record VState : Type := { storage : option StorageItem; wire : Wire }.

Definition recorded (signature : string) (st : VState) : VState :=
  {| storage := storeVerifiedSignature signature (storage st); wire := wire st |}.

(** [{ message: 'Unknown error (could not parse response)' }]. *)
Definition unparsedError : JData :=
  DObj {[ "message" := JStr "Unknown error (could not parse response)" ]}.

(** One iteration of the loop of [verifyPayment]. [handler] is the outer
    [catch]: it receives the error of the last [fetch] and the
    [TypeError] of [errorData.message] when the error body is [null]. *)
Definition verifyIteration (env : VerifyEnv) (maxRetries : nat)
    (sessionId trimmedSignature userPubKey : string)
    (attempts : nat) (st : VState) : Flow VerifyResult * VState :=
  let a := net env attempts in
  let mk e := {| endpoint := e; payload := [sessionId; trimmedSignature; userPubKey] |} in
  let '(fetched, xs) := fetchBoth (hasDocument env && redisMarkers (page a)) mk a in
  let st1 := {| storage := storage st; wire := sent xs (wire st) |} in
  let handler (e : JsError) : Flow VerifyResult * VState :=
    match e with
    | AbortError =>
        if S attempts <? maxRetries
        then (Continue (backoffTime (S attempts) (random a) 100 10000), st1)
        else (Return (verified timeoutMessage), st1)
    | OtherError =>
        if hasDocument env && redisMarkers (page a)
        then (Return (verified "Payment appears to be processed successfully"),
              recorded trimmedSignature st1)
        else if S attempts <? maxRetries
        then (Continue (backoffTime (S attempts) (random a) 100 10000), st1)
        else (Return (refused (JStr "Error verifying payment")), st1)
    end in
  match fetched with
  | Shortcut =>
      (Return (verified "Payment appears to be processed successfully"),
       recorded trimmedSignature st1)
  | Threw e => handler e
  | Got res =>
      if status res =? 409 then
        (Return (verified "Payment already verified"), recorded trimmedSignature st1)
      else if negb (ok res) then
        let errorData :=
          match body res with BadJSON => unparsedError | GoodJSON d => d end in
        match getProp errorData "message" with
        | None => handler OtherError
        | Some msg =>
            if status res =? 400 then
              (Return (refused (msg ||| JStr "Invalid request parameters")), st1)
            else if status res =? 404 then
              (Return (refused (msg ||| JStr "Session not found")), st1)
            else if retryable res && (S attempts <? maxRetries) then
              (Continue (backoffTime (S attempts) (random a) 1000 10000), st1)
            else if hasDocument env && lateMarkers (page a) then
              (Return (verified "Payment appears to be processed successfully"),
               recorded trimmedSignature st1)
            else
              (Return (refused (msg ||| JStr "Payment verification failed")), st1)
        end
      else
        match body res with
        | GoodJSON d =>
            match getProp d "message" with
            | Some msg =>
                (Return {| success := true;
                           message := msg ||| JStr "Payment verified successfully";
                           data := Some d |},
                 recorded trimmedSignature st1)
            | None =>
                (Return (verified "Payment verified successfully"),
                 recorded trimmedSignature (recorded trimmedSignature st1))
            end
        | BadJSON =>
            (Return (verified "Payment verified successfully"),
             recorded trimmedSignature st1)
        end
  end.

Record VerifyRun : Type := { result : VerifyResult; after : VState }.

(** [verifyPayment(sessionId, signature, userPubKey, apiUrl, maxRetries)]
    started with [storage] in the session storage. *)
Definition verifyPayment (env : VerifyEnv) (sessionId signature userPubKey : string)
    (maxRetries : nat) (storage0 : option StorageItem) : VerifyRun :=
  let st0 := {| storage := storage0; wire := silent |} in
  if String.eqb sessionId "" || String.eqb signature "" || String.eqb userPubKey "" then
    {| result := refused (JStr "Missing required fields"); after := st0 |}
  else
    let trimmedSignature := trim signature in
    if alreadyVerified trimmedSignature storage0 then
      {| result := verified "Payment already verified"; after := st0 |}
    else if hasDocument env && successMarkers (pageBefore env) then
      {| result := verified "Payment appears to be verified successfully";
         after := recorded trimmedSignature st0 |}
    else
      let '(r, st) :=
        retryLoop maxRetries
          (verifyIteration env maxRetries sessionId trimmedSignature userPubKey)
          (fun d st => {| storage := storage st; wire := waited d (wire st) |})
          (refused (JStr exhaustedMessage)) maxRetries 0 st0 in
      {| result := r; after := st |}.

End VerifyPayment.

(* ================================================================== *)
(** ** createSession.ts                                                 *)
(* ================================================================== *)

Module CreateSession.
Import JS Net.

(** [s] cut at the first [sep]. *)
Fixpoint splitFirst (sep : ascii) (s : string) : option (string * string) :=
  match s with
  | EmptyString => None
  | String c rest =>
      if Ascii.eqb c sep then Some (EmptyString, rest)
      else match splitFirst sep rest with
           | Some (l, r) => Some (String c l, r)
           | None => None
           end
  end.

(** [s] cut at the last [sep]. *)
Fixpoint splitLast (sep : ascii) (s : string) : option (string * string) :=
  match s with
  | EmptyString => None
  | String c rest =>
      match splitLast sep rest with
      | Some (l, r) => Some (String c l, r)
      | None => if Ascii.eqb c sep then Some (EmptyString, rest) else None
      end
  end.

Definition localChar (c : ascii) : bool :=
  isLower c || isUpper c || isDigit c || isOneOf "._%+-" c.

Definition domainChar (c : ascii) : bool :=
  isLower c || isUpper c || isDigit c || isOneOf ".-" c.

(** [/^[a-zA-Z0-9._%+-]+@[a-zA-Z0-9.-]+\.[a-zA-Z]{2,}$/.test(email)].
    Neither class holds ["@"], so the ["@"] of a match is the only one
    of the string; the last group holds no ["."], so the ["."] before it
    is the last one. *)
Definition validateEmail (email : string) : bool :=
  match splitFirst "@" email with
  | None => false
  | Some (loc, rest) =>
      match splitLast "." rest with
      | None => false
      | Some (domain, tld) =>
          (1 <=? String.length loc) && allChars localChar loc
          && (1 <=? String.length domain) && allChars domainChar domain
          && (2 <=? String.length tld) && allChars isLetter tld
      end
  end.

(** [input.replace(/<[^>]*>?/gm, '')]: from a ["<"] everything up to and
    with the next [">"], or up to the end, is dropped. *)
Fixpoint stripTags (inTag : bool) (s : string) : string :=
  match s with
  | EmptyString => EmptyString
  | String c rest =>
      if inTag then stripTags (negb (Ascii.eqb c ">")) rest
      else if Ascii.eqb c "<" then stripTags true rest
      else String c (stripTags false rest)
  end.

Definition sanitizeInput (input : string) : string := trim (stripTags false input).

Record CreateEnv : Type := { net : nat -> AttemptNet }.

Record CreateRun : Type := { result : option JVal; wire : Wire }.

(** [{ message: 'Unknown error' }]. *)
Definition unknownError : JData := DObj {[ "message" := JStr "Unknown error" ]}.

(** One iteration of the loop of [createSession]. The [console.error] of
    the error branch reads [errorData.message]: on a body that is the
    JSON text [null] this throws, and the outer [catch] takes over. *)
Definition createIteration (env : CreateEnv) (maxRetries : nat)
    (sanitizedSaasId sanitizedEmail sanitizedPlan : string)
    (attempts : nat) (w : Wire) : Flow (option JVal) * Wire :=
  let a := net env attempts in
  let mk e := {| endpoint := e;
                 payload := [sanitizedSaasId; sanitizedEmail; sanitizedPlan] |} in
  let '(fetched, xs) := fetchBoth false mk a in
  let retry :=
    if S attempts <? maxRetries
    then Continue (backoffTime (S attempts) (random a) 1000 10000)
    else Return None in
  let flow :=
    match fetched with
    | Got res =>
        if negb (ok res) then
          let errorData :=
            match body res with BadJSON => unknownError | GoodJSON d => d end in
          match getProp errorData "message" with
          | None => retry
          | Some _ => if retryable res then retry else Return None
          end
        else
          match body res with
          | BadJSON => Return None
          | GoodJSON d =>
              if negb (dataTruthy d) then Return None
              else if negb (truthy (default JUndefined (getProp d "sessionId")))
              then Return None
              else Return (getProp d "sessionId")
          end
    | Shortcut => Return None
    | Threw _ => retry
    end in
  (flow, sent xs w).

(** [createSession(saasId, email, plan, apiUrl, maxRetries)]. *)
Definition createSession (env : CreateEnv) (saasId email plan : string)
    (maxRetries : nat) : CreateRun :=
  if String.eqb saasId "" then {| result := None; wire := silent |}
  else if String.eqb email "" || negb (validateEmail email)
  then {| result := None; wire := silent |}
  else if String.eqb plan "" then {| result := None; wire := silent |}
  else
    let '(r, w) :=
      retryLoop maxRetries
        (createIteration env maxRetries
           (sanitizeInput saasId) (sanitizeInput email) (sanitizeInput plan))
        waited None maxRetries 0 silent in
    {| result := r; wire := w |}.

End CreateSession.

(* ================================================================== *)
(** ** PaymentModal.tsx: handlePayment                                  *)
(* ================================================================== *)

Module Payment.
Import JS Net.
Import VerifyPayment.

(** The keys of [Tokens]. *)
Inductive Token : Type := SOL | USDC | USDT | JUP | BONK | PUDGY.

(** [LAMPORTS_PER_SOL] of [@solana/web3.js]. *)
Definition LAMPORTS_PER_SOL : float := 1000000000.

(** What is handed to the wallet or to the ledger for submission. An
    amount is the integer [Math.round] produced, if it produced one. *)
Inductive Tx : Type :=
| Transfer (fromPubkey toPubkey : string) (lamports : option Z)
| TokenTransfer (owner : string) (amount : option Z)
| JupiterSwap.

(** [confirmationStatus] of a signature status. *)
Inductive Confirmation : Type := Processed | Confirmed | Finalized.

(** An awaited call yields a value or throws an [Error] with a message. *)
Inductive Exc (A : Type) : Type :=
| Ok (a : A)
| Err (msg : string).

Arguments Ok {A} a.
Arguments Err {A} msg.

(** Props and state of the component, and the state of the window, when
    [handlePayment] starts. *)
Record Checkout : Type := {
  sessionId : string;
  pricing : float;
  merchantWalletAddress : string;
  selectedToken : option Token;
  paymentCompleted : bool;
  sessionStorage : option StorageItem
}.

(** The capabilities [handlePayment] calls, each with its answer.
    [wallet] is the public key when [publicKey && signTransaction] holds.
    [safetyTimerFires] says that the 60 seconds of the safety timer
    elapse while the handler is suspended in one of its awaits. *)
Record PayEnv : Type := {
  wallet : option string;
  merchantKey : Exc unit;
  solanaPrice : Exc float;
  tokenAccounts : Exc unit;
  senderAccountInfo : Exc bool;
  tokenBalance : Exc (option float);
  quoteHasRoutePlan : Exc bool;
  swapHasTransaction : Exc bool;
  deserialized : Exc unit;
  signedSignature : Exc string;
  sendResult : Exc string;
  latestBlockhash : Exc unit;
  confirmation : Exc (option string);
  verifyEnv : nat -> VerifyEnv;
  signatureStatus : Exc (option Confirmation);
  consoleText : string;
  safetyTimerFires : bool
}.

(** What a run changes and what it leaves in its log. [redirects]
    counts the [setTimeout(() => onRedirect(), ...)] that were set: each
    of them runs [onRedirect] once, nothing cancels them. *)
Record PState : Type := {
  completed : bool;
  redirects : nat;
  storage : option StorageItem;
  dispatched : list Tx;
  statusQueries : list string;
  verifications : list VerifyRun;
  pauses : list Q
}.

(** The [try] block: state passing with exceptions; the state reached
    when an exception is thrown is kept. *)
Definition M (A : Type) : Type := PState -> Exc A * PState.

Definition ret {A} (a : A) : M A := fun st => (Ok a, st).

Definition throw {A} (msg : string) : M A := fun st => (Err msg, st).

Definition bind {A B} (m : M A) (k : A -> M B) : M B :=
  fun st =>
    match m st with
    | (Ok a, st') => k a st'
    | (Err msg, st') => (Err msg, st')
    end.

Definition await {A} (e : Exc A) : M A := fun st => (e, st).

Definition update (f : PState -> PState) : M unit := fun st => (Ok tt, f st).

Notation "x <-- m ;; k" := (bind m (fun x => k))
  (at level 100, m at next level, right associativity).
Notation "m ;;; k" := (bind m (fun _ => k))
  (at level 100, right associativity).

Inductive Outcome : Type := Success | Failure.

Definition scheduleRedirect : M unit :=
  update (fun st =>
    {| completed := completed st; redirects := S (redirects st);
       storage := storage st; dispatched := dispatched st;
       statusQueries := statusQueries st; verifications := verifications st;
       pauses := pauses st |}).

Definition markCompleted : M unit :=
  update (fun st =>
    {| completed := true; redirects := redirects st;
       storage := storage st; dispatched := dispatched st;
       statusQueries := statusQueries st; verifications := verifications st;
       pauses := pauses st |}).

Definition dispatch (tx : Tx) : M unit :=
  update (fun st =>
    {| completed := completed st; redirects := redirects st;
       storage := storage st; dispatched := dispatched st ++ [tx];
       statusQueries := statusQueries st; verifications := verifications st;
       pauses := pauses st |}).

Definition queryStatus (signature : string) : M unit :=
  update (fun st =>
    {| completed := completed st; redirects := redirects st;
       storage := storage st; dispatched := dispatched st;
       statusQueries := statusQueries st ++ [signature];
       verifications := verifications st; pauses := pauses st |}).

Definition sleep (ms : Q) : M unit :=
  update (fun st =>
    {| completed := completed st; redirects := redirects st;
       storage := storage st; dispatched := dispatched st;
       statusQueries := statusQueries st; verifications := verifications st;
       pauses := pauses st ++ [ms] |}).

(** [await verifyPayment(sessionId, signature, publicKey.toString())],
    with the default [maxRetries = 3], on the session storage as it is. *)
Definition callVerify (venv : VerifyEnv) (sessionId signature publicKey : string)
  : M VerifyResult :=
  fun st =>
    let run := verifyPayment venv sessionId signature publicKey 3 (storage st) in
    (Ok (VerifyPayment.result run),
     {| completed := completed st; redirects := redirects st;
        storage := VerifyPayment.storage (after run);
        dispatched := dispatched st; statusQueries := statusQueries st;
        verifications := verifications st ++ [run]; pauses := pauses st |}).

(** [verificationResponse?.success]. *)
Definition succeeded (response : option VerifyResult) : bool :=
  match response with
  | Some r => success r
  | None => false
  end.

(** The verification loop of the handler,
<<
    while (retryCount < maxRetries && !verificationResponse?.success) {
      verificationResponse = await verifyPayment(...);
      if (!verificationResponse?.success && retryCount < maxRetries - 1)
        await new Promise(resolve => setTimeout(resolve, 2000));
      retryCount++;
    }
>>
    with [maxRetries = 3]; three units of fuel cover it. *)
Fixpoint verifyRounds (env : PayEnv) (sessionId signature publicKey : string)
    (fuel retryCount : nat) (response : option VerifyResult)
  : M (option VerifyResult) :=
  match fuel with
  | 0 => ret response
  | S fuel' =>
      if (retryCount <? 3) && negb (succeeded response) then
        r <-- callVerify (verifyEnv env retryCount) sessionId signature publicKey ;;
        (if negb (success r) && (retryCount <? 3 - 1) then sleep 2000 else ret tt) ;;;
        verifyRounds env sessionId signature publicKey fuel' (S retryCount) (Some r)
      else ret response
  end.

(** The marker scan of the handler on [document.body.innerText]. *)
Definition consoleMarkers (text : string) : bool :=
  includes "Connected to Redis successfully" text
  || includes "Reconnecting to Redis" text
  || includes "Transaction verification successful" text
  || includes "✅ Transaction verification successful" text.

(** The block the three asset paths end with: the verification loop on
    [verifySignature], then, when no call succeeded, the ledger status of
    [statusSignature] and the marker scan. The source has this block
    three times; the copies differ in the icon of a toast, and the swap
    path verifies the signature of the signed transaction while it asks
    the ledger about the one [sendRawTransaction] returned. *)
Definition verifyAndFinish (env : PayEnv) (sessionId publicKey : string)
    (verifySignature statusSignature : string) : M Outcome :=
  response <-- verifyRounds env sessionId verifySignature publicKey 3 0 None ;;
  if negb (succeeded response) then
    queryStatus statusSignature ;;;
    txStatus <-- await (signatureStatus env) ;;
    match txStatus with
    | Some Finalized | Some Confirmed =>
        markCompleted ;;; scheduleRedirect ;;; ret Success
    | _ =>
        if consoleMarkers (consoleText env) then scheduleRedirect ;;; ret Success
        else ret Failure
    end
  else
    markCompleted ;;; scheduleRedirect ;;; ret Success.

(** [!tokenBalance.value.uiAmount || tokenBalance.value.uiAmount === 0]. *)
Definition noBalance (uiAmount : option float) : bool :=
  match uiAmount with
  | None => true
  | Some x => (x =? 0)%float || is_nan x
  end.

(** The callback of the safety timer: a redirect is forced unless
    [window.paymentCompleted] is set. The handler sets the flag only in
    the synchronous stretch that ends in its [finally], which clears the
    timer; so a timer that fires reads the flag the run started with. *)
Definition safetyTimer (env : PayEnv) : M unit :=
  fun st =>
    if safetyTimerFires env && negb (completed st)
    then scheduleRedirect st
    else (Ok tt, st).

(** The [try] block of [handlePayment]. *)
Definition tryBlock (env : PayEnv) (c : Checkout) (publicKey : string) : M Outcome :=
  await (merchantKey env) ;;;
  safetyTimer env ;;;
  solanaPrice <-- await (solanaPrice env) ;;
  let solAmount := (pricing c / solanaPrice)%float in
  match selectedToken c with
  | Some SOL =>
      dispatch (Transfer publicKey (merchantWalletAddress c)
                         (Math_round (solAmount * LAMPORTS_PER_SOL)%float)) ;;;
      signature <-- await (sendResult env) ;;
      await (latestBlockhash env) ;;;
      await (confirmation env) ;;;
      verifyAndFinish env (sessionId c) publicKey signature signature
  | Some USDC =>
      await (tokenAccounts env) ;;;
      let usdcAmount := Math_round (pricing c * 1000000)%float in
      dispatch (TokenTransfer publicKey usdcAmount) ;;;
      signature <-- await (sendResult env) ;;
      await (latestBlockhash env) ;;;
      await (confirmation env) ;;;
      verifyAndFinish env (sessionId c) publicKey signature signature
  | other =>
      await (tokenAccounts env) ;;;
      (match other with
       | None => throw "Invalid public key input"
       | Some _ => ret tt
       end) ;;;
      found <-- await (senderAccountInfo env) ;;
      (if negb found
       then throw "Please ensure you have the selected token in your wallet before proceeding."
       else ret tt) ;;;
      balance <-- await (tokenBalance env) ;;
      (if noBalance balance
       then throw "Insufficient token balance. Please fund your wallet with the selected token."
       else ret tt) ;;;
      routePlan <-- await (quoteHasRoutePlan env) ;;
      (if negb routePlan
       then throw "Invalid quote response. Check token selection and balance."
       else ret tt) ;;;
      swapTransaction <-- await (swapHasTransaction env) ;;
      (if negb swapTransaction
       then throw "Invalid swap response. Check parameters."
       else ret tt) ;;;
      await (deserialized env) ;;;
      signature1 <-- await (signedSignature env) ;;
      dispatch JupiterSwap ;;;
      signature <-- await (sendResult env) ;;
      err <-- await (confirmation env) ;;
      (match err with
       | Some e => throw ("Transaction failed: " ++ e)%string
       | None => ret tt
       end) ;;;
      verifyAndFinish env (sessionId c) publicKey signature1 signature
  end.

Record PayRun : Type := { outcome : Outcome; final : PState }.

(** [handlePayment()]. Without a wallet it returns before the [try]:
    nothing is set up. Otherwise the safety timer is set, the [try]
    block runs, an exception ends in the [catch] (a toast, nothing
    else), and the [finally] clears the safety timer: after the run it
    cannot fire any more. *)
Definition handlePayment (env : PayEnv) (c : Checkout) : PayRun :=
  let st0 := {| completed := paymentCompleted c; redirects := 0;
                storage := sessionStorage c; dispatched := [];
                statusQueries := []; verifications := []; pauses := [] |} in
  match wallet env with
  | None => {| outcome := Failure; final := st0 |}
  | Some publicKey =>
      match tryBlock env c publicKey st0 with
      | (Ok o, st) => {| outcome := o; final := st |}
      | (Err _, st) => {| outcome := Failure; final := st |}
      end
  end.

End Payment.

(* ================================================================== *)
(** ** PaymentModal.tsx: the session effect                             *)
(* ================================================================== *)

Module PaymentModal.
Import JS Net.

(** The state [fetchSessionCaller] sets. *)
Record Display : Type := {
  email : JVal;
  saasLogoURL : JVal;
  saasName : JVal;
  plan : JVal;
  pricing : float;
  merchantWalletAddress : JVal
}.

(** [!res._id || !res.address || !res.email || !res.plan || !res.price
    || !res.saasId || !res.time]. *)
Definition incomplete (res : FetchSession.SessionType) : bool :=
  negb (truthy (FetchSession._id res)) || negb (truthy (FetchSession.address res))
  || negb (truthy (FetchSession.email res)) || negb (truthy (FetchSession.plan res))
  || negb (truthy (JNum (FetchSession.price res)))
  || negb (truthy (FetchSession.saasId res)) || negb (truthy (FetchSession.time res)).

(** What the effect does: it calls [onRedirect()], or it sets the state. *)
Record CallerRun : Type := { redirected : bool; display : option Display }.

(** [fetchSessionCaller()], with the default [maxRetries = 3] of
    [fetchSession]. *)
Definition fetchSessionCaller (env : FetchSession.FetchEnv) (sessionId : string)
  : CallerRun :=
  match FetchSession.result (FetchSession.fetchSession env sessionId 3) with
  | None => {| redirected := true; display := None |}
  | Some res =>
      if incomplete res then {| redirected := true; display := None |}
      else {| redirected := false;
              display := Some {| email := FetchSession.email res ||| JStr "";
                                 saasLogoURL := FetchSession.logoUrl res;
                                 saasName := FetchSession.saasName res;
                                 plan := FetchSession.plan res;
                                 pricing := FetchSession.price res;
                                 merchantWalletAddress := FetchSession.address res |} |}
  end.

End PaymentModal.

(* ================================================================== *)
(** * Properties                                                        *)
(* ================================================================== *)

(** ** The retry loop, the inner try/catch and the backoff              *)

Module NetFacts.
Import JS Net.

(** A Hoare rule for [retryLoop]: an invariant [I] of the loop head,
    indexed by [attempts], and a postcondition [P] of the call. With
    fuel for the iterations that are left, the call ends in [P]. *)
Lemma retryLoop_rule {St R : Type} (maxRetries : nat)
    (iteration : nat -> St -> Flow R * St) (pause : Q -> St -> St) (exhausted : R)
    (I : nat -> St -> Prop) (P : R -> St -> Prop) :
  (forall k st, I k st -> k < maxRetries ->
     match iteration k st with
     | (Return r, st') => P r st'
     | (Continue d, st') => I (S k) (pause d st')
     end) ->
  (forall k st, I k st -> maxRetries <= k -> P exhausted st) ->
  forall fuel k st, maxRetries <= fuel + k -> I k st ->
    P (fst (retryLoop maxRetries iteration pause exhausted fuel k st))
      (snd (retryLoop maxRetries iteration pause exhausted fuel k st)).
Proof.
  intros Hstep Hexit fuel.
  induction fuel as [|fuel IH]; intros k st Hfuel HI; cbn [retryLoop].
  - apply (Hexit k st HI). lia.
  - destruct (Nat.ltb_spec k maxRetries) as [Hlt|Hge].
    + specialize (Hstep k st HI Hlt).
      destruct (iteration k st) as [[r|d] st']; cbn [fst snd].
      * exact Hstep.
      * apply IH; [lia | exact Hstep].
    + apply (Hexit k st HI Hge).
Qed.

(** Fuel beyond the iterations that are left changes nothing: the loop
    of the source, which has no fuel, is the one computed. *)
Lemma retryLoop_fuel {St R : Type} (maxRetries : nat)
    (iteration : nat -> St -> Flow R * St) (pause : Q -> St -> St) (exhausted : R) :
  forall fuel fuel' k st, maxRetries <= fuel + k -> maxRetries <= fuel' + k ->
    retryLoop maxRetries iteration pause exhausted fuel k st
    = retryLoop maxRetries iteration pause exhausted fuel' k st.
Proof.
  induction fuel as [|fuel IH]; intros fuel' k st H H'.
  - destruct fuel' as [|fuel']; [reflexivity|]. cbn [retryLoop].
    destruct (Nat.ltb_spec k maxRetries); [lia | reflexivity].
  - destruct fuel' as [|fuel']; cbn [retryLoop].
    + destruct (Nat.ltb_spec k maxRetries); [lia | reflexivity].
    + destruct (k <? maxRetries); [|reflexivity].
      destruct (iteration k st) as [[r|d] st']; [reflexivity|].
      apply IH; lia.
Qed.

(** The outcome of the inner try/catch does not depend on what the
    requests carry. *)
Definition fetchOutcome (shortcut : bool) (a : AttemptNet) : Fetched :=
  fst (fetchBoth shortcut (fun e => {| endpoint := e; payload := [] |}) a).

Lemma fetchBoth_outcome shortcut mk a :
  fst (fetchBoth shortcut mk a) = fetchOutcome shortcut a.
Proof.
  unfold fetchOutcome, fetchBoth.
  destruct (primary a) as [r|e]; cbn.
  - destruct (negb (ok r) && (status r =? 404)); [|reflexivity].
    destruct (fallbackTry a); [reflexivity|].
    destruct shortcut; [reflexivity|]. destruct (fallbackCatch a); reflexivity.
  - destruct shortcut; [reflexivity|]. destruct (fallbackCatch a); reflexivity.
Qed.

(** One request goes to the [/api] URL, at most two to the other. *)
Definition toApi (x : Exchange) : bool :=
  match endpoint (request x) with ApiPrefix => true | NoPrefix => false end.

Lemma fetchBoth_requests shortcut mk a :
  (forall e, endpoint (mk e) = e) ->
  length (List.filter toApi (snd (fetchBoth shortcut mk a))) = 1
  /\ 1 <= length (snd (fetchBoth shortcut mk a)) <= 3.
Proof.
  intros Hmk. unfold fetchBoth.
  assert (Ht : forall r, toApi {| request := mk ApiPrefix; reply := r |} = true)
    by (intros; unfold toApi; cbn; now rewrite Hmk).
  assert (Hf : forall r, toApi {| request := mk NoPrefix; reply := r |} = false)
    by (intros; unfold toApi; cbn; now rewrite Hmk).
  destruct (primary a) as [r|e].
  - destruct (negb (ok r) && (status r =? 404)).
    + destruct (fallbackTry a) as [r2|e2].
      * cbn. rewrite Ht, Hf. cbn. lia.
      * destruct shortcut; [|destruct (fallbackCatch a)];
          cbn; rewrite ?Ht, ?Hf; cbn; lia.
    + cbn. rewrite Ht. cbn. lia.
  - destruct shortcut; [|destruct (fallbackCatch a)];
      cbn; rewrite ?Ht, ?Hf; cbn; lia.
Qed.

(** A response that was received is the one the iteration goes on with,
    unless it is the 404 of the first URL. *)
Lemma fetchBoth_received shortcut mk a x r :
  In x (snd (fetchBoth shortcut mk a)) -> reply x = Responds r ->
  fst (fetchBoth shortcut mk a) = Got r \/ status r = 404.
Proof.
  unfold fetchBoth.
  destruct (primary a) as [r1|e1] eqn:Hp.
  - destruct (negb (ok r1) && (status r1 =? 404)) eqn:H404.
    + apply andb_true_iff in H404 as [_ H404]. apply Nat.eqb_eq in H404.
      destruct (fallbackTry a) as [r2|e2] eqn:Hf.
      * cbn. intros [<-|[<-|[]]]; cbn; intros Hr.
        -- right. congruence.
        -- left. congruence.
      * destruct shortcut; [|destruct (fallbackCatch a) as [r3|e3] eqn:Hc]; cbn.
        -- intros [<-|[<-|[]]]; cbn; intros Hr; [right|]; congruence.
        -- intros [<-|[<-|[<-|[]]]]; cbn; intros Hr;
             [right; congruence | congruence | left; congruence].
        -- intros [<-|[<-|[<-|[]]]]; cbn; intros Hr;
             [right; congruence | congruence | congruence].
    + cbn. intros [<-|[]]; cbn; intros Hr. left. congruence.
  - destruct shortcut; [|destruct (fallbackCatch a) as [r3|e3] eqn:Hc]; cbn.
    + intros [<-|[]]; cbn; congruence.
    + intros [<-|[<-|[]]]; cbn; intros Hr; [congruence | left; congruence].
    + intros [<-|[<-|[]]]; cbn; intros Hr; congruence.
Qed.

(** The response an iteration goes on with was received in it. *)
Lemma fetchBoth_got shortcut mk a r :
  fst (fetchBoth shortcut mk a) = Got r ->
  exists x, In x (snd (fetchBoth shortcut mk a)) /\ reply x = Responds r.
Proof.
  unfold fetchBoth.
  destruct (primary a) as [r1|e1] eqn:Hp.
  - destruct (negb (ok r1) && (status r1 =? 404)).
    + destruct (fallbackTry a) as [r2|e2] eqn:Hf.
      * cbn. intros [= <-]. eexists. split; [right; left; reflexivity|]. reflexivity.
      * destruct shortcut; [|destruct (fallbackCatch a) as [r3|e3] eqn:Hc]; cbn;
          try discriminate.
        intros [= <-]. eexists. split; [right; right; left; reflexivity|]. reflexivity.
    + cbn. intros [= <-]. eexists. split; [left; reflexivity|]. reflexivity.
  - destruct shortcut; [|destruct (fallbackCatch a) as [r3|e3] eqn:Hc]; cbn;
      try discriminate.
    intros [= <-]. eexists. split; [right; left; reflexivity|]. reflexivity.
Qed.

(** Comparisons of binary64 values with zero. *)
Lemma positive_not_le (p : float) : (0 <? p)%float = true -> (p <=? 0)%float = false.
Proof.
  rewrite FloatAxioms.ltb_spec, FloatAxioms.leb_spec.
  replace (Prim2SF 0) with (S754_zero false) by reflexivity.
  unfold SFltb, SFleb.
  destruct (Prim2SF p) as [s|s| |s m e]; try destruct s; cbn;
    try discriminate; reflexivity.
Qed.

Lemma not_le_positive (p : float) :
  is_nan p = false -> (p <=? 0)%float = false -> (0 <? p)%float = true.
Proof.
  unfold is_nan.
  rewrite FloatAxioms.eqb_spec, FloatAxioms.leb_spec, FloatAxioms.ltb_spec.
  replace (Prim2SF 0) with (S754_zero false) by reflexivity.
  unfold SFeqb, SFltb, SFleb.
  destruct (Prim2SF p) as [s|s| |s m e]; try destruct s; cbn;
    try discriminate; reflexivity.
Qed.

End NetFacts.

(** ** The backoff delays are ordered                                  *)

Module BackoffFacts.
Import JS Net.

Lemma Math_min_le_l a b : (Math_min a b <= a)%Q.
Proof.
  unfold Math_min. destruct (Qle_bool a b) eqn:H; [lra|].
  destruct (Qlt_le_dec b a) as [Hlt|Hle]; [lra|].
  apply Qle_bool_iff in Hle. congruence.
Qed.

Lemma Math_min_le_r a b : (Math_min a b <= b)%Q.
Proof.
  unfold Math_min. destruct (Qle_bool a b) eqn:H; [|lra].
  now apply Qle_bool_iff.
Qed.

Lemma Math_min_glb a b c : (c <= a)%Q -> (c <= b)%Q -> (c <= Math_min a b)%Q.
Proof. intros. unfold Math_min. destruct (Qle_bool a b); assumption. Qed.

Lemma Math_min_glb_lt a b c : (c < a)%Q -> (c < b)%Q -> (c < Math_min a b)%Q.
Proof. intros. unfold Math_min. destruct (Qle_bool a b); assumption. Qed.

Lemma Math_min_below a b : (Math_min a b < b)%Q -> Math_min a b = a.
Proof.
  unfold Math_min. destruct (Qle_bool a b); [reflexivity|]. intros H. lra.
Qed.

(** A value of [Math.random()] and the width of a jitter of the source. *)
Definition unitInterval (rnd : Q) : Prop := (0 <= rnd /\ rnd < 1)%Q.
Definition jitterWidth (jitter : Q) : Prop := (0 <= jitter /\ jitter <= 1000)%Q.

Lemma jitter_range rnd jitter :
  unitInterval rnd -> jitterWidth jitter -> (0 <= rnd * jitter /\ rnd * jitter < 1000)%Q.
Proof.
  intros [H0 H1] [J0 J1]. split.
  - apply Qmult_le_0_compat; assumption.
  - destruct (Qlt_le_dec 0 jitter) as [Hpos|Hzero].
    + assert (rnd * jitter < 1 * jitter)%Q by (apply Qmult_lt_compat_r; assumption). lra.
    + assert (jitter == 0)%Q by lra.
      assert (rnd * jitter == 0)%Q by (rewrite H; ring). lra.
Qed.

Lemma pow2_double (i j : nat) : i < j -> (2 * 2 ^ Z.of_nat i <= 2 ^ Z.of_nat j)%Z.
Proof.
  intros H. replace (2 * 2 ^ Z.of_nat i)%Z with (2 ^ Z.of_nat (S i))%Z.
  - apply Z.pow_le_mono_r; lia.
  - rewrite Nat2Z.inj_succ, Z.pow_succ_r; lia.
Qed.

Definition uncapped (attempts : nat) (rnd jitter : Q) : Q :=
  (1000 * inject_Z (2 ^ Z.of_nat attempts) + rnd * jitter)%Q.

Lemma uncapped_increasing i j r r' w w' :
  i < j -> unitInterval r -> jitterWidth w -> unitInterval r' -> jitterWidth w' ->
  (uncapped i r w < uncapped j r' w')%Q.
Proof.
  intros Hij Hr Hw Hr' Hw'. unfold uncapped.
  destruct (jitter_range r w Hr Hw) as [_ Hup].
  destruct (jitter_range r' w' Hr' Hw') as [Hlo _].
  pose proof (pow2_double i j Hij) as Hp.
  assert (H1 : (1 <= 2 ^ Z.of_nat i)%Z)
    by (assert (0 < 2 ^ Z.of_nat i)%Z by (apply Z.pow_pos_nonneg; lia); lia).
  rewrite Zle_Qle in Hp. rewrite Zle_Qle in H1.
  rewrite inject_Z_mult in Hp.
  change (inject_Z 2) with 2%Q in Hp. change (inject_Z 1) with 1%Q in H1.
  lra.
Qed.

Lemma backoffTime_monotone i j r r' w w' cap :
  i < j -> unitInterval r -> jitterWidth w -> unitInterval r' -> jitterWidth w' ->
  (backoffTime i r w cap <= backoffTime j r' w' cap)%Q.
Proof.
  intros Hij Hr Hw Hr' Hw'. unfold backoffTime.
  pose proof (uncapped_increasing i j r r' w w' Hij Hr Hw Hr' Hw') as H.
  unfold uncapped in H.
  apply Math_min_glb.
  - pose proof (Math_min_le_l (1000 * inject_Z (2 ^ Z.of_nat i) + r * w) cap). lra.
  - apply Math_min_le_r.
Qed.

Lemma backoffTime_strict i j r r' w w' cap :
  i < j -> unitInterval r -> jitterWidth w -> unitInterval r' -> jitterWidth w' ->
  (backoffTime i r w cap < cap)%Q ->
  (backoffTime i r w cap < backoffTime j r' w' cap)%Q.
Proof.
  intros Hij Hr Hw Hr' Hw' Hcap. unfold backoffTime in *.
  pose proof (uncapped_increasing i j r r' w w' Hij Hr Hw Hr' Hw') as H.
  unfold uncapped in H.
  pose proof (Math_min_below _ _ Hcap) as E.
  rewrite E in Hcap |- *.
  apply Math_min_glb_lt; assumption.
Qed.

End BackoffFacts.

(** ** fetchSession: session ids and normalization                     *)

Module FetchSessionFacts.
Import JS Net NetFacts FetchSession.

(** *** Session ids *)

Lemma keepChars_length inClass s :
  String.length (keepChars inClass s) <= String.length s.
Proof.
  induction s as [|c s IH]; cbn; [lia|].
  destruct (inClass c); cbn; lia.
Qed.

Lemma keepChars_fixed inClass s :
  keepChars inClass s = s -> allChars inClass s = true.
Proof.
  induction s as [|c s IH]; cbn; [reflexivity|].
  destruct (inClass c) eqn:Hc; intros H; cbn.
  - apply IH. congruence.
  - pose proof (keepChars_length inClass s) as Hlen.
    rewrite H in Hlen. cbn in Hlen. lia.
Qed.

Lemma allChars_app inClass pre post :
  allChars inClass (pre ++ post)%string = allChars inClass pre && allChars inClass post.
Proof.
  induction pre as [|c pre IH]; [reflexivity|].
  change (String c pre ++ post)%string with (String c (pre ++ post)%string).
  cbn [allChars]. rewrite IH. now rewrite andb_assoc.
Qed.

Lemma fetchSession_needs_clean_id env sessionId maxRetries :
  allChars idChar sessionId = false ->
  fetchSession env sessionId maxRetries = {| result := None; wire := silent |}.
Proof.
  intros Hbad. unfold fetchSession.
  destruct (String.eqb sessionId ""); [reflexivity|].
  destruct (String.eqb_spec (keepChars idChar sessionId) sessionId) as [Heq|Hne];
    [|reflexivity].
  apply keepChars_fixed in Heq. congruence.
Qed.

(** C6. A session id with a character outside [A-Za-z0-9_-] makes
    [fetchSession] fail with nothing sent: no request carries the id,
    and none carries a cleaned-up id either. *)
Theorem fetchSession_rejects_malformed_id
    (env : FetchEnv) (maxRetries : nat) (pre post : string) (c : ascii) :
  idChar c = false ->
  fetchSession env (pre ++ String c post) maxRetries
  = {| result := None; wire := {| exchanges := []; delays := [] |} |}.
Proof.
  intros Hc. apply fetchSession_needs_clean_id.
  rewrite allChars_app. cbn. rewrite Hc. now rewrite andb_false_r.
Qed.

Definition quietEnv : FetchEnv :=
  {| net := fun _ => {| primary := Rejects OtherError; fallbackTry := Rejects OtherError;
                        fallbackCatch := Rejects OtherError; page := ""; random := 0 |};
     now := "2025-01-01T00:00:00.000Z" |}.

Lemma fetchSession_rejects_malformed_id_witness :
  fetchSession quietEnv "abc/../123" 3
  = {| result := None; wire := {| exchanges := []; delays := [] |} |}.
Proof.
  apply (fetchSession_rejects_malformed_id quietEnv 3 "abc" "../123" "/").
  reflexivity.
Defined.

(** *** Normalization *)

(** The session the specification describes for a response: every field
    from its alias chain, a default for the name, the logo and the time
    only. *)
Definition priceOf (v : JVal) : float :=
  match v with JNum p => p | _ => 0%float end.

Definition normalized (now : string) (data : JData) : SessionType :=
  {| _id := resolve_id data;
     saasId := resolve_saasId data;
     saasName := resolve_saasName data ||| JStr "Merchant";
     time := resolve_time data ||| JStr now;
     email := resolve_email data;
     address := resolve_address data;
     logoUrl := resolve_logoUrl data ||| JStr "";
     plan := resolve_plan data;
     price := priceOf (resolve_price data) |}.

(** A number greater than 0. *)
Definition positiveNumber (v : JVal) : bool :=
  match v with JNum p => (0 <? p)%float | _ => false end.

(** The six mandatory fields are there after alias resolution, and the
    price is a number greater than 0. *)
Definition mandatoryPresent (data : JData) : bool :=
  truthy (resolve_id data) && truthy (resolve_saasId data)
  && truthy (resolve_email data) && truthy (resolve_address data)
  && truthy (resolve_plan data) && positiveNumber (resolve_price data).

Lemma missing_chain (v : JVal) : missing (v ||| JNull) = negb (truthy (v ||| JNull)).
Proof.
  unfold or_else. destruct (truthy v) eqn:Hv; [|reflexivity].
  rewrite Hv. destruct v; cbn in *; congruence.
Qed.

Lemma resolve_price_cases (data : JData) :
  resolve_price data = JNull \/ exists p, resolve_price data = JNum p.
Proof.
  unfold resolve_price.
  repeat match goal with
         | |- context [isNumber ?v] =>
             destruct v eqn:?; cbn [isNumber]; eauto
         end.
Qed.

Lemma mapResponse_spec (now : string) (data : JData) :
  jsonNumber (resolve_price data) ->
  mapResponseToSessionType now data
  = if mandatoryPresent data then Some (normalized now data) else None.
Proof.
  intros Hnum.
  destruct data as [o|v].
  2:{ unfold mapResponseToSessionType, mandatoryPresent.
      replace (resolve_id (DVal v)) with JNull by (destruct v; reflexivity).
      cbn [truthy andb existsb missing orb]. now destruct (negb _). }
  unfold mapResponseToSessionType, mandatoryPresent, normalized.
  cbn [dataTruthy negb existsb].
  assert (E1 : missing (resolve_id (DObj o)) = negb (truthy (resolve_id (DObj o))))
    by apply missing_chain.
  assert (E2 : missing (resolve_saasId (DObj o)) = negb (truthy (resolve_saasId (DObj o))))
    by apply missing_chain.
  assert (E3 : missing (resolve_email (DObj o)) = negb (truthy (resolve_email (DObj o))))
    by apply missing_chain.
  assert (E4 : missing (resolve_address (DObj o)) = negb (truthy (resolve_address (DObj o))))
    by apply missing_chain.
  assert (E5 : missing (resolve_plan (DObj o)) = negb (truthy (resolve_plan (DObj o))))
    by apply missing_chain.
  rewrite E1, E2, E3, E4, E5. clear E1 E2 E3 E4 E5.
  destruct (truthy (resolve_id (DObj o))); [|reflexivity].
  destruct (truthy (resolve_saasId (DObj o))); [|reflexivity].
  destruct (truthy (resolve_email (DObj o))); [|reflexivity].
  destruct (truthy (resolve_address (DObj o))); [|reflexivity].
  destruct (truthy (resolve_plan (DObj o))); [|reflexivity].
  cbn [negb orb andb].
  destruct (resolve_price_cases (DObj o)) as [Hp|[p Hp]]; rewrite Hp in *;
    cbn [missing orb positiveNumber priceOf]; [reflexivity|].
  cbn in Hnum.
  destruct (p <=? 0)%float eqn:Hle.
  - destruct (0 <? p)%float eqn:Hlt; [|reflexivity].
    apply positive_not_le in Hlt. congruence.
  - now rewrite (not_le_positive p Hnum Hle).
Qed.

(** A session that [fetchSession] returns is the image of a body that
    was received with an ok status. *)
Definition received (w : Wire) (data : JData) : Prop :=
  exists x r, In x (exchanges w) /\ reply x = Responds r
              /\ ok r = true /\ body r = GoodJSON data.

Lemma fetchIteration_result env maxRetries id k w s :
  match fetchIteration env maxRetries id k w with
  | (Return r, w') =>
      r = Some s ->
      exists data, received w' data /\ mapResponseToSessionType (now env) data = Some s
  | (Continue _, _) => True
  end.
Proof.
  unfold fetchIteration.
  destruct (fetchBoth false _ (net env k)) as [fetched xs] eqn:Hfetch.
  assert (Hgot : forall r, fetched = Got r ->
            exists x, In x xs /\ reply x = Responds r).
  { intros r ->.
    pose proof (fetchBoth_got false
      (fun e => {| endpoint := e; payload := [id] |}) (net env k) r) as H.
    rewrite Hfetch in H. exact (H eq_refl). }
  destruct fetched as [res| |e].
  - destruct (ok res) eqn:Hok; cbn [negb].
    + destruct (body res) as [|d] eqn:Hbody; [discriminate|].
      destruct (dataTruthy d); cbn [negb]; [|discriminate].
      intros Hs. exists d. split; [|exact Hs].
      destruct (Hgot res eq_refl) as [x [Hin Hx]].
      exists x, res. cbn. rewrite in_app_iff. auto.
    + destruct (status res =? 404); [discriminate|].
      destruct (retryable res); [|discriminate].
      destruct (S k <? maxRetries); [exact I|discriminate].
  - discriminate.
  - destruct (S k <? maxRetries); [exact I|discriminate].
Qed.

Lemma fetchSession_result env sessionId maxRetries s :
  result (fetchSession env sessionId maxRetries) = Some s ->
  exists data, received (wire (fetchSession env sessionId maxRetries)) data
               /\ mapResponseToSessionType (now env) data = Some s.
Proof.
  unfold fetchSession.
  destruct (String.eqb sessionId ""); [discriminate|].
  destruct (negb _); [discriminate|].
  set (iter := fetchIteration env maxRetries (keepChars idChar sessionId)).
  pose proof (retryLoop_rule maxRetries iter waited None
    (fun _ _ => True)
    (fun r w => r = Some s ->
       exists data, received w data /\ mapResponseToSessionType (now env) data = Some s))
    as Hrule.
  destruct (retryLoop maxRetries iter waited None maxRetries 0 silent) as [r w] eqn:Hloop.
  cbn [result wire]. intros ->.
  specialize (Hrule
    ltac:(intros k st _ _;
          pose proof (fetchIteration_result env maxRetries
                        (keepChars idChar sessionId) k st s) as H;
          subst iter; destruct (fetchIteration _ _ _ k st) as [[r'|d] st']; auto)
    ltac:(intros; discriminate)
    maxRetries 0 silent ltac:(lia) I).
  rewrite Hloop in Hrule. exact (Hrule eq_refl).
Qed.

(** C5. Normalization fails closed. For a response whose price is a
    JSON number, [mapResponseToSessionType] yields a session exactly
    when each of the six mandatory fields is there after alias
    resolution and the price is a number greater than 0, and then the
    session has every field from its alias chain, with defaults for the
    name, the logo and the time only. A session that [fetchSession]
    returns is such an image of a body it received: never a partial
    record. *)
Theorem session_normalization_fails_closed
    (env : FetchEnv) (sessionId : string) (maxRetries : nat) :
  (forall data, jsonNumber (resolve_price data) ->
     mapResponseToSessionType (now env) data
     = if mandatoryPresent data then Some (normalized (now env) data) else None)
  /\ (forall s, result (fetchSession env sessionId maxRetries) = Some s ->
        exists data,
          received (wire (fetchSession env sessionId maxRetries)) data
          /\ mapResponseToSessionType (now env) data = Some s
          /\ (jsonNumber (resolve_price data) ->
                mandatoryPresent data = true /\ s = normalized (now env) data)).
Proof.
  split.
  - intros data. apply mapResponse_spec.
  - intros s Hs.
    destruct (fetchSession_result env sessionId maxRetries s Hs) as [data [Hrec Hmap]].
    exists data. repeat split; try assumption.
    + rewrite (mapResponse_spec _ _ H) in Hmap.
      destruct (mandatoryPresent data); [reflexivity|discriminate].
    + rewrite (mapResponse_spec _ _ H) in Hmap.
      destruct (mandatoryPresent data); congruence.
Qed.

(** A response in one of the backend's shapes, and the same without an
    e-mail address. *)
Definition sampleResponse : JData :=
  DObj (list_to_map
    [("sessionId", JStr "abc123"); ("merchantId", JStr "m1");
     ("customerEmail", JStr "e@x.com"); ("merchantAddress", JStr "M");
     ("planName", JStr "pro"); ("amount", JNum 10)]).

Definition sampleWithoutEmail : JData :=
  DObj (list_to_map
    [("sessionId", JStr "abc123"); ("merchantId", JStr "m1");
     ("merchantAddress", JStr "M"); ("planName", JStr "pro"); ("amount", JNum 10)]).

Example sampleResponse_session :
  mapResponseToSessionType "2025-01-01T00:00:00.000Z" sampleResponse
  = Some {| _id := JStr "abc123"; saasId := JStr "m1"; saasName := JStr "Merchant";
            time := JStr "2025-01-01T00:00:00.000Z"; email := JStr "e@x.com";
            address := JStr "M"; logoUrl := JStr ""; plan := JStr "pro";
            price := 10 |}.
Proof. vm_compute. reflexivity. Qed.

Example sampleWithoutEmail_rejected :
  mapResponseToSessionType "2025-01-01T00:00:00.000Z" sampleWithoutEmail = None.
Proof. vm_compute. reflexivity. Qed.

Lemma session_normalization_fails_closed_witness :
  mapResponseToSessionType (now quietEnv) sampleResponse
  = Some (normalized (now quietEnv) sampleResponse)
  /\ mapResponseToSessionType (now quietEnv) sampleWithoutEmail = None.
Proof.
  split.
  - rewrite (proj1 (session_normalization_fails_closed quietEnv "abc123" 3) sampleResponse).
    + reflexivity.
    + reflexivity.
  - rewrite (proj1 (session_normalization_fails_closed quietEnv "abc123" 3) sampleWithoutEmail).
    + reflexivity.
    + reflexivity.
Defined.

End FetchSessionFacts.

(** ** verifyPayment: the signature set, HTTP 409, timeouts            *)

Module VerifyPaymentFacts.
Import JS Net NetFacts VerifyPayment.

(** *** The Verified-Signature Set *)

(** The signatures the session storage holds. *)
Definition storedList (storage : option StorageItem) : list string :=
  match storage with
  | Some item => default [] (readSignatures item)
  | None => []
  end.

(** A session storage that is there and holds a readable item. *)
Definition usable (storage : option StorageItem) : Prop :=
  exists item, storage = Some item /\ readSignatures item <> None.

Lemma listed_In signature signatures :
  listed signature signatures = true <-> In signature signatures.
Proof.
  unfold listed. rewrite existsb_exists. split.
  - intros [x [Hin Heq]]. apply String.eqb_eq in Heq. now subst.
  - intros Hin. exists signature. split; [assumption|apply String.eqb_refl].
Qed.

Lemma alreadyVerified_listed signature storage :
  alreadyVerified signature storage = listed signature (storedList storage).
Proof.
  destruct storage as [[|l|]|]; reflexivity.
Qed.

Lemma store_listed signature storage :
  usable storage ->
  listed signature (storedList (storeVerifiedSignature signature storage)) = true.
Proof.
  intros [item [-> Hread]]. unfold storeVerifiedSignature.
  destruct (readSignatures item) as [l|] eqn:Hl; [|congruence].
  destruct (listed signature l) eqn:Hin; cbn [negb storedList].
  - now rewrite Hl.
  - cbn. apply listed_In. apply in_or_app. right. now left.
Qed.

Lemma store_usable signature storage :
  usable storage -> usable (storeVerifiedSignature signature storage).
Proof.
  intros [item [-> Hread]]. unfold storeVerifiedSignature.
  destruct (readSignatures item) as [l|] eqn:Hl; [|congruence].
  destruct (negb (listed signature l)).
  - eexists. split; [reflexivity|]. discriminate.
  - exists item. split; [reflexivity|]. congruence.
Qed.

Lemma store_idempotent signature storage :
  storeVerifiedSignature signature (storeVerifiedSignature signature storage)
  = storeVerifiedSignature signature storage.
Proof.
  destruct storage as [item|]; [|reflexivity].
  unfold storeVerifiedSignature at 2 3.
  destruct (readSignatures item) as [l|] eqn:Hl.
  - destruct (listed signature l) eqn:Hin; cbn [negb].
    + unfold storeVerifiedSignature. now rewrite Hl, Hin.
    + unfold storeVerifiedSignature. cbn [readSignatures].
      assert (H : listed signature (l ++ [signature]) = true)
        by (apply listed_In, in_or_app; right; now left).
      rewrite H. reflexivity.
  - unfold storeVerifiedSignature. now rewrite Hl.
Qed.

Lemma store_present signature storage :
  listed signature (storedList storage) = true ->
  storeVerifiedSignature signature storage = storage.
Proof.
  intros Hin. destruct storage as [item|]; [|reflexivity].
  unfold storeVerifiedSignature. cbn [storedList] in Hin.
  destruct (readSignatures item) as [l|]; [|reflexivity].
  cbn [from_option id] in Hin. now rewrite Hin.
Qed.

(** C10. [storeVerifiedSignature] leaves the stored list alone when the
    signature is in it, appends exactly that signature otherwise, and so
    keeps the stored signatures distinct. *)
Theorem storeVerifiedSignature_keeps_distinct
    (signature : string) (storage : option StorageItem) :
  (listed signature (storedList storage) = true ->
     storeVerifiedSignature signature storage = storage)
  /\ (usable storage -> listed signature (storedList storage) = false ->
        storeVerifiedSignature signature storage
        = Some (Signatures (storedList storage ++ [signature])))
  /\ (NoDup (storedList storage) ->
        NoDup (storedList (storeVerifiedSignature signature storage))).
Proof.
  split; [|split].
  - intros Hin. destruct storage as [item|]; [|reflexivity].
    unfold storeVerifiedSignature. cbn [storedList] in Hin.
    destruct (readSignatures item) as [l|]; [|reflexivity].
    cbn [from_option id] in Hin. now rewrite Hin.
  - intros [item [-> Hread]] Hout. unfold storeVerifiedSignature.
    cbn [storedList] in *.
    destruct (readSignatures item) as [l|]; [|congruence].
    cbn [from_option id] in Hout. now rewrite Hout.
  - intros Hnd. destruct storage as [item|]; [|exact Hnd].
    unfold storeVerifiedSignature. cbn [storedList] in Hnd.
    destruct (readSignatures item) as [l|] eqn:Hl.
    + cbn [from_option id] in Hnd.
      destruct (listed signature l) eqn:Hin; cbn [negb storedList].
      * now rewrite Hl.
      * cbn. apply NoDup_app. repeat split.
        -- exact Hnd.
        -- intros x Hx Hx'. apply list_elem_of_In in Hx, Hx'.
           destruct Hx' as [<-|[]].
           apply listed_In in Hx. congruence.
        -- apply NoDup_singleton.
    + cbn [storedList]. now rewrite Hl.
Qed.

Lemma storeVerifiedSignature_keeps_distinct_witness :
  storeVerifiedSignature "sigB" (Some (Signatures ["sigA"]))
  = Some (Signatures ["sigA"; "sigB"])
  /\ storeVerifiedSignature "sigA" (Some (Signatures ["sigA"]))
     = Some (Signatures ["sigA"])
  /\ NoDup (storedList (storeVerifiedSignature "sigB" (Some (Signatures ["sigA"])))).
Proof.
  pose proof (storeVerifiedSignature_keeps_distinct "sigB" (Some (Signatures ["sigA"])))
    as [_ [Happend Hdistinct]].
  pose proof (storeVerifiedSignature_keeps_distinct "sigA" (Some (Signatures ["sigA"])))
    as [Hsame _].
  split; [|split].
  - apply Happend; [|reflexivity].
    exists (Signatures ["sigA"]). split; [reflexivity|discriminate].
  - apply Hsame. reflexivity.
  - apply Hdistinct. apply NoDup_singleton.
Defined.

(** *** One iteration of the loop *)

(** The exchange brought HTTP 409. *)
Definition is409 (x : Exchange) : bool :=
  match reply x with
  | Responds r => status r =? 409
  | Rejects _ => false
  end.

Section Iteration.
Variable env : VerifyEnv.
Variable maxRetries : nat.
Variables sessionId trimmedSignature userPubKey : string.

Let iteration := verifyIteration env maxRetries sessionId trimmedSignature userPubKey.
Let mk (e : Endpoint) : Request :=
{| endpoint := e; payload := [sessionId; trimmedSignature; userPubKey] |}.
Let shortcut (k : nat) : bool := hasDocument env && redisMarkers (page (net env k)).

(** The error that leaves the inner try/catch of iteration [k]. *)
Definition outcomeAt (k : nat) : Fetched := fetchOutcome (shortcut k) (net env k).

Definition exchangesAt (k : nat) : list Exchange :=
snd (fetchBoth (shortcut k) mk (net env k)).

Ltac open_iteration k st :=
unfold iteration, verifyIteration;
fold (shortcut k); fold mk;
let fetched := fresh "fetched" in
let xs := fresh "xs" in
let Hfetch := fresh "Hfetch" in
destruct (fetchBoth (shortcut k) mk (net env k)) as [fetched xs] eqn:Hfetch;
assert (Hout : outcomeAt k = fetched)
  by (unfold outcomeAt; rewrite <- (fetchBoth_outcome _ mk); now rewrite Hfetch);
assert (Hxs : exchangesAt k = xs)
  by (unfold exchangesAt; now rewrite Hfetch).

Ltac split_in H :=
repeat match type of H with
       | context [if ?b then _ else _] => destruct b eqn:?
       | context [match ?x with _ => _ end] => destruct x eqn:?
       end.

Ltac case_split :=
repeat match goal with
       | |- context [if ?b then _ else _] => destruct b eqn:?
       | |- context [match ?x with _ => _ end] => destruct x eqn:?
       end.

(** The wire after an iteration: its exchanges were added, no delay. *)
Lemma iteration_wire k st :
wire (snd (iteration k st)) = sent (exchangesAt k) (wire st).
Proof.
open_iteration k st. rewrite Hxs. case_split; reflexivity.
Qed.

(** The session storage after an iteration: a [continue] and a failure
  leave it alone; a success has recorded the signature, unless it is
  the success reported when the last attempt timed out. *)
Lemma iteration_storage k st :
match fst (iteration k st) with
| Continue _ => storage (snd (iteration k st)) = storage st
| Return r =>
    if success r then
      storage (snd (iteration k st))
      = storeVerifiedSignature trimmedSignature (storage st)
      \/ (r = verified timeoutMessage
          /\ storage (snd (iteration k st)) = storage st)
    else storage (snd (iteration k st)) = storage st
end.
Proof.
destruct (iteration k st) as [flow st'] eqn:Hit. cbn [fst snd].
revert Hit. open_iteration k st. intros Hit.
split_in Hit; injection Hit as <- <-;
  cbn [success verified refused recorded storage];
  rewrite ?store_idempotent; auto.
Qed.

(** An iteration that received HTTP 409 returns success and has
  recorded the signature. *)
Lemma iteration_409 k st :
existsb is409 (exchangesAt k) = true ->
fst (iteration k st) = Return (verified "Payment already verified")
/\ storage (snd (iteration k st))
   = storeVerifiedSignature trimmedSignature (storage st).
Proof.
intros H. apply existsb_exists in H as [x [Hin H409]].
unfold is409 in H409. destruct (reply x) as [r|] eqn:Hr; [|discriminate].
apply Nat.eqb_eq in H409.
pose proof (fetchBoth_received (shortcut k) mk (net env k) x r Hin Hr) as Hgot.
destruct Hgot as [Hgot|H404]; [|congruence].
unfold iteration, verifyIteration. fold (shortcut k). fold mk.
destruct (fetchBoth (shortcut k) mk (net env k)) as [fetched xs].
cbn [fst] in Hgot. subst fetched.
rewrite H409. cbn. auto.
Qed.

(** An iteration that ends in a timeout goes round again, or, when it
  was the last one, returns the optimistic success. *)
Lemma iteration_timeout k st :
outcomeAt k = Threw AbortError ->
iteration k st
= (if S k <? maxRetries
   then Continue (backoffTime (S k) (random (net env k)) 100 10000)
   else Return (verified timeoutMessage),
   {| storage := storage st; wire := sent (exchangesAt k) (wire st) |}).
Proof.
intros H. open_iteration k st. rewrite Hxs.
rewrite H in Hout. subst fetched.
destruct (S k <? maxRetries); reflexivity.
Qed.

End Iteration.

(** *** The whole call *)

Definition pauseV (d : Q) (st : VState) : VState :=
  {| storage := storage st; wire := waited d (wire st) |}.

(** The loop of [verifyPayment], from its first iteration. *)
Definition verifyLoop (env : VerifyEnv) (maxRetries : nat)
    (sessionId trimmedSignature userPubKey : string) (storage0 : option StorageItem)
  : VerifyResult * VState :=
  retryLoop maxRetries
    (verifyIteration env maxRetries sessionId trimmedSignature userPubKey)
    pauseV (refused (JStr exhaustedMessage)) maxRetries 0
    {| storage := storage0; wire := silent |}.

(** The parameters pass [!sessionId || !signature || !userPubKey]. *)
Definition present (sessionId signature userPubKey : string) : bool :=
  negb (String.eqb sessionId "" || String.eqb signature "" || String.eqb userPubKey "").

Lemma verifyPayment_unfold env sessionId signature userPubKey maxRetries storage0 :
  verifyPayment env sessionId signature userPubKey maxRetries storage0
  = if negb (present sessionId signature userPubKey) then
      {| result := refused (JStr "Missing required fields");
         after := {| storage := storage0; wire := silent |} |}
    else if alreadyVerified (trim signature) storage0 then
      {| result := verified "Payment already verified";
         after := {| storage := storage0; wire := silent |} |}
    else if hasDocument env && successMarkers (pageBefore env) then
      {| result := verified "Payment appears to be verified successfully";
         after := recorded (trim signature) {| storage := storage0; wire := silent |} |}
    else
      {| result := fst (verifyLoop env maxRetries sessionId (trim signature)
                                   userPubKey storage0);
         after := snd (verifyLoop env maxRetries sessionId (trim signature)
                                  userPubKey storage0) |}.
Proof.
  unfold verifyPayment, present, verifyLoop, pauseV. rewrite negb_involutive.
  destruct (_ || _ || _); [reflexivity|].
  destruct (alreadyVerified _ _); [reflexivity|].
  destruct (_ && _); [reflexivity|].
  now destruct (retryLoop _ _ _ _ _ _ _).
Qed.

Lemma verifyLoop_rule env maxRetries sessionId sig userPubKey storage0
    (I : nat -> VState -> Prop) (P : VerifyResult -> VState -> Prop) :
  I 0 {| storage := storage0; wire := silent |} ->
  (forall k st, I k st -> k < maxRetries ->
     let it := verifyIteration env maxRetries sessionId sig userPubKey k st in
     match fst it with
     | Return r => P r (snd it)
     | Continue d => I (S k) (pauseV d (snd it))
     end) ->
  (forall k st, I k st -> maxRetries <= k -> P (refused (JStr exhaustedMessage)) st) ->
  P (fst (verifyLoop env maxRetries sessionId sig userPubKey storage0))
    (snd (verifyLoop env maxRetries sessionId sig userPubKey storage0)).
Proof.
  intros H0 Hstep Hexit. unfold verifyLoop.
  apply (retryLoop_rule maxRetries _ pauseV _ I P); [|exact Hexit|lia|exact H0].
  intros k st HI Hk. specialize (Hstep k st HI Hk). cbn zeta in Hstep.
  destruct (verifyIteration _ _ _ _ _ k st) as [[r|d] st']; exact Hstep.
Qed.

(** What a call does to the session storage: a failure leaves it alone;
    a success has recorded the signature, unless it is the success
    reported after the last attempt timed out. *)
Lemma verifyPayment_storage env sessionId signature userPubKey maxRetries storage0 :
  let run := verifyPayment env sessionId signature userPubKey maxRetries storage0 in
  if success (result run) then
    storage (after run) = storeVerifiedSignature (trim signature) storage0
    \/ (result run = verified timeoutMessage /\ storage (after run) = storage0)
  else storage (after run) = storage0.
Proof.
  cbn zeta. rewrite verifyPayment_unfold.
  destruct (negb (present _ _ _)); [reflexivity|].
  destruct (alreadyVerified (trim signature) storage0) eqn:Hal.
  { cbn. left. symmetry. apply store_present.
    now rewrite <- alreadyVerified_listed. }
  destruct (_ && _); [cbn; auto|].
  cbn [result after].
  apply (verifyLoop_rule env maxRetries sessionId (trim signature) userPubKey storage0
           (fun _ st => storage st = storage0)
           (fun r st =>
              if success r then
                storage st = storeVerifiedSignature (trim signature) storage0
                \/ (r = verified timeoutMessage /\ storage st = storage0)
              else storage st = storage0)).
  - reflexivity.
  - intros k st HI _. cbn zeta.
    pose proof (iteration_storage env maxRetries sessionId (trim signature)
                  userPubKey k st) as H.
    destruct (fst (verifyIteration _ _ _ _ _ k st)) as [r|d].
    + rewrite HI in H. exact H.
    + cbn. congruence.
  - intros k st HI _. exact HI.
Qed.

(** C3. A call that receives HTTP 409 returns success (the body of the
    response is never looked at) and has recorded the trimmed signature
    in the session storage. *)
Theorem verifyPayment_409_is_success
    (env : VerifyEnv) (sessionId signature userPubKey : string)
    (maxRetries : nat) (storage0 : option StorageItem) :
  let run := verifyPayment env sessionId signature userPubKey maxRetries storage0 in
  existsb is409 (exchanges (wire (after run))) = true ->
  result run = verified "Payment already verified"
  /\ success (result run) = true
  /\ storage (after run) = storeVerifiedSignature (trim signature) storage0
  /\ (usable storage0 ->
        listed (trim signature) (storedList (storage (after run))) = true).
Proof.
  cbn zeta. rewrite verifyPayment_unfold.
  destruct (negb (present _ _ _)); [discriminate|].
  destruct (alreadyVerified _ _); [discriminate|].
  destruct (_ && _); [discriminate|].
  cbn [result after].
  apply (verifyLoop_rule env maxRetries sessionId (trim signature) userPubKey storage0
           (fun _ st => storage st = storage0
                        /\ existsb is409 (exchanges (wire st)) = false)
           (fun r st =>
              existsb is409 (exchanges (wire st)) = true ->
              r = verified "Payment already verified"
              /\ success r = true
              /\ storage st = storeVerifiedSignature (trim signature) storage0
              /\ (usable storage0 ->
                    listed (trim signature) (storedList (storage st)) = true))).
  - split; reflexivity.
  - intros k st [Hst Hno] _. cbn zeta.
    pose proof (iteration_wire env maxRetries sessionId (trim signature)
                  userPubKey k st) as Hwire.
    pose proof (iteration_storage env maxRetries sessionId (trim signature)
                  userPubKey k st) as Hsto.
    pose proof (iteration_409 env maxRetries sessionId (trim signature)
                  userPubKey k st) as H409.
    destruct (existsb is409
                (exchangesAt env sessionId (trim signature) userPubKey k)) eqn:Hnew.
    + destruct (H409 eq_refl) as [Hflow Hrec]. rewrite Hflow.
      intros _. rewrite Hrec, Hst. repeat split.
      intros Hus. now apply store_listed.
    + destruct (fst (verifyIteration _ _ _ _ _ k st)) as [r|d].
      * rewrite Hwire. cbn [sent exchanges]. rewrite existsb_app, Hno, Hnew.
        discriminate.
      * cbn [pauseV storage wire waited exchanges]. rewrite Hwire.
        cbn [sent exchanges]. rewrite existsb_app, Hno, Hnew.
        split; [congruence|reflexivity].
  - intros k st [_ Hno] _ H. congruence.
Qed.

(** Worlds to run the call in: every request is answered by the same
    response, or every request is aborted by the 30 s timer. *)
Definition answering (r : FetchResult) : VerifyEnv :=
  {| hasDocument := true;
     pageBefore := "Checkout";
     net := fun _ => {| primary := r; fallbackTry := r; fallbackCatch := r;
                        page := "Checkout"; random := 1 # 2 |} |}.

Definition conflict : FetchResult := Responds {| status := 409; body := BadJSON |}.
Definition serverError : FetchResult := Responds {| status := 500; body := BadJSON |}.
Definition timedOut : FetchResult := Rejects AbortError.

Lemma verifyPayment_409_is_success_witness :
  let run := verifyPayment (answering conflict) "abc123" " 5sig " "payer" 3 (Some NoItem) in
  result run = verified "Payment already verified"
  /\ success (result run) = true
  /\ storage (after run) = storeVerifiedSignature (trim " 5sig ") (Some NoItem)
  /\ (usable (Some NoItem) ->
        listed (trim " 5sig ") (storedList (storage (after run))) = true).
Proof.
  exact (verifyPayment_409_is_success (answering conflict) "abc123" " 5sig " "payer" 3
           (Some NoItem) eq_refl).
Defined.

(** C9. When the call reaches its loop and each of the [maxRetries]
    iterations ends in a timeout (the error that leaves the inner
    try/catch is an [AbortError]), [verifyPayment] returns success with
    the message that the payment may have been processed. The session
    storage is as it was: the signature is not recorded. The call has
    waited [maxRetries - 1] times. Nothing in the world of the call is a
    ledger: no confirmation status is read. *)
Theorem verifyPayment_timeouts_report_success
    (env : VerifyEnv) (sessionId signature userPubKey : string)
    (maxRetries : nat) (storage0 : option StorageItem) :
  present sessionId signature userPubKey = true ->
  alreadyVerified (trim signature) storage0 = false ->
  hasDocument env && successMarkers (pageBefore env) = false ->
  0 < maxRetries ->
  (forall k, k < maxRetries -> outcomeAt env k = Threw AbortError) ->
  let run := verifyPayment env sessionId signature userPubKey maxRetries storage0 in
  result run = verified timeoutMessage
  /\ success (result run) = true
  /\ storage (after run) = storage0
  /\ listed (trim signature) (storedList (storage (after run))) = false
  /\ length (delays (wire (after run))) = maxRetries - 1.
Proof.
  intros Hpresent Hnew Hpage Hmax Htimeouts. cbn zeta.
  rewrite verifyPayment_unfold, Hpresent, Hnew, Hpage. cbn [negb result after].
  apply (verifyLoop_rule env maxRetries sessionId (trim signature) userPubKey storage0
           (fun k st => k < maxRetries /\ storage st = storage0
                        /\ length (delays (wire st)) = k)
           (fun r st =>
              r = verified timeoutMessage
              /\ success r = true
              /\ storage st = storage0
              /\ listed (trim signature) (storedList (storage st)) = false
              /\ length (delays (wire st)) = maxRetries - 1)).
  - repeat split. exact Hmax.
  - intros k st (Hk & Hst & Hlen) _. cbn zeta.
    rewrite (iteration_timeout env maxRetries sessionId (trim signature) userPubKey
               k st (Htimeouts k Hk)).
    cbn [fst snd].
    destruct (Nat.ltb_spec (S k) maxRetries) as [Hmore|Hlast].
    + cbn [pauseV storage wire waited sent delays]. rewrite length_app. cbn.
      repeat split; [exact Hmore|exact Hst|lia].
    + cbn [storage wire sent delays]. repeat split.
      * exact Hst.
      * rewrite Hst, <- alreadyVerified_listed. exact Hnew.
      * lia.
  - intros k st (Hk & _) Hge. lia.
Qed.

Lemma verifyPayment_timeouts_report_success_witness :
  let run := verifyPayment (answering timedOut) "abc123" "5sig" "payer" 3 (Some NoItem) in
  result run = verified timeoutMessage
  /\ success (result run) = true
  /\ storage (after run) = Some NoItem
  /\ listed (trim "5sig") (storedList (storage (after run))) = false
  /\ length (delays (wire (after run))) = 3 - 1.
Proof.
  apply (verifyPayment_timeouts_report_success (answering timedOut)
           "abc123" "5sig" "payer" 3 (Some NoItem));
    [reflexivity | reflexivity | reflexivity | lia | intros k _; reflexivity].
Defined.

(** C2, as the code has it. With all three parameters given:
    a signature whose trimmed form is in the stored list makes the call
    return success at once, with nothing sent; and after a call that
    succeeded in any way but the optimistic success of the timeouts,
    with a usable session storage, a second call for the same signature
    returns success with nothing sent. *)
Theorem verifyPayment_idempotent
    (env1 env2 : VerifyEnv) (sessionId signature userPubKey : string)
    (maxRetries1 maxRetries2 : nat) (storage0 : option StorageItem) :
  present sessionId signature userPubKey = true ->
  (alreadyVerified (trim signature) storage0 = true ->
     verifyPayment env1 sessionId signature userPubKey maxRetries1 storage0
     = {| result := verified "Payment already verified";
          after := {| storage := storage0;
                      wire := {| exchanges := []; delays := [] |} |} |})
  /\ (let run1 := verifyPayment env1 sessionId signature userPubKey maxRetries1 storage0 in
      usable storage0 ->
      success (result run1) = true ->
      result run1 <> verified timeoutMessage ->
      verifyPayment env2 sessionId signature userPubKey maxRetries2 (storage (after run1))
      = {| result := verified "Payment already verified";
           after := {| storage := storage (after run1);
                       wire := {| exchanges := []; delays := [] |} |} |}).
Proof.
  intros Hpresent.
  assert (Hshort : forall env m st,
            alreadyVerified (trim signature) st = true ->
            verifyPayment env sessionId signature userPubKey m st
            = {| result := verified "Payment already verified";
                 after := {| storage := st; wire := silent |} |}).
  { intros env m st Hal. now rewrite verifyPayment_unfold, Hpresent, Hal. }
  split; [apply Hshort|].
  cbn zeta. intros Husable Hok Hnot. apply Hshort.
  pose proof (verifyPayment_storage env1 sessionId signature userPubKey
                maxRetries1 storage0) as Hsto.
  cbn zeta in Hsto. rewrite Hok in Hsto.
  destruct Hsto as [Hsto|[Htimeout _]]; [|contradiction].
  rewrite Hsto, alreadyVerified_listed. now apply store_listed.
Qed.

Lemma verifyPayment_idempotent_witness :
  let run1 := verifyPayment (answering conflict) "abc123" "5sig" "payer" 3 (Some NoItem) in
  verifyPayment (answering serverError) "abc123" "5sig" "payer" 3 (storage (after run1))
  = {| result := verified "Payment already verified";
       after := {| storage := storage (after run1);
                   wire := {| exchanges := []; delays := [] |} |} |}.
Proof.
  apply (verifyPayment_idempotent (answering conflict) (answering serverError)
           "abc123" "5sig" "payer" 3 3 (Some NoItem) eq_refl).
  - exists NoItem. split; [reflexivity|discriminate].
  - reflexivity.
  - discriminate.
Defined.

(** C2 as stated fails after timeouts: the first call reports success
    without recording the signature, so the second call goes to the
    network again, and here it fails. *)
Lemma verifyPayment_repeats_after_timeouts :
  let run1 := verifyPayment (answering timedOut) "abc123" "5sig" "payer" 3 (Some NoItem) in
  let run2 := verifyPayment (answering serverError) "abc123" "5sig" "payer" 3
                            (storage (after run1)) in
  success (result run1) = true
  /\ success (result run2) = false
  /\ length (exchanges (wire (after run2))) = 3.
Proof. vm_compute. repeat split. Qed.

End VerifyPaymentFacts.

(** ** The retry policy                                                 *)

Module RetryFacts.
Import JS Net NetFacts BackoffFacts.

(** The retry policy, read off the wire of a call: at most [maxRetries]
    attempts (each sends one request to the [/api] URL); a pause between
    two attempts and none after the last; the pause after the [i]-th
    failed attempt is [min (1000 * 2^i + jitter, cap)] with a jitter in
    [0, 1000); the pauses never decrease, and they increase as long as
    the cap is not reached. *)
Definition attemptsOf (w : Wire) : nat := length (List.filter toApi (exchanges w)).

Definition isBackoff (cap : Q) (i : nat) (d : Q) : Prop :=
  exists rnd jitter, unitInterval rnd /\ jitterWidth jitter
                     /\ d = backoffTime (S i) rnd jitter cap.

Definition ordered (cap : Q) (ds : list Q) : Prop :=
  forall i j di dj, i < j -> nth_error ds i = Some di -> nth_error ds j = Some dj ->
    (di <= dj)%Q /\ ((di < cap)%Q -> (di < dj)%Q).

Definition backoffPolicy (maxRetries : nat) (cap : Q) (w : Wire) : Prop :=
  attemptsOf w <= maxRetries
  /\ length (delays w) = attemptsOf w - 1
  /\ (forall i d, nth_error (delays w) i = Some d -> isBackoff cap i d)
  /\ ordered cap (delays w).

Lemma backoffs_ordered cap ds :
  (forall i d, nth_error ds i = Some d -> isBackoff cap i d) -> ordered cap ds.
Proof.
  intros Hall i j di dj Hij Hi Hj.
  destruct (Hall i di Hi) as (r & w & Hr & Hw & ->).
  destruct (Hall j dj Hj) as (r' & w' & Hr' & Hw' & ->).
  split.
  - apply backoffTime_monotone; try assumption; lia.
  - apply backoffTime_strict; try assumption; lia.
Qed.

Section Wire.
Context {St R : Type}.
Variable maxRetries : nat.
Variable iteration : nat -> St -> Flow R * St.
Variable pause : Q -> St -> St.
Variable exhausted : R.
Variable wireOf : St -> Wire.
Variable cap : Q.

Hypothesis pause_wire : forall d st, wireOf (pause d st) = waited d (wireOf st).
Hypothesis iteration_sends : forall k st,
exists xs, wireOf (snd (iteration k st)) = sent xs (wireOf st)
           /\ length (List.filter toApi xs) = 1.
Hypothesis iteration_pauses : forall k st d,
fst (iteration k st) = Continue d -> S k < maxRetries /\ isBackoff cap k d.

Lemma retryLoop_policy st0 :
wireOf st0 = silent ->
backoffPolicy maxRetries cap
  (wireOf (snd (retryLoop maxRetries iteration pause exhausted maxRetries 0 st0))).
Proof.
intros Hsilent.
pose (I := fun (k : nat) (st : St) =>
  (k < maxRetries \/ k = 0)
  /\ attemptsOf (wireOf st) = k
  /\ length (delays (wireOf st)) = k
  /\ (forall i d, nth_error (delays (wireOf st)) i = Some d -> isBackoff cap i d)).
apply (retryLoop_rule maxRetries iteration pause exhausted I
         (fun _ st => backoffPolicy maxRetries cap (wireOf st))).
- intros k st (Hk & Hatt & Hlen & Hall) Hlt.
  destruct (iteration_sends k st) as (xs & Hw & Hone).
  pose proof (iteration_pauses k st) as Hpause.
  destruct (iteration k st) as [[r|d] st']; cbn [fst snd] in *.
  + unfold backoffPolicy, attemptsOf in *. rewrite Hw. cbn [sent exchanges delays].
    rewrite List.filter_app, length_app, Hatt, Hone, Hlen.
    split; [|split; [|split]]; [lia|lia|exact Hall|now apply backoffs_ordered].
  + destruct (Hpause d eq_refl) as [Hmore Hd].
    unfold I, attemptsOf. rewrite pause_wire, Hw.
    cbn [waited sent exchanges delays].
    rewrite List.filter_app, !length_app. unfold attemptsOf in Hatt.
    rewrite Hatt, Hone, Hlen. cbn [length].
    split; [|split; [|split]]; [lia|lia|lia|].
    intros i d' Hnth.
    destruct (Nat.lt_ge_cases i k) as [Hlt'|Hge].
    * rewrite nth_error_app1 in Hnth by lia. now apply Hall.
    * rewrite nth_error_app2 in Hnth by lia. rewrite Hlen in Hnth.
      destruct (i - k) as [|n] eqn:Hik; cbn in Hnth.
      -- injection Hnth as <-. replace i with k by lia. exact Hd.
      -- destruct n; discriminate.
- intros k st (Hk & Hatt & Hlen & Hall) Hge.
  assert (Hk0 : k = 0) by lia.
  unfold backoffPolicy. rewrite Hatt, Hlen, Hk0.
  split; [|split; [|split]]; [lia|lia|exact Hall|now apply backoffs_ordered].
- lia.
- unfold I, attemptsOf. rewrite Hsilent. cbn.
  split; [|split; [|split]]; [now right|reflexivity|reflexivity|].
  intros [|i] d; discriminate.
Qed.

End Wire.

Lemma silent_policy maxRetries cap : backoffPolicy maxRetries cap silent.
Proof.
  unfold backoffPolicy, attemptsOf. cbn. split; [|split; [|split]]; try lia.
  - intros [|i] d; discriminate.
  - intros [|i] j di dj _; discriminate.
Qed.

(** How an iteration ends after a transient failure: [attempts++], then
    a pause and [continue] while attempts are left, [last] otherwise. *)
Definition retryOr {R : Type} (maxRetries k : nat) (rnd jitter cap : Q) (last : Flow R)
  : Flow R :=
  if S k <? maxRetries then Continue (backoffTime (S k) rnd jitter cap) else last.

(** The body of an error response can be read for its [message]: it is
    not the JSON text [null]. *)
Definition errorReadable (r : Response) : bool :=
  match body r with
  | GoodJSON (DVal JNull) | GoodJSON (DVal JUndefined) => false
  | _ => true
  end.

Lemma jitter_100 : jitterWidth 100.
Proof. unfold jitterWidth. lra. Qed.

Lemma jitter_1000 : jitterWidth 1000.
Proof. unfold jitterWidth. lra. Qed.

Lemma fetchOutcome_threw shortcut a e :
  fetchOutcome shortcut a = Threw e -> shortcut = false.
Proof.
  unfold fetchOutcome, fetchBoth.
  destruct (primary a) as [r|e1]; cbn.
  - destruct (negb (ok r) && (status r =? 404)); [|discriminate].
    destruct (fallbackTry a); [discriminate|].
    destruct shortcut; [discriminate|reflexivity].
  - destruct shortcut; [discriminate|reflexivity].
Qed.

Ltac split_in H :=
  repeat match type of H with
         | context [if ?b then _ else _] => destruct b eqn:?
         | context [match ?x with _ => _ end] => destruct x eqn:?
         end.

(** *** createSession *)

Section Create.
Import CreateSession.
Variable env : CreateEnv.
Variable maxRetries : nat.
Variables saasId email plan : string.

Let iteration := createIteration env maxRetries saasId email plan.
Let mk (e : Endpoint) : Request :=
{| endpoint := e; payload := [saasId; email; plan] |}.

Definition createOutcome (k : nat) : Fetched := fetchOutcome false (net env k).

Lemma createIteration_sends k w :
exists xs, snd (iteration k w) = sent xs w /\ length (List.filter toApi xs) = 1.
Proof.
exists (snd (fetchBoth false mk (net env k))). split.
- unfold iteration, createIteration. fold mk.
  now destruct (fetchBoth false mk (net env k)).
- now apply fetchBoth_requests.
Qed.



Lemma createIteration_pauses k w d :
unitInterval (random (net env k)) ->
fst (iteration k w) = Continue d -> S k < maxRetries /\ isBackoff 10000 k d.
Proof.
intros Hrnd. unfold iteration, createIteration. fold mk.
destruct (fetchBoth false mk (net env k)) as [fetched xs]. cbn [fst].
intros H. split_in H; try discriminate H; injection H as <-;
  (split; [now apply Nat.ltb_lt
          |exists (random (net env k)), 1000%Q; auto using jitter_1000]).
Qed.

End Create.

Lemma createSession_policy (env : CreateSession.CreateEnv) (saasId email plan : string)
    (maxRetries : nat) :
  (forall k, unitInterval (random (CreateSession.net env k))) ->
  backoffPolicy maxRetries 10000
    (CreateSession.wire (CreateSession.createSession env saasId email plan maxRetries)).
Proof.
  intros Hrnd. unfold CreateSession.createSession.
  destruct (String.eqb saasId ""); [apply silent_policy|].
  destruct (_ || _); [apply silent_policy|].
  destruct (String.eqb plan ""); [apply silent_policy|].
  pose proof (retryLoop_policy maxRetries
    (CreateSession.createIteration env maxRetries
       (CreateSession.sanitizeInput saasId) (CreateSession.sanitizeInput email)
       (CreateSession.sanitizeInput plan))
    waited None (fun w => w) 10000
    (fun _ _ => eq_refl)
    (createIteration_sends env maxRetries _ _ _)
    (fun k st d => createIteration_pauses env maxRetries _ _ _ k st d (Hrnd k))
    silent eq_refl) as H.
  destruct (retryLoop _ _ _ _ _ _ _) as [r w]. exact H.
Qed.


(** *** verifyPayment *)

Section Verify.
Import VerifyPayment VerifyPaymentFacts.
Variable env : VerifyEnv.
Variable maxRetries : nat.
Variables sessionId trimmedSignature userPubKey : string.

Let iteration := verifyIteration env maxRetries sessionId trimmedSignature userPubKey.
Let mk (e : Endpoint) : Request :=
{| endpoint := e; payload := [sessionId; trimmedSignature; userPubKey] |}.
Let shortcut (k : nat) : bool := hasDocument env && redisMarkers (page (net env k)).

Lemma verifyIteration_sends k st :
exists xs, wire (snd (iteration k st)) = sent xs (wire st)
           /\ length (List.filter toApi xs) = 1.
Proof.
exists (exchangesAt env sessionId trimmedSignature userPubKey k). split.
- apply iteration_wire.
- unfold exchangesAt. now apply fetchBoth_requests.
Qed.

Lemma verifyIteration_thrown k st e :
outcomeAt env k = Threw e ->
fst (iteration k st)
= retryOr maxRetries k (random (net env k)) 100 10000
    (Return (match e with
             | AbortError => verified timeoutMessage
             | OtherError => refused (JStr "Error verifying payment")
             end)).
Proof.
intros Hout. pose proof (fetchOutcome_threw _ _ _ Hout) as Hshort.
unfold outcomeAt in Hout. rewrite <- (fetchBoth_outcome _ mk) in Hout.
unfold iteration, verifyIteration, retryOr. fold mk.
destruct (fetchBoth _ mk (net env k)) as [fetched xs]. cbn [fst] in Hout.
subst fetched. rewrite Hshort.
destruct e; destruct (S k <? maxRetries); reflexivity.
Qed.

Lemma verifyIteration_status k st res :
outcomeAt env k = Got res ->
ok res = false -> retryable res = true -> errorReadable res = true ->
S k < maxRetries ->
fst (iteration k st)
= Continue (backoffTime (S k) (random (net env k)) 1000 10000).
Proof.
intros Hout Hok Hretry Hread Hmore.
unfold outcomeAt in Hout. rewrite <- (fetchBoth_outcome _ mk) in Hout.
unfold iteration, verifyIteration. fold mk.
destruct (fetchBoth _ mk (net env k)) as [fetched xs]. cbn [fst] in Hout.
subst fetched.
assert (H409 : (status res =? 409) = false).
{ unfold retryable in Hretry. apply orb_true_iff in Hretry as [H|H].
  - apply Nat.leb_le in H. apply Nat.eqb_neq. lia.
  - apply Nat.eqb_eq in H. now rewrite H. }
assert (H400 : (status res =? 400) = false).
{ unfold retryable in Hretry. apply orb_true_iff in Hretry as [H|H].
  - apply Nat.leb_le in H. apply Nat.eqb_neq. lia.
  - apply Nat.eqb_eq in H. now rewrite H. }
assert (H404 : (status res =? 404) = false).
{ unfold retryable in Hretry. apply orb_true_iff in Hretry as [H|H].
  - apply Nat.leb_le in H. apply Nat.eqb_neq. lia.
  - apply Nat.eqb_eq in H. now rewrite H. }
apply Nat.ltb_lt in Hmore.
rewrite H409, Hok, H400, H404, Hretry, Hmore. cbn [negb andb].
unfold errorReadable in Hread.
destruct (body res) as [|[o|[]]]; try discriminate; reflexivity.
Qed.


Lemma verifyIteration_pauses k st d :
unitInterval (random (net env k)) ->
fst (iteration k st) = Continue d -> S k < maxRetries /\ isBackoff 10000 k d.
Proof.
intros Hrnd. unfold iteration, verifyIteration. fold mk.
destruct (fetchBoth _ mk (net env k)) as [fetched xs].
intros H. split_in H; cbn [fst] in H; try discriminate H; injection H as <-;
  try (match goal with
       | Hc : (_ && false) = true |- _ => rewrite andb_false_r in Hc; discriminate Hc
       end);
  (split; [apply Nat.ltb_lt; assumption|]);
  eexists (random (net env k)), _;
  (split; [exact Hrnd|split; [|reflexivity]]);
  auto using jitter_100, jitter_1000.
Qed.

End Verify.

Lemma verifyPayment_policy (env : VerifyPayment.VerifyEnv)
    (sessionId signature userPubKey : string) (maxRetries : nat)
    (storage0 : option VerifyPayment.StorageItem) :
  (forall k, unitInterval (random (VerifyPayment.net env k))) ->
  backoffPolicy maxRetries 10000
    (VerifyPayment.wire
       (VerifyPayment.after
          (VerifyPayment.verifyPayment env sessionId signature userPubKey
             maxRetries storage0))).
Proof.
  intros Hrnd. rewrite VerifyPaymentFacts.verifyPayment_unfold.
  destruct (negb _); [apply silent_policy|].
  destruct (VerifyPayment.alreadyVerified _ _); [apply silent_policy|].
  destruct (_ && _); [apply silent_policy|].
  cbn [VerifyPayment.after]. unfold VerifyPaymentFacts.verifyLoop.
  apply (retryLoop_policy maxRetries _ VerifyPaymentFacts.pauseV _
           VerifyPayment.wire 10000).
  - reflexivity.
  - apply verifyIteration_sends.
  - intros k st d. apply verifyIteration_pauses, Hrnd.
  - reflexivity.
Qed.

(** *** fetchSession *)

Lemma fetchIteration_sends env maxRetries id k w :
  exists xs, snd (FetchSession.fetchIteration env maxRetries id k w) = sent xs w
             /\ length (List.filter toApi xs) = 1.
Proof.
  exists (snd (fetchBoth false (fun e => {| endpoint := e; payload := [id] |})
                 (FetchSession.net env k))). split.
  - unfold FetchSession.fetchIteration. now destruct (fetchBoth false _ _).
  - now apply fetchBoth_requests.
Qed.

Lemma fetchIteration_pauses env maxRetries id k w d :
  unitInterval (random (FetchSession.net env k)) ->
  fst (FetchSession.fetchIteration env maxRetries id k w) = Continue d ->
  S k < maxRetries /\ isBackoff 8000 k d.
Proof.
  intros Hrnd. unfold FetchSession.fetchIteration.
  destruct (fetchBoth false _ _) as [fetched xs]. cbn [fst].
  intros H. split_in H; try discriminate H; injection H as <-;
    (split; [now apply Nat.ltb_lt
            |exists (random (FetchSession.net env k)), 1000%Q; auto using jitter_1000]).
Qed.

Lemma fetchSession_policy (env : FetchSession.FetchEnv) (sessionId : string)
    (maxRetries : nat) :
  (forall k, unitInterval (random (FetchSession.net env k))) ->
  backoffPolicy maxRetries 8000
    (FetchSession.wire (FetchSession.fetchSession env sessionId maxRetries)).
Proof.
  intros Hrnd. unfold FetchSession.fetchSession.
  destruct (String.eqb sessionId ""); [apply silent_policy|].
  destruct (negb _); [apply silent_policy|].
  pose proof (retryLoop_policy maxRetries
    (FetchSession.fetchIteration env maxRetries (keepChars FetchSession.idChar sessionId))
    waited None (fun w => w) 8000
    (fun _ _ => eq_refl)
    (fetchIteration_sends env maxRetries _)
    (fun k st d => fetchIteration_pauses env maxRetries _ k st d (Hrnd k))
    silent eq_refl) as H.
  destruct (retryLoop _ _ _ _ _ _ _) as [r w]. exact H.
Qed.

(** *** The policy of the three gateways *)

(** Worlds whose backend answers every request with HTTP 500, and one
    that answers 500 once and then 200 with a session id; the jitter
    draw is 1/2. *)
Definition failing : AttemptNet :=
  {| primary := Responds {| status := 500; body := BadJSON |};
     fallbackTry := Responds {| status := 500; body := BadJSON |};
     fallbackCatch := Responds {| status := 500; body := BadJSON |};
     page := ""; random := 1 # 2 |}.

Definition created : AttemptNet :=
  {| primary := Responds {| status := 200;
                            body := GoodJSON (DObj {[ "sessionId" := JStr "abc123" ]}) |};
     fallbackTry := Rejects OtherError;
     fallbackCatch := Rejects OtherError;
     page := ""; random := 1 # 2 |}.

Definition alwaysFailing : CreateSession.CreateEnv :=
  {| CreateSession.net := fun _ => failing |}.

Definition failingOnce : CreateSession.CreateEnv :=
  {| CreateSession.net := fun k => match k with 0 => failing | _ => created end |}.

Example createSession_500_then_200 :
  let run := CreateSession.createSession failingOnce "merchant-1" "customer@example.com" "pro" 3 in
  CreateSession.result run = Some (JStr "abc123")
  /\ attemptsOf (CreateSession.wire run) = 2
  /\ length (delays (CreateSession.wire run)) = 1.
Proof. vm_compute. repeat split. Qed.

Example createSession_bad_email :
  CreateSession.createSession failingOnce "merchant-1" "not-an-email" "pro" 3
  = {| CreateSession.result := None; CreateSession.wire := silent |}.
Proof. reflexivity. Qed.


Lemma half_in_unit_interval : unitInterval (1 # 2).
Proof. unfold unitInterval. split; lra. Qed.


(** Where the cap is reached the pauses stop growing: with six attempts
    against a backend that keeps answering 500, the fourth and the fifth
    pause are both the cap. *)
Lemma createSession_pauses_reach_the_cap :
  let w := CreateSession.wire
             (CreateSession.createSession alwaysFailing
                "merchant-1" "customer@example.com" "pro" 6) in
  attemptsOf w = 6
  /\ nth_error (delays w) 3 = Some 10000%Q
  /\ nth_error (delays w) 4 = Some 10000%Q.
Proof. vm_compute. repeat split. Qed.

End RetryFacts.

(** ** handlePayment                                                    *)

Module PaymentFacts.
Import JS Net NetFacts VerifyPayment VerifyPaymentFacts Payment.

(** *** Math.round *)




(** *** The verification rounds of the handler *)

(** What the verification rounds and the ledger check leave alone. *)
Definition frame (st st' : PState) : Prop :=
  completed st' = completed st /\ redirects st' = redirects st
  /\ dispatched st' = dispatched st /\ statusQueries st' = statusQueries st.

Definition failed (run : VerifyRun) : Prop := success (VerifyPayment.result run) = false.

Lemma frame_refl st : frame st st.
Proof. repeat split. Qed.

Lemma frame_trans st1 st2 st3 : frame st1 st2 -> frame st2 st3 -> frame st1 st3.
Proof. unfold frame. intuition congruence. Qed.

(** The calls of a round sequence: all but the last one failed. *)
Definition rounds (runs : list VerifyRun) (response response' : option VerifyResult)
  : Prop :=
  (runs = [] /\ response' = response)
  \/ exists init last, runs = init ++ [last] /\ Forall failed init
                       /\ response' = Some (VerifyPayment.result last).

Section Rounds.
Variable env : PayEnv.
Variables sessionId signature publicKey : string.

Lemma verifyRounds_spec fuel retryCount response st :
exists response' st',
  verifyRounds env sessionId signature publicKey fuel retryCount response st
  = (Ok response', st')
  /\ frame st st'
  /\ exists runs,
       verifications st' = verifications st ++ runs
       /\ rounds runs response response'
       /\ (Forall failed runs -> storage st' = storage st)
       /\ ((retryCount <? 3) && negb (succeeded response) = true ->
           0 < fuel -> runs <> [])
       /\ (runs <> [] -> succeeded response = false)
       /\ length runs <= 3 - retryCount.
Proof.
revert retryCount response st.
induction fuel as [|fuel IH]; intros retryCount response st; cbn [verifyRounds].
- exists response, st. split; [reflexivity|]. split; [apply frame_refl|].
  exists []. rewrite app_nil_r. unfold rounds. cbn [length].
  repeat split; auto; try lia; congruence.
- destruct ((retryCount <? 3) && negb (succeeded response)) eqn:Hguard.
  2:{ exists response, st. split; [reflexivity|]. split; [apply frame_refl|].
      exists []. rewrite app_nil_r. unfold rounds. cbn [length].
      repeat split; auto; try lia; try congruence; discriminate. }
  apply andb_true_iff in Hguard as [Hcount Hnot].
  apply Nat.ltb_lt in Hcount. apply negb_true_iff in Hnot.
  unfold bind at 1. unfold callVerify at 1.
  set (run := verifyPayment (verifyEnv env retryCount) sessionId signature
                publicKey 3 (storage st)).
  set (st1 := {| completed := completed st; redirects := redirects st;
                 storage := VerifyPayment.storage (after run);
                 dispatched := dispatched st; statusQueries := statusQueries st;
                 verifications := verifications st ++ [run];
                 pauses := pauses st |}).
  unfold bind at 1.
  assert (Hsleep : exists st2,
            (if negb (success (VerifyPayment.result run)) && (retryCount <? 3 - 1)
             then sleep 2000 else ret tt) st1 = (Ok tt, st2)
            /\ frame st1 st2 /\ verifications st2 = verifications st1
            /\ storage st2 = storage st1).
  { destruct (_ && _); eexists; (split; [reflexivity|]); repeat split. }
  destruct Hsleep as (st2 & -> & Hf12 & Hv12 & Hs12).
  destruct (IH (S retryCount) (Some (VerifyPayment.result run)) st2)
    as (response' & st' & -> & Hf & runs & Hv & Hlast & Hsto & _ & Hwent & Hlen).
  exists response', st'. split; [reflexivity|]. split.
  { apply (frame_trans _ st2); [|exact Hf].
    apply (frame_trans _ st1); [repeat split|exact Hf12]. }
  exists (run :: runs).
  split; [|split; [|split; [|split; [|split]]]].
  + rewrite Hv, Hv12. subst st1. cbn [verifications]. now rewrite <- app_assoc.
  + right. destruct Hlast as [[-> ->]|(init & last & -> & Hinit & ->)].
    * exists [], run. repeat split. constructor.
    * exists (run :: init), last. repeat split.
      constructor; [|exact Hinit].
      apply Hwent. now destruct init.
  + intros Hall. inversion Hall as [|? ? Hrun Hrest]; subst.
    rewrite (Hsto Hrest), Hs12. subst st1. cbn [storage].
    pose proof (verifyPayment_storage (verifyEnv env retryCount) sessionId
                  signature publicKey 3 (storage st)) as H.
    cbn zeta in H. fold run in H. unfold failed in Hrun. rewrite Hrun in H.
    exact H.
  + discriminate.
  + intros _. exact Hnot.
  + cbn [length]. lia.
Qed.

(** The block the three asset paths end with: one to three verification
  calls, all but the last failed. A redirect is set exactly when the
  block ends in success. After a successful call the block ends in
  success, with [paymentCompleted] set and the ledger not asked. When
  every call failed, the session storage is as before, the ledger was
  asked about [statusSignature], and its answer decides. *)
Lemma verifyAndFinish_spec statusSignature st :
exists res st',
  verifyAndFinish env sessionId publicKey signature statusSignature st = (res, st')
  /\ dispatched st' = dispatched st
  /\ redirects st'
     = redirects st + match res with Ok Success => 1 | _ => 0 end
  /\ exists init last,
       verifications st' = verifications st ++ init ++ [last]
       /\ Forall failed init /\ length init <= 2
       /\ if success (VerifyPayment.result last) then
            res = Ok Success /\ completed st' = true
            /\ statusQueries st' = statusQueries st
          else
            storage st' = storage st
            /\ statusQueries st' = statusQueries st ++ [statusSignature]
            /\ match signatureStatus env with
               | Ok (Some Finalized) | Ok (Some Confirmed) =>
                   res = Ok Success /\ completed st' = true
               | Ok _ =>
                   res = Ok (if consoleMarkers (consoleText env)
                             then Success else Failure)
                   /\ completed st' = completed st
               | Err msg => res = Err msg /\ completed st' = completed st
               end.
Proof.
destruct (verifyRounds_spec 3 0 None st)
  as (response & st1 & Hrounds & (Hc & Hr & Hd & Hq) & runs & Hv & Hlast & Hsto
      & Hne & _ & Hlen).
unfold verifyAndFinish. unfold bind at 1. rewrite Hrounds.
assert (Hruns : runs <> []) by (apply Hne; [reflexivity|lia]).
destruct Hlast as [[-> _]|(init & last & -> & Hinit & ->)]; [congruence|].
rewrite length_app in Hlen. cbn [length] in Hlen.
cbn [succeeded].
destruct (success (VerifyPayment.result last)) eqn:Hok; cbn [negb].
- eexists _, _. split; [reflexivity|]. cbn. rewrite Hd, Hr.
  split; [reflexivity|]. split; [lia|].
  exists init, last. rewrite Hok.
  repeat split; [exact Hv|exact Hinit|lia|exact Hq].
- assert (Hall : Forall failed (init ++ [last])).
  { apply Forall_app. split; [exact Hinit|]. constructor; [exact Hok|constructor]. }
  specialize (Hsto Hall).
  unfold bind at 1. unfold queryStatus at 1. unfold update at 1.
  unfold bind at 1. unfold await at 1.
  destruct (signatureStatus env) as [[[| |]|]|msg];
    cbn [bind markCompleted scheduleRedirect update ret];
    try destruct (consoleMarkers (consoleText env));
    cbn [bind markCompleted scheduleRedirect update ret];
    (eexists _, _; split; [reflexivity|]);
    cbn [dispatched redirects verifications storage statusQueries completed];
    rewrite ?Hd, ?Hr, ?Hq, ?Hc;
    (split; [reflexivity|]); (split; [lia|]);
    exists init, last; rewrite Hok;
    (repeat split; [exact Hv|exact Hinit|lia|exact Hsto]).
Qed.

End Rounds.

(** *** The try block *)

(** The redirect the safety timer forces when it fires during the run. *)
Definition timerBit (env : PayEnv) (st0 : PState) : nat :=
  if safetyTimerFires env && negb (completed st0) then 1 else 0.

(** What the code before the verification rounds leaves alone. *)
Definition core (st st' : PState) : Prop :=
  completed st' = completed st /\ storage st' = storage st
  /\ statusQueries st' = statusQueries st /\ verifications st' = verifications st.

(** A computation of the try block, started in a state that satisfies
    [pre], either throws in a state that satisfies [err], or is the
    closing block [verifyAndFinish] started in a state that satisfies
    [run]. *)
Definition ends (env : PayEnv) (sessionId publicKey : string)
    (pre err : PState -> Prop) (run : string -> PState -> Prop) (m : M Outcome) : Prop :=
  forall st, pre st ->
    (exists msg st', m st = (Err msg, st') /\ err st')
    \/ (exists verifySignature statusSignature st',
          m st = verifyAndFinish env sessionId publicKey
                   verifySignature statusSignature st'
          /\ run statusSignature st').

Section Ends.
Variable env : PayEnv.
Variables sessionId publicKey : string.
Variables pre err : PState -> Prop.
Variable run : string -> PState -> Prop.

Hypothesis pre_err : forall st, pre st -> err st.

Lemma ends_await {A} (e : Exc A) (k : A -> M Outcome) :
(forall a, e = Ok a -> ends env sessionId publicKey pre err run (k a)) ->
ends env sessionId publicKey pre err run (bind (await e) k).
Proof.
intros Hk st Hpre. unfold bind, await.
destruct e as [a|msg].
- exact (Hk a eq_refl st Hpre).
- left. exists msg, st. split; [reflexivity|now apply pre_err].
Qed.

Lemma ends_ret (k : M Outcome) :
ends env sessionId publicKey pre err run k ->
ends env sessionId publicKey pre err run (bind (ret tt) (fun _ => k)).
Proof. intros Hk st Hpre. exact (Hk st Hpre). Qed.

Lemma ends_throw (msg : string) (k : unit -> M Outcome) :
ends env sessionId publicKey pre err run (bind (throw msg) k).
Proof.
intros st Hpre. left. exists msg, st. split; [reflexivity|now apply pre_err].
Qed.

Lemma ends_guard (b : bool) (msg : string) (k : M Outcome) :
ends env sessionId publicKey pre err run k ->
ends env sessionId publicKey pre err run
  (bind (if b then throw msg else ret tt) (fun _ => k)).
Proof.
intros Hk st Hpre. unfold bind.
destruct b; cbn [throw ret].
- left. exists msg, st. split; [reflexivity|now apply pre_err].
- exact (Hk st Hpre).
Qed.

Lemma ends_verify verifySignature statusSignature :
(forall st, pre st -> run statusSignature st) ->
ends env sessionId publicKey pre err run
  (verifyAndFinish env sessionId publicKey verifySignature statusSignature).
Proof.
intros Hrun st Hpre. right. exists verifySignature, statusSignature, st.
split; [reflexivity|now apply Hrun].
Qed.

End Ends.

(** An awaited call that returned. *)
Lemma ends_ok env sessionId publicKey (pre err : PState -> Prop) run
    {A} (a : A) (k : A -> M Outcome) :
  ends env sessionId publicKey pre err run (k a) ->
  ends env sessionId publicKey pre err run (bind (await (Ok a)) k).
Proof. intros Hk st Hpre. exact (Hk st Hpre). Qed.

(** The safety timer moves from [pre] to [pre']. *)
Lemma ends_timer env sessionId publicKey (pre pre' err : PState -> Prop) run
    (k : M Outcome) :
  (forall st, pre st -> pre' (snd (safetyTimer env st))) ->
  ends env sessionId publicKey pre' err run k ->
  ends env sessionId publicKey pre err run (bind (safetyTimer env) (fun _ => k)).
Proof.
  intros Hstep Hk st Hpre. specialize (Hstep st Hpre). unfold bind.
  unfold safetyTimer in *. destruct (_ && _); cbn in *; exact (Hk _ Hstep).
Qed.

(** [dispatch tx] moves from [pre] to [pre']. *)
Lemma ends_dispatch env sessionId publicKey (pre pre' err : PState -> Prop) run
    (tx : Tx) (k : M Outcome) :
  (forall st, pre st ->
     pre' {| completed := completed st; redirects := redirects st;
             storage := storage st; dispatched := dispatched st ++ [tx];
             statusQueries := statusQueries st; verifications := verifications st;
             pauses := pauses st |}) ->
  ends env sessionId publicKey pre' err run k ->
  ends env sessionId publicKey pre err run (bind (dispatch tx) (fun _ => k)).
Proof.
  intros Hstep Hk st Hpre. unfold bind, dispatch, update.
  exact (Hk _ (Hstep st Hpre)).
Qed.

(** What the try block hands to the wallet, by asset path. *)
Definition transactionOf (env : PayEnv) (c : Checkout) (publicKey : string) (tx : Tx) : Prop :=
  match selectedToken c with
  | Some SOL =>
      exists p, solanaPrice env = Ok p
        /\ tx = Transfer publicKey (merchantWalletAddress c)
                  (Math_round (pricing c / p * LAMPORTS_PER_SOL)%float)
  | Some USDC =>
      tx = TokenTransfer publicKey (Math_round (pricing c * 1000000)%float)
  | _ => tx = JupiterSwap
  end.

(** The states of the try block before and after its one dispatch. *)
Definition before (st0 : PState) (r : nat) (st : PState) : Prop :=
  core st0 st /\ redirects st = r /\ dispatched st = dispatched st0.

Definition sentOne (env : PayEnv) (c : Checkout) (publicKey : string)
    (st0 : PState) (r : nat) (st : PState) : Prop :=
  core st0 st /\ redirects st = r
  /\ exists tx, dispatched st = dispatched st0 ++ [tx]
                /\ transactionOf env c publicKey tx.

Definition thrown (env : PayEnv) (c : Checkout) (publicKey : string)
    (st0 : PState) (r : nat) (st : PState) : Prop :=
  before st0 r st \/ sentOne env c publicKey st0 r st.

Ltac swap_path :=
  apply ends_await; [assumption|]; intros _ _;
  apply ends_ret;
  apply ends_await; [assumption|]; intros ?found _;
  apply ends_guard; [assumption|];
  apply ends_await; [assumption|]; intros ?balance _;
  apply ends_guard; [assumption|];
  apply ends_await; [assumption|]; intros ?routePlan _;
  apply ends_guard; [assumption|];
  apply ends_await; [assumption|]; intros ?swapTransaction _;
  apply ends_guard; [assumption|];
  apply ends_await; [assumption|]; intros _ _;
  apply ends_await; [assumption|]; intros ?signature1 _;
  (eapply ends_dispatch; [match goal with H : _ |- _ => apply H; reflexivity end|]);
  apply ends_await; [assumption|]; intros ?signature ?Hsend;
  apply ends_await; [assumption|]; intros [?e|] _;
  [ apply ends_throw; assumption
  | apply ends_ret; apply ends_verify; auto ].

(** The try block either throws, with nothing verified, no redirect but
    the one of the safety timer and at most one transaction dispatched,
    or it reaches the closing block after it dispatched one
    transaction; the ledger will be asked about the signature the
    submission returned. *)
Lemma tryBlock_shape env c publicKey st0 :
  (exists msg st,
     tryBlock env c publicKey st0 = (Err msg, st)
     /\ ((merchantKey env = Err msg /\ st = st0)
         \/ thrown env c publicKey st0 (redirects st0 + timerBit env st0) st))
  \/ (exists verifySignature statusSignature st,
        tryBlock env c publicKey st0
        = verifyAndFinish env (sessionId c) publicKey verifySignature statusSignature st
        /\ sendResult env = Ok statusSignature
        /\ sentOne env c publicKey st0 (redirects st0 + timerBit env st0) st).
Proof.
  destruct (merchantKey env) as [[]|m0] eqn:Hkey.
  2:{ left. exists m0, st0. unfold tryBlock, bind, await. rewrite Hkey.
      split; [reflexivity|]. now left. }
  set (r := redirects st0 + timerBit env st0).
  set (ERR := thrown env c publicKey st0 r).
  set (RUN := fun signature st => sendResult env = Ok signature
                                  /\ sentOne env c publicKey st0 r st).
  enough (H : ends env (sessionId c) publicKey (eq st0) ERR RUN
                (tryBlock env c publicKey)).
  { destruct (H st0 eq_refl) as [(msg & st & Htry & Herr)|(vs & ss & st & Htry & Hrun)].
    - left. exists msg, st. split; [exact Htry|]. now right.
    - right. exists vs, ss, st. split; [exact Htry|exact Hrun]. }
  assert (Hbefore : forall st, before st0 r st -> ERR st)
    by (intros st H; now left).
  assert (Hsent : forall st, sentOne env c publicKey st0 r st -> ERR st)
    by (intros st H; now right).
  assert (Hdispatch : forall tx, transactionOf env c publicKey tx ->
            forall st, before st0 r st ->
              sentOne env c publicKey st0 r
                  {| completed := completed st; redirects := redirects st;
                     storage := storage st; dispatched := dispatched st ++ [tx];
                     statusQueries := statusQueries st;
                     verifications := verifications st; pauses := pauses st |}).
  { intros tx Htx st (Hcore & Hr & Hd). split; [exact Hcore|]. split; [exact Hr|].
    exists tx. cbn [dispatched]. now rewrite Hd. }
  unfold tryBlock. rewrite Hkey. apply ends_ok.
  apply (ends_timer env (sessionId c) publicKey (eq st0) (before st0 r)).
  { intros st <-. subst r. unfold timerBit, safetyTimer.
    destruct (_ && _); unfold before, core; cbn; repeat split; lia. }
  unfold transactionOf in Hdispatch.
  apply ends_await; [exact Hbefore|]. intros p Hprice.
  destruct (selectedToken c) as [[| | | | |]|] eqn:Htoken.
  - eapply ends_dispatch; [apply Hdispatch; eauto|].
    apply ends_await; [exact Hsent|]. intros signature Hsend.
    apply ends_await; [exact Hsent|]. intros _ _.
    apply ends_await; [exact Hsent|]. intros _ _.
    apply ends_verify. subst RUN. cbn beta. auto.
  - apply ends_await; [exact Hbefore|]. intros _ _.
    eapply ends_dispatch; [apply Hdispatch; reflexivity|].
    apply ends_await; [exact Hsent|]. intros signature Hsend.
    apply ends_await; [exact Hsent|]. intros _ _.
    apply ends_await; [exact Hsent|]. intros _ _.
    apply ends_verify. subst RUN. cbn beta. auto.
  - subst RUN. swap_path.
  - subst RUN. swap_path.
  - subst RUN. swap_path.
  - subst RUN. swap_path.
  - apply ends_await; [exact Hbefore|]. intros _ _.
    apply ends_throw. exact Hbefore.
Qed.

(** *** The whole handler *)

(** The state a run starts in. *)
Definition initial (c : Checkout) : PState :=
  {| completed := paymentCompleted c; redirects := 0; storage := sessionStorage c;
     dispatched := []; statusQueries := []; verifications := []; pauses := [] |}.

(** What the [catch] and the normal end make of the try block. *)
Definition ending (r : Exc Outcome * PState) : PayRun :=
  {| outcome := match fst r with Ok o => o | Err _ => Failure end; final := snd r |}.

(** The four ways a run goes: no wallet; a merchant address that is no
    public key; an exception later in the try block; the closing block. *)
Lemma handlePayment_run env c :
  (wallet env = None
   /\ handlePayment env c = {| outcome := Failure; final := initial c |})
  \/ (exists publicKey msg,
        wallet env = Some publicKey /\ merchantKey env = Err msg
        /\ handlePayment env c = {| outcome := Failure; final := initial c |})
  \/ (exists publicKey st,
        wallet env = Some publicKey
        /\ thrown env c publicKey (initial c) (timerBit env (initial c)) st
        /\ handlePayment env c = {| outcome := Failure; final := st |})
  \/ (exists publicKey verifySignature statusSignature st,
        wallet env = Some publicKey
        /\ sendResult env = Ok statusSignature
        /\ sentOne env c publicKey (initial c) (timerBit env (initial c)) st
        /\ handlePayment env c
           = ending (verifyAndFinish env (sessionId c) publicKey
                       verifySignature statusSignature st)).
Proof.
  unfold handlePayment. fold (initial c).
  destruct (wallet env) as [publicKey|]; [|left; split; reflexivity].
  right.
  destruct (tryBlock_shape env c publicKey (initial c))
    as [(msg & st & -> & [[Hkey ->]|Hthrown])|(vs & ss & st & -> & Hsend & Hsent)].
  - left. exists publicKey, msg. repeat split. exact Hkey.
  - right. left. exists publicKey, st. repeat split. exact Hthrown.
  - right. right. exists publicKey, vs, ss, st.
    split; [reflexivity|]. split; [exact Hsend|]. split; [exact Hsent|].
    unfold ending.
    now destruct (verifyAndFinish env (sessionId c) publicKey vs ss st) as [[o|m] st'].
Qed.

(** Sample runs: a checkout of 10 USD paid in SOL; a connected wallet,
    SOL at 200 USD, a transaction that is sent and finalized; then the
    backend of the verification calls, the ledger's answer to the status
    query and the safety timer as given. *)
Definition checkout : Checkout :=
  {| sessionId := "abc123"; pricing := 10; merchantWalletAddress := "M";
     selectedToken := Some SOL; paymentCompleted := false;
     sessionStorage := Some NoItem |}.

Definition world (backend : FetchResult) (status : option Confirmation) (timer : bool)
  : PayEnv :=
  {| wallet := Some "payer";
     merchantKey := Ok tt;
     solanaPrice := Ok 200%float;
     tokenAccounts := Ok tt;
     senderAccountInfo := Ok true;
     tokenBalance := Ok (Some 5%float);
     quoteHasRoutePlan := Ok true;
     swapHasTransaction := Ok true;
     deserialized := Ok tt;
     signedSignature := Ok "5sig";
     sendResult := Ok "5sig";
     latestBlockhash := Ok tt;
     confirmation := Ok None;
     verifyEnv := fun _ => answering backend;
     signatureStatus := Ok status;
     consoleText := "Checkout";
     safetyTimerFires := timer |}.

(** X1. The completion callback. In a run during which the safety timer
    does not force a redirect (it does not fire, or [paymentCompleted]
    was set before), [onRedirect] is scheduled once when the run ends in
    success and not at all when it ends in failure. *)
Theorem handlePayment_redirects_on_success_only (env : PayEnv) (c : Checkout) :
  safetyTimerFires env && negb (paymentCompleted c) = false ->
  redirects (final (handlePayment env c))
  = match outcome (handlePayment env c) with
    | Success => 1
    | Failure => 0
    end.
Proof.
  intros Hquiet.
  assert (Hbit : timerBit env (initial c) = 0)
    by (unfold timerBit; cbn [initial completed]; now rewrite Hquiet).
  destruct (handlePayment_run env c)
    as [[_ ->]|[(pk & msg & _ & _ & ->)|[(pk & st & _ & Hthrown & ->)
       |(pk & vs & ss & st & _ & _ & Hsent & ->)]]]; try reflexivity.
  - cbn [outcome final]. rewrite Hbit in Hthrown.
    destruct Hthrown as [(_ & Hr & _)|(_ & Hr & _)]; exact Hr.
  - destruct (verifyAndFinish_spec env (sessionId c) vs pk ss st)
      as (res & st' & -> & _ & Hr' & _).
    destruct Hsent as (_ & Hr & _). rewrite Hbit in Hr. cbn [initial redirects] in Hr.
    unfold ending. cbn [fst snd outcome final]. rewrite Hr', Hr.
    now destruct res as [[|]|m].
Qed.

Lemma handlePayment_redirects_on_success_only_witness :
  redirects (final (handlePayment (world conflict None false) checkout))
  = match outcome (handlePayment (world conflict None false) checkout) with
    | Success => 1
    | Failure => 0
    end.
Proof.
  exact (handlePayment_redirects_on_success_only (world conflict None false) checkout
           eq_refl).
Defined.

(** X2. The safety timer. When it fires during a run that got past the
    wallet check and the merchant key, and [paymentCompleted] was not
    set when the run started, it schedules a redirect of its own:
    [onRedirect] is scheduled twice when the run ends in success and
    once when it ends in failure. *)
Theorem handlePayment_safety_timer_adds_a_redirect
    (env : PayEnv) (c : Checkout) (publicKey : string) :
  wallet env = Some publicKey ->
  merchantKey env = Ok tt ->
  safetyTimerFires env = true ->
  paymentCompleted c = false ->
  redirects (final (handlePayment env c))
  = match outcome (handlePayment env c) with
    | Success => 2
    | Failure => 1
    end.
Proof.
  intros Hwallet Hkey Hfires Hflag.
  assert (Hbit : timerBit env (initial c) = 1)
    by (unfold timerBit; cbn [initial completed]; now rewrite Hfires, Hflag).
  destruct (handlePayment_run env c)
    as [[Hnone _]|[(pk & msg & _ & Hbad & _)|[(pk & st & _ & Hthrown & ->)
       |(pk & vs & ss & st & _ & _ & Hsent & ->)]]]; try congruence.
  - cbn [outcome final]. rewrite Hbit in Hthrown.
    destruct Hthrown as [(_ & Hr & _)|(_ & Hr & _)]; exact Hr.
  - destruct (verifyAndFinish_spec env (sessionId c) vs pk ss st)
      as (res & st' & -> & _ & Hr' & _).
    destruct Hsent as (_ & Hr & _). rewrite Hbit in Hr. cbn [initial redirects] in Hr.
    unfold ending. cbn [fst snd outcome final]. rewrite Hr', Hr.
    now destruct res as [[|]|m].
Qed.

Lemma handlePayment_safety_timer_adds_a_redirect_witness :
  redirects (final (handlePayment (world timedOut (Some Finalized) true) checkout))
  = match outcome (handlePayment (world timedOut (Some Finalized) true) checkout) with
    | Success => 2
    | Failure => 1
    end.
Proof.
  exact (handlePayment_safety_timer_adds_a_redirect
           (world timedOut (Some Finalized) true) checkout "payer"
           eq_refl eq_refl eq_refl eq_refl).
Defined.

(** X3. The verification rounds. A run makes no verification call and ends
    in failure, or it makes one to three, each but the last a failure;
    when the last one succeeded the run ends in success with
    [paymentCompleted] set, and the ledger was not asked. *)
Theorem handlePayment_stops_at_first_verified (env : PayEnv) (c : Checkout) :
  (verifications (final (handlePayment env c)) = []
   /\ outcome (handlePayment env c) = Failure)
  \/ exists init last,
       verifications (final (handlePayment env c)) = init ++ [last]
       /\ Forall failed init /\ length init <= 2
       /\ (success (VerifyPayment.result last) = true ->
             outcome (handlePayment env c) = Success
             /\ completed (final (handlePayment env c)) = true
             /\ statusQueries (final (handlePayment env c)) = []).
Proof.
  destruct (handlePayment_run env c)
    as [[_ ->]|[(pk & msg & _ & _ & ->)|[(pk & st & _ & Hthrown & ->)
       |(pk & vs & ss & st & _ & _ & Hsent & ->)]]];
    try (left; split; reflexivity).
  - left. cbn [outcome final]. split; [|reflexivity].
    destruct Hthrown as [((_ & _ & _ & Hv) & _)|((_ & _ & _ & Hv) & _)]; exact Hv.
  - right.
    destruct (verifyAndFinish_spec env (sessionId c) vs pk ss st)
      as (res & st' & -> & _ & _ & init & last & Hv' & Hinit & Hlen & Hlast).
    destruct Hsent as ((_ & _ & Hq & Hv) & _).
    cbn [initial verifications statusQueries] in Hq, Hv.
    exists init, last. unfold ending. cbn [fst snd outcome final].
    rewrite Hv', Hv.
    split; [reflexivity|]. split; [exact Hinit|]. split; [exact Hlen|].
    intros Hok. rewrite Hok in Hlast. destruct Hlast as (-> & Hdone & Hqs).
    split; [reflexivity|]. split; [exact Hdone|congruence].
Qed.

(** X4. The ledger as a fallback. In a run whose verification calls were
    made and all failed, the handler has asked the ledger for the status
    of the signature the submission returned, once; a confirmed or
    finalized status ends the run in success with [paymentCompleted]
    set, any other answer leaves the decision to the marker scan of the
    page, and a failed query ends the run in failure. The session
    storage is as it was before the run: the handler records no
    signature. *)
Theorem handlePayment_ledger_fallback (env : PayEnv) (c : Checkout) :
  verifications (final (handlePayment env c)) <> [] ->
  Forall failed (verifications (final (handlePayment env c))) ->
  storage (final (handlePayment env c)) = sessionStorage c
  /\ (exists signature, sendResult env = Ok signature
        /\ statusQueries (final (handlePayment env c)) = [signature])
  /\ match signatureStatus env with
     | Ok (Some Finalized) | Ok (Some Confirmed) =>
         outcome (handlePayment env c) = Success
         /\ completed (final (handlePayment env c)) = true
     | Ok _ =>
         outcome (handlePayment env c)
         = (if consoleMarkers (consoleText env) then Success else Failure)
         /\ completed (final (handlePayment env c)) = paymentCompleted c
     | Err _ =>
         outcome (handlePayment env c) = Failure
         /\ completed (final (handlePayment env c)) = paymentCompleted c
     end.
Proof.
  destruct (handlePayment_run env c)
    as [[_ ->]|[(pk & msg & _ & _ & ->)|[(pk & st & _ & Hthrown & ->)
       |(pk & vs & ss & st & _ & Hsend & Hsent & ->)]]];
    try (intros H; now destruct H).
  - cbn [final]. intros Hne.
    destruct Hthrown as [((_ & _ & _ & Hv) & _)|((_ & _ & _ & Hv) & _)];
      now destruct Hne.
  - destruct (verifyAndFinish_spec env (sessionId c) vs pk ss st)
      as (res & st' & -> & _ & _ & init & last & Hv' & Hinit & Hlen & Hlast).
    destruct Hsent as ((Hc & Hs & Hq & Hv) & _).
    cbn [initial completed storage verifications statusQueries] in Hc, Hs, Hq, Hv.
    unfold ending. cbn [fst snd outcome final]. intros _ Hall.
    rewrite Hv', Hv in Hall. cbn [app] in Hall.
    apply Forall_app in Hall as [_ Hfail].
    inversion Hfail as [|? ? Hno _]; subst. unfold failed in Hno.
    rewrite Hno in Hlast. destruct Hlast as (Hsto & Hqs & Hres).
    split; [congruence|]. split.
    { exists ss. split; [exact Hsend|]. now rewrite Hqs, Hq. }
    destruct (signatureStatus env) as [[[| |]|]|m];
      destruct Hres as [-> Hdone]; (split; [reflexivity|congruence]).
Qed.

Lemma handlePayment_ledger_fallback_witness :
  storage (final (handlePayment (world serverError (Some Finalized) false) checkout))
  = Some NoItem
  /\ outcome (handlePayment (world serverError (Some Finalized) false) checkout)
     = Success.
Proof.
  pose proof (handlePayment_ledger_fallback
                (world serverError (Some Finalized) false) checkout) as H.
  destruct H as (Hsto & _ & Hout & _).
  - discriminate.
  - repeat constructor.
  - split; [exact Hsto|exact Hout].
Defined.

(** X5. One transaction at most. A run hands nothing to the wallet or the
    ledger, then it ends in failure and has made no verification call;
    or it hands over exactly one transaction, the one of the selected
    asset path. *)
Theorem handlePayment_dispatches_at_most_once (env : PayEnv) (c : Checkout) :
  (dispatched (final (handlePayment env c)) = []
   /\ outcome (handlePayment env c) = Failure
   /\ verifications (final (handlePayment env c)) = [])
  \/ exists publicKey tx,
       wallet env = Some publicKey
       /\ dispatched (final (handlePayment env c)) = [tx]
       /\ transactionOf env c publicKey tx.
Proof.
  destruct (handlePayment_run env c)
    as [[_ ->]|[(pk & msg & _ & _ & ->)|[(pk & st & Hwallet & Hthrown & ->)
       |(pk & vs & ss & st & Hwallet & _ & Hsent & ->)]]];
    try (left; repeat split; reflexivity).
  - cbn [outcome final].
    destruct Hthrown as [((_ & _ & _ & Hv) & _ & Hd)
                        |((_ & _ & _ & Hv) & _ & tx & Hd & Htx)].
    + left. repeat split; assumption.
    + right. exists pk, tx. repeat split; assumption.
  - right.
    destruct (verifyAndFinish_spec env (sessionId c) vs pk ss st)
      as (res & st' & -> & Hd' & _).
    destruct Hsent as (_ & _ & tx & Hd & Htx).
    exists pk, tx. unfold ending. cbn [fst snd final].
    repeat split; try assumption. now rewrite Hd', Hd.
Qed.


(** What the [catch] and the normal end make of the try block, for a
    connected wallet. *)
Lemma handlePayment_connected env c publicKey :
  wallet env = Some publicKey ->
  handlePayment env c = ending (tryBlock env c publicKey (initial c)).
Proof.
  intros Hwallet. unfold handlePayment, ending. rewrite Hwallet. fold (initial c).
  now destruct (tryBlock env c publicKey (initial c)) as [[o|m] st].
Qed.

(** The state after the safety timer had its chance. *)
Definition timed (env : PayEnv) (c : Checkout) : PState :=
  snd (safetyTimer env (initial c)).

Lemma timed_dispatched env c : dispatched (timed env c) = [].
Proof. unfold timed, safetyTimer. now destruct (_ && _). Qed.

Lemma timed_core env c : core (initial c) (timed env c).
Proof. unfold timed, safetyTimer. destruct (_ && _); repeat split. Qed.

Lemma safetyTimer_timed env c (k : M Outcome) :
  bind (safetyTimer env) (fun _ => k) (initial c) = k (timed env c).
Proof. unfold bind, timed, safetyTimer. now destruct (_ && _). Qed.






(** The pre-flight checks of the swap path. *)
Definition swapToken (t : option Token) : bool :=
  match t with
  | Some USDT | Some JUP | Some BONK | Some PUDGY => true
  | _ => false
  end.

(** A check of the swap path fails: there is no source token account,
    its balance is missing or zero, the quote has no route plan, or the
    swap response holds no transaction. *)
Definition preflightFails (env : PayEnv) : Prop :=
  senderAccountInfo env = Ok false
  \/ (exists balance, tokenBalance env = Ok balance /\ noBalance balance = true)
  \/ quoteHasRoutePlan env = Ok false
  \/ swapHasTransaction env = Ok false.

(** X8. When a pre-flight check of the swap path fails, the run ends in
    failure: nothing is handed to the wallet or the ledger, no
    verification call is made, no signature is recorded, and
    [paymentCompleted] stays as it was. *)
Theorem handlePayment_swap_preflight (env : PayEnv) (c : Checkout) :
  swapToken (selectedToken c) = true ->
  preflightFails env ->
  outcome (handlePayment env c) = Failure
  /\ dispatched (final (handlePayment env c)) = []
  /\ verifications (final (handlePayment env c)) = []
  /\ storage (final (handlePayment env c)) = sessionStorage c
  /\ completed (final (handlePayment env c)) = paymentCompleted c.
Proof.
  intros Htoken Hfails.
  destruct (wallet env) as [publicKey|] eqn:Hwallet.
  2:{ unfold handlePayment. rewrite Hwallet. repeat split. }
  rewrite (handlePayment_connected env c publicKey Hwallet).
  pose proof (timed_dispatched env c) as Hd.
  destruct (timed_core env c) as (Hc & Hs & _ & Hv).
  cbn [initial completed storage verifications] in Hc, Hs, Hv.
  assert (Hend : forall msg,
            outcome (ending (Err msg : Exc Outcome, timed env c)) = Failure
            /\ dispatched (final (ending (Err msg : Exc Outcome, timed env c))) = []
            /\ verifications (final (ending (Err msg : Exc Outcome, timed env c))) = []
            /\ storage (final (ending (Err msg : Exc Outcome, timed env c)))
               = sessionStorage c
            /\ completed (final (ending (Err msg : Exc Outcome, timed env c)))
               = paymentCompleted c)
    by (intros msg; unfold ending; cbn [fst snd outcome final]; auto).
  unfold tryBlock.
  destruct (merchantKey env) as [[]|m]; [|repeat split].
  cbn [bind await]. rewrite safetyTimer_timed. cbn [bind await].
  destruct (solanaPrice env) as [p|m]; [|apply Hend].
  destruct (selectedToken c) as [[| | | | |]|]; try discriminate Htoken;
    (destruct (tokenAccounts env) as [[]|m];
       cbn [negb bind await throw ret]; [|apply Hend]);
    (destruct (senderAccountInfo env) as [[|]|m] eqn:Hinfo;
       cbn [negb bind await throw ret]; [|apply Hend|apply Hend]);
    (destruct (tokenBalance env) as [balance|m] eqn:Hbalance;
       cbn [negb bind await throw ret]; [|apply Hend]);
    (destruct (noBalance balance) eqn:Hnone;
       cbn [negb bind await throw ret]; [apply Hend|]);
    (destruct (quoteHasRoutePlan env) as [[|]|m] eqn:Hquote;
       cbn [negb bind await throw ret]; [|apply Hend|apply Hend]);
    (destruct (swapHasTransaction env) as [[|]|m] eqn:Hswap;
       cbn [negb bind await throw ret]; [|apply Hend|apply Hend]);
    exfalso;
    destruct Hfails as [H|[(b & H & Hb)|[H|H]]]; congruence.
Qed.

Definition swapCheckout : Checkout :=
  {| sessionId := "abc123"; pricing := 10; merchantWalletAddress := "M";
     selectedToken := Some BONK; paymentCompleted := false;
     sessionStorage := Some NoItem |}.

(** A wallet that holds none of the selected token. *)
Definition emptyHanded : PayEnv :=
  {| wallet := Some "payer";
     merchantKey := Ok tt;
     solanaPrice := Ok 200%float;
     tokenAccounts := Ok tt;
     senderAccountInfo := Ok false;
     tokenBalance := Err "could not find account";
     quoteHasRoutePlan := Ok true;
     swapHasTransaction := Ok true;
     deserialized := Ok tt;
     signedSignature := Ok "5sig";
     sendResult := Ok "5sig";
     latestBlockhash := Ok tt;
     confirmation := Ok None;
     verifyEnv := fun _ => answering conflict;
     signatureStatus := Ok (Some Finalized);
     consoleText := "Checkout";
     safetyTimerFires := false |}.

Lemma handlePayment_swap_preflight_witness :
  outcome (handlePayment emptyHanded swapCheckout) = Failure
  /\ dispatched (final (handlePayment emptyHanded swapCheckout)) = []
  /\ verifications (final (handlePayment emptyHanded swapCheckout)) = []
  /\ storage (final (handlePayment emptyHanded swapCheckout)) = Some NoItem
  /\ completed (final (handlePayment emptyHanded swapCheckout)) = false.
Proof.
  apply (handlePayment_swap_preflight emptyHanded swapCheckout).
  - reflexivity.
  - left. reflexivity.
Defined.






End PaymentFacts.

(** ** validateEmail and sanitizeInput                                 *)

Module InputFacts.
Import JS Net NetFacts FetchSessionFacts CreateSession.

(** *** Cutting a string at a separator *)

Lemma cons_app (c : ascii) (pre post : string) :
  (String c pre ++ post)%string = String c (pre ++ post)%string.
Proof. reflexivity. Qed.

Lemma nil_app (post : string) : (EmptyString ++ post)%string = post.
Proof. reflexivity. Qed.

Lemma splitFirst_joins sep s l r :
  splitFirst sep s = Some (l, r) -> s = (l ++ String sep r)%string.
Proof.
  revert l. induction s as [|c s IH]; intros l; cbn [splitFirst]; [discriminate|].
  destruct (Ascii.eqb_spec c sep) as [->|Hne].
  - intros [= <- <-]. reflexivity.
  - destruct (splitFirst sep s) as [[l' r']|]; [|discriminate].
    intros [= <- <-]. rewrite cons_app. f_equal. now apply IH.
Qed.

Lemma splitLast_joins sep s l r :
  splitLast sep s = Some (l, r) -> s = (l ++ String sep r)%string.
Proof.
  revert l. induction s as [|c s IH]; intros l; cbn [splitLast]; [discriminate|].
  destruct (splitLast sep s) as [[l' r']|].
  - intros [= <- <-]. rewrite cons_app. f_equal. now apply IH.
  - destruct (Ascii.eqb_spec c sep) as [->|Hne]; [|discriminate].
    intros [= <- <-]. reflexivity.
Qed.

(** A separator outside the class of the left part is the first one. *)
Lemma splitFirst_found inClass sep l r :
  inClass sep = false -> allChars inClass l = true ->
  splitFirst sep (l ++ String sep r)%string = Some (l, r).
Proof.
  intros Hsep. induction l as [|c l IH]; intros Hall.
  - rewrite nil_app. cbn [splitFirst]. now rewrite Ascii.eqb_refl.
  - rewrite cons_app. cbn [allChars] in Hall. apply andb_true_iff in Hall as [Hc Hall].
    cbn [splitFirst]. destruct (Ascii.eqb_spec c sep) as [->|Hne]; [congruence|].
    now rewrite (IH Hall).
Qed.

Lemma splitLast_none inClass sep r :
  inClass sep = false -> allChars inClass r = true -> splitLast sep r = None.
Proof.
  intros Hsep. induction r as [|c r IH]; intros Hall; [reflexivity|].
  cbn [allChars] in Hall. apply andb_true_iff in Hall as [Hc Hall].
  cbn [splitLast]. rewrite (IH Hall).
  destruct (Ascii.eqb_spec c sep) as [->|Hne]; [congruence|reflexivity].
Qed.

(** A separator outside the class of the right part is the last one. *)
Lemma splitLast_found inClass sep l r :
  inClass sep = false -> allChars inClass r = true ->
  splitLast sep (l ++ String sep r)%string = Some (l, r).
Proof.
  intros Hsep Hall. induction l as [|c l IH].
  - rewrite nil_app. cbn [splitLast]. rewrite (splitLast_none inClass sep r Hsep Hall).
    now rewrite Ascii.eqb_refl.
  - rewrite cons_app. cbn [splitLast]. now rewrite IH.
Qed.

(** *** validateEmail *)

(** The strings the pattern of [validateEmail] describes: a local part,
    ["@"], a domain, ["."] and a top-level domain of two letters or
    more, each non-empty part over its character class. *)
Definition emailShaped (email : string) : Prop :=
  exists loc domain tld,
    email = (loc ++ "@" ++ domain ++ "." ++ tld)%string
    /\ 1 <= String.length loc /\ allChars localChar loc = true
    /\ 1 <= String.length domain /\ allChars domainChar domain = true
    /\ 2 <= String.length tld /\ allChars isLetter tld = true.

(** X10. [validateEmail] accepts exactly the strings of the shape
    [local@domain.tld]. *)
Theorem validateEmail_accepts_exactly (email : string) :
  validateEmail email = true <-> emailShaped email.
Proof.
  unfold validateEmail, emailShaped. split.
  - destruct (splitFirst "@" email) as [[loc rest]|] eqn:Hat; [|discriminate].
    destruct (splitLast "." rest) as [[domain tld]|] eqn:Hdot; [|discriminate].
    intros H. repeat (apply andb_true_iff in H as [H ?]).
    exists loc, domain, tld.
    apply splitFirst_joins in Hat. apply splitLast_joins in Hdot.
    repeat split; try assumption; try (now apply Nat.leb_le).
    rewrite Hat, Hdot. reflexivity.
  - intros (loc & domain & tld & -> & Hl & Hloc & Hd & Hdomain & Ht & Htld).
    change (loc ++ "@" ++ domain ++ "." ++ tld)%string
      with (loc ++ String "@" (domain ++ String "." tld))%string.
    rewrite (splitFirst_found localChar "@" loc _ eq_refl Hloc).
    rewrite (splitLast_found isLetter "." domain tld eq_refl Htld).
    rewrite Hloc, Hdomain, Htld.
    apply Nat.leb_le in Hl, Hd, Ht. now rewrite Hl, Hd, Ht.
Qed.

(** *** sanitizeInput *)

(** No ["<"]. *)
Definition noTagOpen (c : ascii) : bool := negb (Ascii.eqb c "<").

Lemma stripTags_clean inTag s : allChars noTagOpen (stripTags inTag s) = true.
Proof.
  revert inTag. induction s as [|c s IH]; intros inTag; [reflexivity|].
  cbn [stripTags]. destruct inTag; [apply IH|].
  destruct (Ascii.eqb c "<") eqn:Hc; [apply IH|].
  cbn [allChars]. unfold noTagOpen at 1. rewrite Hc. cbn. apply IH.
Qed.


Lemma trimStart_keeps inClass s :
  allChars inClass s = true -> allChars inClass (trimStart s) = true.
Proof.
  induction s as [|c s IH]; [reflexivity|].
  intros H. cbn [trimStart]. destruct (isWhite c); [|exact H].
  cbn [allChars] in H. apply andb_true_iff in H as [_ H]. now apply IH.
Qed.

Lemma trimEnd_keeps inClass s :
  allChars inClass s = true -> allChars inClass (trimEnd s) = true.
Proof.
  induction s as [|c s IH]; [reflexivity|].
  cbn [allChars]. intros H. apply andb_true_iff in H as [Hc Hs].
  specialize (IH Hs). cbn [trimEnd].
  destruct (trimEnd s) as [|d kept].
  - destruct (isWhite c); [reflexivity|]. cbn [allChars]. now rewrite Hc.
  - cbn [allChars] in *. now rewrite Hc, IH.
Qed.

Lemma trim_keeps inClass s :
  allChars inClass s = true -> allChars inClass (trim s) = true.
Proof. intros H. unfold trim. now apply trimEnd_keeps, trimStart_keeps. Qed.










End InputFacts.

(** ** The gateway calls from end to end                               *)

Module GatewayFacts.
Import JS Net NetFacts BackoffFacts RetryFacts InputFacts.

(** *** The attempt that decides a call *)

(** An attempt fails in a way the gateways retry: the last [fetch] of
    the iteration threw (a network error or the timeout), or the final
    response has HTTP >= 500 or 429. *)
Definition transientFailure (f : Fetched) : Prop :=
  match f with
  | Threw _ => True
  | Got res => ok res = false /\ retryable res = true
  | Shortcut => False
  end.

(** The error body of the final response, if there is one, can be read
    for its [message]. *)
Definition readableFailure (f : Fetched) : Prop :=
  match f with
  | Got res => errorReadable res = true
  | _ => True
  end.

Section Decisive.
Context {St R : Type}.
Variable maxRetries : nat.
Variable iteration : nat -> St -> Flow R * St.
Variable pause : Q -> St -> St.
Variable exhausted : R.
Variable wireOf : St -> Wire.

Hypothesis pause_wire : forall d st, wireOf (pause d st) = waited d (wireOf st).
Hypothesis iteration_sends : forall k st,
exists xs, wireOf (snd (iteration k st)) = sent xs (wireOf st)
           /\ length (List.filter toApi xs) = 1.

(** When the first [n] attempts end in [continue] and attempt [n]
  returns [r], the call returns [r] after [n + 1] attempts and [n]
  pauses. *)
Lemma retryLoop_decisive (n : nat) (r : R) (st0 : St) :
n < maxRetries ->
(forall k st, k < n -> exists d, fst (iteration k st) = Continue d) ->
(forall st, fst (iteration n st) = Return r) ->
wireOf st0 = silent ->
fst (retryLoop maxRetries iteration pause exhausted maxRetries 0 st0) = r
/\ attemptsOf (wireOf (snd (retryLoop maxRetries iteration pause exhausted
                              maxRetries 0 st0))) = n + 1
/\ length (delays (wireOf (snd (retryLoop maxRetries iteration pause exhausted
                                  maxRetries 0 st0)))) = n.
Proof.
intros Hn Hfirst Hlast Hsilent.
apply (retryLoop_rule maxRetries iteration pause exhausted
         (fun k st => k <= n /\ attemptsOf (wireOf st) = k
                      /\ length (delays (wireOf st)) = k)
         (fun r' st => r' = r /\ attemptsOf (wireOf st) = n + 1
                       /\ length (delays (wireOf st)) = n)).
- intros k st (Hk & Hatt & Hlen) _.
  destruct (iteration_sends k st) as (xs & Hw & Hone).
  destruct (Nat.eq_dec k n) as [->|Hne].
  + specialize (Hlast st).
    destruct (iteration n st) as [[r'|d] st']; cbn [fst snd] in *; [|discriminate].
    injection Hlast as ->. unfold attemptsOf in *. rewrite Hw.
    cbn [sent exchanges delays]. rewrite List.filter_app, length_app.
    repeat split; lia.
  + destruct (Hfirst k st ltac:(lia)) as [d Hd].
    destruct (iteration k st) as [[r'|d'] st']; cbn [fst snd] in *; [discriminate|].
    unfold attemptsOf in *. rewrite pause_wire, Hw.
    cbn [waited sent exchanges delays].
    rewrite List.filter_app, !length_app. cbn [length]. repeat split; lia.
- intros k st (Hk & _) Hge. lia.
- lia.
- unfold attemptsOf. rewrite Hsilent. repeat split. lia.
Qed.

(** Every exchange of a call satisfies what the exchanges of each
  iteration satisfy. *)
Lemma retryLoop_exchanges (P : Exchange -> Prop) (st0 : St) :
(forall k st, exists xs, wireOf (snd (iteration k st)) = sent xs (wireOf st)
                         /\ Forall P xs) ->
wireOf st0 = silent ->
Forall P (exchanges (wireOf (snd (retryLoop maxRetries iteration pause exhausted
                                    maxRetries 0 st0)))).
Proof.
intros Hit Hsilent.
apply (retryLoop_rule maxRetries iteration pause exhausted
         (fun _ st => Forall P (exchanges (wireOf st)))
         (fun _ st => Forall P (exchanges (wireOf st)))).
- intros k st HI _. destruct (Hit k st) as (xs & Hw & Hxs).
  destruct (iteration k st) as [[r|d] st']; cbn [fst snd] in *.
  + rewrite Hw. cbn [sent exchanges]. apply Forall_app. now split.
  + rewrite pause_wire, Hw. cbn [waited sent exchanges]. apply Forall_app. now split.
- intros k st HI _. exact HI.
- lia.
- rewrite Hsilent. constructor.
Qed.

End Decisive.

(** The requests of an iteration are built by [mk]. *)
Lemma fetchBoth_carries shortcut mk a :
  Forall (fun x => exists e, request x = mk e) (snd (fetchBoth shortcut mk a)).
Proof.
  unfold fetchBoth.
  destruct (primary a) as [r|e].
  - destruct (negb (ok r) && (status r =? 404)).
    + destruct (fallbackTry a) as [r2|e2].
      * cbn. repeat constructor; eexists; reflexivity.
      * destruct shortcut; [|destruct (fallbackCatch a)];
          cbn; repeat constructor; eexists; reflexivity.
    + cbn. repeat constructor; eexists; reflexivity.
  - destruct shortcut; [|destruct (fallbackCatch a)];
      cbn; repeat constructor; eexists; reflexivity.
Qed.

Lemma retryable_not_ok res : retryable res = true -> ok res = false.
Proof.
  unfold retryable, ok. intros H. apply orb_true_iff in H as [H|H].
  - apply Nat.leb_le in H. apply andb_false_iff. right. apply Nat.leb_gt. lia.
  - apply Nat.eqb_eq in H. now rewrite H.
Qed.

Lemma retryable_not_404 res : retryable res = true -> (status res =? 404) = false.
Proof.
  unfold retryable. intros H. apply Nat.eqb_neq. apply orb_true_iff in H as [H|H].
  - apply Nat.leb_le in H. lia.
  - apply Nat.eqb_eq in H. lia.
Qed.

Lemma ok_not_409 res : ok res = true -> (status res =? 409) = false.
Proof.
  unfold ok. intros H. apply andb_true_iff in H as [_ H].
  apply Nat.leb_le in H. apply Nat.eqb_neq. lia.
Qed.

(** *** createSession *)

Section CreateLoop.
Import CreateSession.
Variable env : CreateEnv.
Variable maxRetries : nat.
Variables saasId email plan : string.

(** The arguments pass the checks that open [createSession]. *)
Definition validInput : Prop :=
saasId <> "" /\ validateEmail email = true /\ plan <> "".

Definition createLoop : option JVal * Wire :=
retryLoop maxRetries
  (createIteration env maxRetries
     (sanitizeInput saasId) (sanitizeInput email) (sanitizeInput plan))
  waited None maxRetries 0 silent.

Lemma createSession_unfold :
validInput ->
createSession env saasId email plan maxRetries
= {| result := fst createLoop; wire := snd createLoop |}.
Proof.
intros (Hid & Hemail & Hplan). unfold createSession, createLoop.
apply String.eqb_neq in Hid, Hplan. rewrite Hid, Hplan, Hemail.
assert (He : String.eqb email "" = false).
{ apply String.eqb_neq. intros ->. discriminate Hemail. }
rewrite He. cbn [negb orb].
now destruct (retryLoop _ _ _ _ _ _ _).
Qed.

Lemma createIteration_retry sid em pl k w :
transientFailure (createOutcome env k) ->
fst (createIteration env maxRetries sid em pl k w)
= retryOr maxRetries k (random (net env k)) 1000 10000 (Return None).
Proof.
unfold createOutcome, createIteration, retryOr.
rewrite <- (fetchBoth_outcome false
              (fun e => {| endpoint := e; payload := [sid; em; pl] |})).
destruct (fetchBoth false _ (net env k)) as [fetched xs]. cbn [fst snd].
destruct fetched as [res| |e]; cbn [transientFailure]; [|contradiction|reflexivity].
intros [Hok Hretry]. rewrite Hok, Hretry. cbn [negb].
now destruct (getProp _ "message").
Qed.

Lemma createIteration_created sid em pl k w res d v :
createOutcome env k = Got res -> ok res = true -> body res = GoodJSON d ->
getProp d "sessionId" = Some v -> truthy v = true ->
fst (createIteration env maxRetries sid em pl k w) = Return (Some v).
Proof.
unfold createOutcome, createIteration.
rewrite <- (fetchBoth_outcome false
              (fun e => {| endpoint := e; payload := [sid; em; pl] |})).
destruct (fetchBoth false _ (net env k)) as [fetched xs]. cbn [fst snd].
intros -> Hok Hbody Hid Hv. rewrite Hok, Hbody, Hid. cbn [negb from_option id].
rewrite Hv. cbn [negb].
assert (Hd : dataTruthy d = true).
{ destruct d as [o|[]]; cbn in *; try reflexivity; try discriminate;
    injection Hid as <-; discriminate Hv. }
now rewrite Hd.
Qed.

Lemma createIteration_refused sid em pl k w res :
createOutcome env k = Got res -> ok res = false -> retryable res = false ->
errorReadable res = true ->
fst (createIteration env maxRetries sid em pl k w) = Return None.
Proof.
unfold createOutcome, createIteration, errorReadable.
rewrite <- (fetchBoth_outcome false
              (fun e => {| endpoint := e; payload := [sid; em; pl] |})).
destruct (fetchBoth false _ (net env k)) as [fetched xs]. cbn [fst snd].
intros -> Hok Hretry Hread. rewrite Hok, Hretry. cbn [negb].
destruct (body res) as [|[o|[]]]; try discriminate; reflexivity.
Qed.

Lemma retryOr_continue {R} k rnd jitter cap (last : Flow R) :
S k < maxRetries ->
exists d, retryOr maxRetries k rnd jitter cap last = Continue d.
Proof.
intros H. apply Nat.ltb_lt in H. unfold retryOr. rewrite H. eauto.
Qed.

Lemma retryOr_last {R} k rnd jitter cap (last : Flow R) :
maxRetries = S k -> retryOr maxRetries k rnd jitter cap last = last.
Proof.
intros ->. unfold retryOr. now rewrite Nat.ltb_irrefl.
Qed.

End CreateLoop.


(** Worlds of [createSession]: the backend answers 400 to every request. *)
Definition rejecting : CreateSession.CreateEnv :=
  {| CreateSession.net := fun _ =>
       {| primary := Responds {| status := 400; body := BadJSON |};
          fallbackTry := Responds {| status := 400; body := BadJSON |};
          fallbackCatch := Responds {| status := 400; body := BadJSON |};
          page := ""; random := 1 # 2 |} |}.

Lemma sample_validInput : validInput "merchant-1" "customer@example.com" "pro".
Proof. split; [discriminate|]. split; [reflexivity|discriminate]. Qed.

(** X13. [createSession] retries until the session is created. With
    arguments that pass the opening checks: when the first [n] attempts
    fail transiently (a thrown [fetch], HTTP >= 500 or 429) and attempt
    [n < maxRetries] is answered with an ok status and a JSON body whose
    [sessionId] is truthy, the call returns that [sessionId], after
    [n + 1] attempts and [n] pauses. *)
Theorem createSession_retries_until_created
    (env : CreateSession.CreateEnv) (saasId email plan : string)
    (maxRetries n : nat) (res : Response) (d : JData) (v : JVal) :
  validInput saasId email plan ->
  n < maxRetries ->
  (forall k, k < n -> transientFailure (createOutcome env k)) ->
  createOutcome env n = Got res ->
  ok res = true ->
  body res = GoodJSON d ->
  getProp d "sessionId" = Some v ->
  truthy v = true ->
  CreateSession.result (CreateSession.createSession env saasId email plan maxRetries)
  = Some v
  /\ attemptsOf (CreateSession.wire
                   (CreateSession.createSession env saasId email plan maxRetries))
     = n + 1
  /\ length (delays (CreateSession.wire
                       (CreateSession.createSession env saasId email plan maxRetries)))
     = n.
Proof.
  intros Hvalid Hn Hfirst Hout Hok Hbody Hid Hv.
  rewrite (createSession_unfold env maxRetries saasId email plan Hvalid).
  cbn [CreateSession.result CreateSession.wire]. unfold createLoop.
  apply (retryLoop_decisive maxRetries _ waited None (fun w => w)).
  - reflexivity.
  - apply createIteration_sends.
  - exact Hn.
  - intros k w Hk. rewrite createIteration_retry by now apply Hfirst.
    apply retryOr_continue. lia.
  - intros w. now apply (createIteration_created env maxRetries _ _ _ n w res d v).
  - reflexivity.
Qed.

Lemma createSession_retries_until_created_witness :
  CreateSession.result
    (CreateSession.createSession failingOnce "merchant-1" "customer@example.com" "pro" 3)
  = Some (JStr "abc123")
  /\ attemptsOf (CreateSession.wire
                   (CreateSession.createSession failingOnce
                      "merchant-1" "customer@example.com" "pro" 3))
     = 1 + 1
  /\ length (delays (CreateSession.wire
                       (CreateSession.createSession failingOnce
                          "merchant-1" "customer@example.com" "pro" 3)))
     = 1.
Proof.
  apply (createSession_retries_until_created failingOnce
           "merchant-1" "customer@example.com" "pro" 3 1
           {| status := 200;
              body := GoodJSON (DObj {[ "sessionId" := JStr "abc123" ]}) |}
           (DObj {[ "sessionId" := JStr "abc123" ]}) (JStr "abc123")).
  - exact sample_validInput.
  - lia.
  - intros [|k] Hk; [split; reflexivity|lia].
  - reflexivity.
  - reflexivity.
  - reflexivity.
  - reflexivity.
  - reflexivity.
Defined.

(** X14. [createSession] gives up after [maxRetries] attempts. With arguments
    that pass the opening checks and [maxRetries > 0]: when every
    attempt fails transiently, the call returns [null] after exactly
    [maxRetries] attempts and [maxRetries - 1] pauses. *)
Theorem createSession_gives_up
    (env : CreateSession.CreateEnv) (saasId email plan : string) (maxRetries : nat) :
  validInput saasId email plan ->
  0 < maxRetries ->
  (forall k, k < maxRetries -> transientFailure (createOutcome env k)) ->
  CreateSession.result (CreateSession.createSession env saasId email plan maxRetries)
  = None
  /\ attemptsOf (CreateSession.wire
                   (CreateSession.createSession env saasId email plan maxRetries))
     = maxRetries
  /\ length (delays (CreateSession.wire
                       (CreateSession.createSession env saasId email plan maxRetries)))
     = maxRetries - 1.
Proof.
  intros Hvalid Hmax Hall.
  rewrite (createSession_unfold env maxRetries saasId email plan Hvalid).
  cbn [CreateSession.result CreateSession.wire]. unfold createLoop.
  enough (H : forall n, maxRetries = n + 1 ->
            fst (createLoop env maxRetries saasId email plan) = None
            /\ attemptsOf (snd (createLoop env maxRetries saasId email plan)) = n + 1
            /\ length (delays (snd (createLoop env maxRetries saasId email plan))) = n).
  { destruct (H (maxRetries - 1) ltac:(lia)) as (Hr & Ha & Hd).
    unfold createLoop in *. rewrite Hr, Ha, Hd. repeat split. lia. }
  intros n Hlast. unfold createLoop.
  apply (retryLoop_decisive maxRetries _ waited None (fun w => w)).
  - reflexivity.
  - apply createIteration_sends.
  - lia.
  - intros k w Hk. rewrite createIteration_retry by (apply Hall; lia).
    apply retryOr_continue. lia.
  - intros w. rewrite createIteration_retry by (apply Hall; lia).
    apply retryOr_last. lia.
  - reflexivity.
Qed.

Lemma createSession_gives_up_witness :
  CreateSession.result
    (CreateSession.createSession alwaysFailing "merchant-1" "customer@example.com" "pro" 3)
  = None
  /\ attemptsOf (CreateSession.wire
                   (CreateSession.createSession alwaysFailing
                      "merchant-1" "customer@example.com" "pro" 3))
     = 3
  /\ length (delays (CreateSession.wire
                       (CreateSession.createSession alwaysFailing
                          "merchant-1" "customer@example.com" "pro" 3)))
     = 3 - 1.
Proof.
  apply (createSession_gives_up alwaysFailing "merchant-1" "customer@example.com" "pro" 3).
  - exact sample_validInput.
  - lia.
  - intros k _. split; reflexivity.
Defined.

(** X15. A client error ends [createSession]. With arguments that pass the
    opening checks: when the first [n] attempts fail transiently and
    attempt [n < maxRetries] is answered with an error status that is
    neither >= 500 nor 429 (400 and 404 among them), with a body that is
    not the JSON text [null], the call returns [null] after [n + 1]
    attempts: it is not retried. *)
Theorem createSession_client_error_is_final
    (env : CreateSession.CreateEnv) (saasId email plan : string)
    (maxRetries n : nat) (res : Response) :
  validInput saasId email plan ->
  n < maxRetries ->
  (forall k, k < n -> transientFailure (createOutcome env k)) ->
  createOutcome env n = Got res ->
  ok res = false ->
  retryable res = false ->
  errorReadable res = true ->
  CreateSession.result (CreateSession.createSession env saasId email plan maxRetries)
  = None
  /\ attemptsOf (CreateSession.wire
                   (CreateSession.createSession env saasId email plan maxRetries))
     = n + 1
  /\ length (delays (CreateSession.wire
                       (CreateSession.createSession env saasId email plan maxRetries)))
     = n.
Proof.
  intros Hvalid Hn Hfirst Hout Hok Hretry Hread.
  rewrite (createSession_unfold env maxRetries saasId email plan Hvalid).
  cbn [CreateSession.result CreateSession.wire]. unfold createLoop.
  apply (retryLoop_decisive maxRetries _ waited None (fun w => w)).
  - reflexivity.
  - apply createIteration_sends.
  - exact Hn.
  - intros k w Hk. rewrite createIteration_retry by now apply Hfirst.
    apply retryOr_continue. lia.
  - intros w. now apply (createIteration_refused env maxRetries _ _ _ n w res).
  - reflexivity.
Qed.

Lemma createSession_client_error_is_final_witness :
  CreateSession.result
    (CreateSession.createSession rejecting "merchant-1" "customer@example.com" "pro" 3)
  = None
  /\ attemptsOf (CreateSession.wire
                   (CreateSession.createSession rejecting
                      "merchant-1" "customer@example.com" "pro" 3))
     = 0 + 1
  /\ length (delays (CreateSession.wire
                       (CreateSession.createSession rejecting
                          "merchant-1" "customer@example.com" "pro" 3)))
     = 0.
Proof.
  apply (createSession_client_error_is_final rejecting
           "merchant-1" "customer@example.com" "pro" 3 0
           {| status := 400; body := BadJSON |}).
  - exact sample_validInput.
  - lia.
  - intros k Hk. lia.
  - reflexivity.
  - reflexivity.
  - reflexivity.
  - reflexivity.
Defined.

(** X12. Input that fails the opening checks of [createSession]: an empty
    merchant id, an empty plan, or an e-mail address [validateEmail]
    does not accept. The call returns [null] and sends nothing. *)
Theorem createSession_rejects_bad_input
    (env : CreateSession.CreateEnv) (saasId email plan : string) (maxRetries : nat) :
  saasId = "" \/ plan = "" \/ CreateSession.validateEmail email = false ->
  CreateSession.createSession env saasId email plan maxRetries
  = {| CreateSession.result := None;
       CreateSession.wire := {| exchanges := []; delays := [] |} |}.
Proof.
  intros Hbad. unfold CreateSession.createSession.
  destruct (String.eqb_spec saasId "") as [_|Hid]; [reflexivity|].
  destruct (String.eqb email "" || negb (CreateSession.validateEmail email)) eqn:He;
    [reflexivity|].
  destruct (String.eqb_spec plan "") as [_|Hplan]; [reflexivity|].
  exfalso. apply orb_false_iff in He as [_ He]. apply negb_false_iff in He.
  destruct Hbad as [H|[H|H]]; [contradiction|contradiction|congruence].
Qed.

Lemma createSession_rejects_bad_input_witness :
  CreateSession.createSession failingOnce "merchant-1" "not-an-email" "pro" 3
  = {| CreateSession.result := None;
       CreateSession.wire := {| exchanges := []; delays := [] |} |}.
Proof.
  apply (createSession_rejects_bad_input failingOnce
           "merchant-1" "not-an-email" "pro" 3).
  right. right. reflexivity.
Defined.


(** *** verifyPayment *)

(** The call reaches its loop: the three parameters are given, the
    signature is not in the stored list, and the page shows no success
    marker. *)
Definition reachesLoop (env : VerifyPayment.VerifyEnv)
    (sessionId signature userPubKey : string)
    (storage0 : option VerifyPayment.StorageItem) : Prop :=
  VerifyPaymentFacts.present sessionId signature userPubKey = true
  /\ VerifyPayment.alreadyVerified (trim signature) storage0 = false
  /\ VerifyPayment.hasDocument env
     && VerifyPayment.successMarkers (VerifyPayment.pageBefore env) = false.

Lemma verifyPayment_loop env sessionId signature userPubKey maxRetries storage0 :
  reachesLoop env sessionId signature userPubKey storage0 ->
  VerifyPayment.verifyPayment env sessionId signature userPubKey maxRetries storage0
  = {| VerifyPayment.result :=
         fst (VerifyPaymentFacts.verifyLoop env maxRetries sessionId (trim signature)
                userPubKey storage0);
       VerifyPayment.after :=
         snd (VerifyPaymentFacts.verifyLoop env maxRetries sessionId (trim signature)
                userPubKey storage0) |}.
Proof.
  intros (Hpresent & Hnew & Hpage).
  now rewrite VerifyPaymentFacts.verifyPayment_unfold, Hpresent, Hnew, Hpage.
Qed.

Lemma verifyIteration_retry env maxRetries sessionId sig userPubKey k st :
  transientFailure (VerifyPaymentFacts.outcomeAt env k) ->
  readableFailure (VerifyPaymentFacts.outcomeAt env k) ->
  S k < maxRetries ->
  exists d,
    fst (VerifyPayment.verifyIteration env maxRetries sessionId sig userPubKey k st)
    = Continue d.
Proof.
  intros Htransient Hread Hmore.
  destruct (VerifyPaymentFacts.outcomeAt env k) as [res| |e] eqn:Hout;
    cbn [transientFailure readableFailure] in *; [|contradiction|].
  - destruct Htransient as [Hok Hretry].
    rewrite (verifyIteration_status env maxRetries sessionId sig userPubKey k st res
               Hout Hok Hretry Hread Hmore).
    eauto.
  - rewrite (verifyIteration_thrown env maxRetries sessionId sig userPubKey k st e Hout).
    now apply retryOr_continue.
Qed.

Lemma verifyIteration_accepted env maxRetries sessionId sig userPubKey k st res d msg :
  VerifyPaymentFacts.outcomeAt env k = Got res ->
  ok res = true -> body res = GoodJSON d -> getProp d "message" = Some msg ->
  fst (VerifyPayment.verifyIteration env maxRetries sessionId sig userPubKey k st)
  = Return {| VerifyPayment.success := true;
              VerifyPayment.message := msg ||| JStr "Payment verified successfully";
              VerifyPayment.data := Some d |}.
Proof.
  intros Hout Hok Hbody Hmsg.
  unfold VerifyPaymentFacts.outcomeAt in Hout.
  rewrite <- (fetchBoth_outcome _
                (fun e => {| endpoint := e;
                             payload := [sessionId; sig; userPubKey] |})) in Hout.
  unfold VerifyPayment.verifyIteration.
  destruct (fetchBoth _ _ (VerifyPayment.net env k)) as [fetched xs].
  cbn [fst] in Hout. subst fetched.
  rewrite (ok_not_409 res Hok), Hok, Hbody, Hmsg. reflexivity.
Qed.

(** The [message] the error branch reads. *)
Definition errorMessage (res : Response) : JVal :=
  match body res with
  | BadJSON => JStr "Unknown error (could not parse response)"
  | GoodJSON d => default JUndefined (getProp d "message")
  end.

Lemma verifyIteration_refused env maxRetries sessionId sig userPubKey k st res :
  VerifyPaymentFacts.outcomeAt env k = Got res ->
  status res = 400 \/ status res = 404 ->
  errorReadable res = true ->
  fst (VerifyPayment.verifyIteration env maxRetries sessionId sig userPubKey k st)
  = Return (VerifyPayment.refused
              (errorMessage res
               ||| JStr (if status res =? 400 then "Invalid request parameters"
                         else "Session not found"))).
Proof.
  intros Hout Hstatus Hread.
  unfold VerifyPaymentFacts.outcomeAt in Hout.
  rewrite <- (fetchBoth_outcome _
                (fun e => {| endpoint := e;
                             payload := [sessionId; sig; userPubKey] |})) in Hout.
  unfold VerifyPayment.verifyIteration, errorMessage.
  destruct (fetchBoth _ _ (VerifyPayment.net env k)) as [fetched xs].
  cbn [fst] in Hout. subst fetched.
  unfold errorReadable in Hread. unfold ok.
  destruct Hstatus as [Hs|Hs]; rewrite Hs; cbn [Nat.eqb Nat.leb andb negb];
    destruct (body res) as [|[o|[]]]; try discriminate; reflexivity.
Qed.

(** X18. [verifyPayment] retries until the backend accepts. For a call that
    reaches its loop: when the first [n] attempts fail transiently, with
    readable error bodies, and attempt [n < maxRetries] is answered with
    an ok status and a JSON body with a [message], the call returns
    success with that message (or the default text) and the body as
    data, it has recorded the trimmed signature in the session storage,
    and it made [n + 1] attempts with [n] pauses. *)
Theorem verifyPayment_retries_until_verified
    (env : VerifyPayment.VerifyEnv) (sessionId signature userPubKey : string)
    (maxRetries n : nat) (storage0 : option VerifyPayment.StorageItem)
    (res : Response) (d : JData) (msg : JVal) :
  reachesLoop env sessionId signature userPubKey storage0 ->
  n < maxRetries ->
  (forall k, k < n ->
     transientFailure (VerifyPaymentFacts.outcomeAt env k)
     /\ readableFailure (VerifyPaymentFacts.outcomeAt env k)) ->
  VerifyPaymentFacts.outcomeAt env n = Got res ->
  ok res = true ->
  body res = GoodJSON d ->
  getProp d "message" = Some msg ->
  VerifyPayment.result
    (VerifyPayment.verifyPayment env sessionId signature userPubKey maxRetries storage0)
  = {| VerifyPayment.success := true;
       VerifyPayment.message := msg ||| JStr "Payment verified successfully";
       VerifyPayment.data := Some d |}
  /\ VerifyPayment.storage
       (VerifyPayment.after
          (VerifyPayment.verifyPayment env sessionId signature userPubKey
             maxRetries storage0))
     = VerifyPayment.storeVerifiedSignature (trim signature) storage0
  /\ attemptsOf
       (VerifyPayment.wire
          (VerifyPayment.after
             (VerifyPayment.verifyPayment env sessionId signature userPubKey
                maxRetries storage0)))
     = n + 1
  /\ length
       (delays
          (VerifyPayment.wire
             (VerifyPayment.after
                (VerifyPayment.verifyPayment env sessionId signature userPubKey
                   maxRetries storage0))))
     = n.
Proof.
  intros Hloop Hn Hfirst Hout Hok Hbody Hmsg.
  pose proof (VerifyPaymentFacts.verifyPayment_storage env sessionId signature
                userPubKey maxRetries storage0) as Hsto.
  cbn zeta in Hsto. revert Hsto.
  rewrite (verifyPayment_loop env sessionId signature userPubKey maxRetries storage0 Hloop).
  cbn [VerifyPayment.result VerifyPayment.after].
  destruct (retryLoop_decisive maxRetries
              (VerifyPayment.verifyIteration env maxRetries sessionId (trim signature)
                 userPubKey)
              VerifyPaymentFacts.pauseV
              (VerifyPayment.refused (JStr VerifyPayment.exhaustedMessage))
              VerifyPayment.wire
              (fun _ _ => eq_refl)
              (verifyIteration_sends env maxRetries sessionId (trim signature) userPubKey)
              n
              {| VerifyPayment.success := true;
                 VerifyPayment.message := msg ||| JStr "Payment verified successfully";
                 VerifyPayment.data := Some d |}
              {| VerifyPayment.storage := storage0; VerifyPayment.wire := silent |}
              Hn) as (Hr & Ha & Hd).
  - intros k st Hk. destruct (Hfirst k Hk) as [Ht Hread].
    apply verifyIteration_retry; [exact Ht|exact Hread|lia].
  - intros st. now apply (verifyIteration_accepted env maxRetries _ _ _ n st res d msg).
  - reflexivity.
  - unfold VerifyPaymentFacts.verifyLoop. rewrite Hr, Ha, Hd.
    cbn [VerifyPayment.success]. intros [Hsto|[Hno _]]; [|discriminate Hno].
    repeat split. exact Hsto.
Qed.

(** A backend that answers 500 to the first request of a call and
    accepts the second. *)
Definition accepted : JData := DObj {[ "message" := JStr "Payment verified" ]}.

Definition recovering : VerifyPayment.VerifyEnv :=
  {| VerifyPayment.hasDocument := true;
     VerifyPayment.pageBefore := "Checkout";
     VerifyPayment.net := fun k =>
       match k with
       | 0 => failing
       | _ => {| primary := Responds {| status := 200; body := GoodJSON accepted |};
                 fallbackTry := Rejects OtherError;
                 fallbackCatch := Rejects OtherError;
                 page := "Checkout"; random := 1 # 2 |}
       end |}.

Lemma sample_reachesLoop env :
  VerifyPayment.hasDocument env
  && VerifyPayment.successMarkers (VerifyPayment.pageBefore env) = false ->
  reachesLoop env "abc123" " 5sig " "payer" (Some VerifyPayment.NoItem).
Proof. intros H. split; [reflexivity|]. split; [reflexivity|exact H]. Qed.

Lemma verifyPayment_retries_until_verified_witness :
  VerifyPayment.result
    (VerifyPayment.verifyPayment recovering "abc123" " 5sig " "payer" 3
       (Some VerifyPayment.NoItem))
  = {| VerifyPayment.success := true;
       VerifyPayment.message := JStr "Payment verified" ||| JStr "Payment verified successfully";
       VerifyPayment.data := Some accepted |}
  /\ VerifyPayment.storage
       (VerifyPayment.after
          (VerifyPayment.verifyPayment recovering "abc123" " 5sig " "payer" 3
             (Some VerifyPayment.NoItem)))
     = VerifyPayment.storeVerifiedSignature (trim " 5sig ") (Some VerifyPayment.NoItem)
  /\ attemptsOf
       (VerifyPayment.wire
          (VerifyPayment.after
             (VerifyPayment.verifyPayment recovering "abc123" " 5sig " "payer" 3
                (Some VerifyPayment.NoItem))))
     = 1 + 1
  /\ length
       (delays
          (VerifyPayment.wire
             (VerifyPayment.after
                (VerifyPayment.verifyPayment recovering "abc123" " 5sig " "payer" 3
                   (Some VerifyPayment.NoItem)))))
     = 1.
Proof.
  apply (verifyPayment_retries_until_verified recovering "abc123" " 5sig " "payer"
           3 1 (Some VerifyPayment.NoItem)
           {| status := 200; body := GoodJSON accepted |} accepted
           (JStr "Payment verified")).
  - apply sample_reachesLoop. reflexivity.
  - lia.
  - intros [|k] Hk; [|lia]. split; [split; reflexivity|reflexivity].
  - reflexivity.
  - reflexivity.
  - reflexivity.
  - reflexivity.
Defined.

(** X19. HTTP 400 and 404 end [verifyPayment]. For a call that reaches its
    loop: when the first [n] attempts fail transiently, with readable
    error bodies, and attempt [n < maxRetries] is answered with 400 or
    404 and a body that is not the JSON text [null], the call returns a
    failure whose message is the [message] of the body, or the default
    text of the status; the session storage is as before, and the call
    made [n + 1] attempts: the error is not retried. *)
Theorem verifyPayment_client_error_is_final
    (env : VerifyPayment.VerifyEnv) (sessionId signature userPubKey : string)
    (maxRetries n : nat) (storage0 : option VerifyPayment.StorageItem)
    (res : Response) :
  reachesLoop env sessionId signature userPubKey storage0 ->
  n < maxRetries ->
  (forall k, k < n ->
     transientFailure (VerifyPaymentFacts.outcomeAt env k)
     /\ readableFailure (VerifyPaymentFacts.outcomeAt env k)) ->
  VerifyPaymentFacts.outcomeAt env n = Got res ->
  status res = 400 \/ status res = 404 ->
  errorReadable res = true ->
  VerifyPayment.result
    (VerifyPayment.verifyPayment env sessionId signature userPubKey maxRetries storage0)
  = VerifyPayment.refused
      (errorMessage res
       ||| JStr (if status res =? 400 then "Invalid request parameters"
                 else "Session not found"))
  /\ VerifyPayment.storage
       (VerifyPayment.after
          (VerifyPayment.verifyPayment env sessionId signature userPubKey
             maxRetries storage0))
     = storage0
  /\ attemptsOf
       (VerifyPayment.wire
          (VerifyPayment.after
             (VerifyPayment.verifyPayment env sessionId signature userPubKey
                maxRetries storage0)))
     = n + 1
  /\ length
       (delays
          (VerifyPayment.wire
             (VerifyPayment.after
                (VerifyPayment.verifyPayment env sessionId signature userPubKey
                   maxRetries storage0))))
     = n.
Proof.
  intros Hloop Hn Hfirst Hout Hstatus Hread.
  pose proof (VerifyPaymentFacts.verifyPayment_storage env sessionId signature
                userPubKey maxRetries storage0) as Hsto.
  cbn zeta in Hsto. revert Hsto.
  rewrite (verifyPayment_loop env sessionId signature userPubKey maxRetries storage0 Hloop).
  cbn [VerifyPayment.result VerifyPayment.after].
  destruct (retryLoop_decisive maxRetries
              (VerifyPayment.verifyIteration env maxRetries sessionId (trim signature)
                 userPubKey)
              VerifyPaymentFacts.pauseV
              (VerifyPayment.refused (JStr VerifyPayment.exhaustedMessage))
              VerifyPayment.wire
              (fun _ _ => eq_refl)
              (verifyIteration_sends env maxRetries sessionId (trim signature) userPubKey)
              n
              (VerifyPayment.refused
                 (errorMessage res
                  ||| JStr (if status res =? 400 then "Invalid request parameters"
                            else "Session not found")))
              {| VerifyPayment.storage := storage0; VerifyPayment.wire := silent |}
              Hn) as (Hr & Ha & Hd).
  - intros k st Hk. destruct (Hfirst k Hk) as [Ht Hread'].
    apply verifyIteration_retry; [exact Ht|exact Hread'|lia].
  - intros st. now apply verifyIteration_refused.
  - reflexivity.
  - unfold VerifyPaymentFacts.verifyLoop. rewrite Hr, Ha, Hd.
    cbn [VerifyPayment.success VerifyPayment.refused]. intros Hsto.
    repeat split. exact Hsto.
Qed.

Definition notFound : FetchResult :=
  Responds {| status := 404;
              body := GoodJSON (DObj {[ "message" := JStr "No such session" ]}) |}.

Lemma verifyPayment_client_error_is_final_witness :
  VerifyPayment.result
    (VerifyPayment.verifyPayment (VerifyPaymentFacts.answering notFound)
       "abc123" " 5sig " "payer" 3 (Some VerifyPayment.NoItem))
  = VerifyPayment.refused (JStr "No such session")
  /\ VerifyPayment.storage
       (VerifyPayment.after
          (VerifyPayment.verifyPayment (VerifyPaymentFacts.answering notFound)
             "abc123" " 5sig " "payer" 3 (Some VerifyPayment.NoItem)))
     = Some VerifyPayment.NoItem.
Proof.
  destruct (verifyPayment_client_error_is_final (VerifyPaymentFacts.answering notFound)
              "abc123" " 5sig " "payer" 3 0 (Some VerifyPayment.NoItem)
              {| status := 404;
                 body := GoodJSON (DObj {[ "message" := JStr "No such session" ]}) |})
    as (Hr & Hs & _).
  - apply sample_reachesLoop. reflexivity.
  - lia.
  - intros k Hk. lia.
  - reflexivity.
  - right. reflexivity.
  - reflexivity.
  - split; [exact Hr|exact Hs].
Defined.


(** *** fetchSession *)

(** The session id passes the checks that open [fetchSession]. *)
Definition cleanId (sessionId : string) : Prop :=
  sessionId <> "" /\ allChars FetchSession.idChar sessionId = true.

Lemma keepChars_all inClass s : allChars inClass s = true -> keepChars inClass s = s.
Proof.
  induction s as [|c s IH]; [reflexivity|].
  cbn [allChars keepChars]. intros H. apply andb_true_iff in H as [-> Hs].
  now rewrite (IH Hs).
Qed.

Definition fetchLoop (env : FetchSession.FetchEnv) (maxRetries : nat) (id : string)
  : option FetchSession.SessionType * Wire :=
  retryLoop maxRetries (FetchSession.fetchIteration env maxRetries id)
    waited None maxRetries 0 silent.

Lemma fetchSession_unfold env sessionId maxRetries :
  cleanId sessionId ->
  FetchSession.fetchSession env sessionId maxRetries
  = {| FetchSession.result := fst (fetchLoop env maxRetries sessionId);
       FetchSession.wire := snd (fetchLoop env maxRetries sessionId) |}.
Proof.
  intros [Hne Hclean]. unfold FetchSession.fetchSession, fetchLoop.
  apply String.eqb_neq in Hne. rewrite Hne.
  rewrite (keepChars_all _ _ Hclean), String.eqb_refl. cbn [negb].
  now destruct (retryLoop _ _ _ _ _ _ _).
Qed.

Definition fetchOutcomeAt (env : FetchSession.FetchEnv) (k : nat) : Fetched :=
  fetchOutcome false (FetchSession.net env k).

Lemma fetchIteration_retry env maxRetries id k w :
  transientFailure (fetchOutcomeAt env k) ->
  fst (FetchSession.fetchIteration env maxRetries id k w)
  = retryOr maxRetries k (random (FetchSession.net env k)) 1000 8000 (Return None).
Proof.
  unfold fetchOutcomeAt, FetchSession.fetchIteration, retryOr.
  rewrite <- (fetchBoth_outcome false (fun e => {| endpoint := e; payload := [id] |})).
  destruct (fetchBoth false _ (FetchSession.net env k)) as [fetched xs]. cbn [fst snd].
  destruct fetched as [res| |e]; cbn [transientFailure]; [|contradiction|reflexivity].
  intros [Hok Hretry]. now rewrite Hok, Hretry, (retryable_not_404 res Hretry).
Qed.

Lemma fetchIteration_found env maxRetries id k w res d :
  fetchOutcomeAt env k = Got res -> ok res = true -> body res = GoodJSON d ->
  fst (FetchSession.fetchIteration env maxRetries id k w)
  = Return (FetchSession.mapResponseToSessionType (FetchSession.now env) d).
Proof.
  unfold fetchOutcomeAt, FetchSession.fetchIteration.
  rewrite <- (fetchBoth_outcome false (fun e => {| endpoint := e; payload := [id] |})).
  destruct (fetchBoth false _ (FetchSession.net env k)) as [fetched xs]. cbn [fst snd].
  intros -> Hok Hbody. rewrite Hok, Hbody. cbn [negb].
  unfold FetchSession.mapResponseToSessionType.
  now destruct (dataTruthy d).
Qed.

Lemma fetchIteration_refused env maxRetries id k w res :
  fetchOutcomeAt env k = Got res -> ok res = false -> retryable res = false ->
  fst (FetchSession.fetchIteration env maxRetries id k w) = Return None.
Proof.
  unfold fetchOutcomeAt, FetchSession.fetchIteration.
  rewrite <- (fetchBoth_outcome false (fun e => {| endpoint := e; payload := [id] |})).
  destruct (fetchBoth false _ (FetchSession.net env k)) as [fetched xs]. cbn [fst snd].
  intros -> Hok Hretry. rewrite Hok, Hretry. cbn [negb].
  now destruct (status res =? 404).
Qed.

(** X23. [fetchSession] retries until the backend answers. For a session id
    that passes the opening checks: when the first [n] attempts fail
    transiently and attempt [n < maxRetries] is answered with an ok
    status and a JSON body, the call returns what
    [mapResponseToSessionType] makes of that body, after [n + 1]
    attempts and [n] pauses. *)
Theorem fetchSession_retries_until_found
    (env : FetchSession.FetchEnv) (sessionId : string) (maxRetries n : nat)
    (res : Response) (d : JData) :
  cleanId sessionId ->
  n < maxRetries ->
  (forall k, k < n -> transientFailure (fetchOutcomeAt env k)) ->
  fetchOutcomeAt env n = Got res ->
  ok res = true ->
  body res = GoodJSON d ->
  FetchSession.result (FetchSession.fetchSession env sessionId maxRetries)
  = FetchSession.mapResponseToSessionType (FetchSession.now env) d
  /\ attemptsOf (FetchSession.wire (FetchSession.fetchSession env sessionId maxRetries))
     = n + 1
  /\ length (delays (FetchSession.wire
                       (FetchSession.fetchSession env sessionId maxRetries)))
     = n.
Proof.
  intros Hclean Hn Hfirst Hout Hok Hbody.
  rewrite (fetchSession_unfold env sessionId maxRetries Hclean).
  cbn [FetchSession.result FetchSession.wire]. unfold fetchLoop.
  apply (retryLoop_decisive maxRetries _ waited None (fun w => w)).
  - reflexivity.
  - apply fetchIteration_sends.
  - exact Hn.
  - intros k w Hk. rewrite fetchIteration_retry by now apply Hfirst.
    apply retryOr_continue. lia.
  - intros w. now apply (fetchIteration_found env maxRetries _ n w res d).
  - reflexivity.
Qed.

(** A backend that rejects the first two requests of a call and then
    answers with a session. *)
Definition answered : AttemptNet :=
  {| primary := Responds {| status := 200;
                            body := GoodJSON FetchSessionFacts.sampleResponse |};
     fallbackTry := Rejects OtherError;
     fallbackCatch := Rejects OtherError;
     page := ""; random := 1 # 2 |}.

Definition slowStart : FetchSession.FetchEnv :=
  {| FetchSession.net := fun k => match k with 0 => failing | _ => answered end;
     FetchSession.now := "2025-01-01T00:00:00.000Z" |}.

Lemma sample_cleanId : cleanId "abc123".
Proof. split; [discriminate|reflexivity]. Qed.

Lemma fetchSession_retries_until_found_witness :
  FetchSession.result (FetchSession.fetchSession slowStart "abc123" 3)
  = FetchSession.mapResponseToSessionType "2025-01-01T00:00:00.000Z"
      FetchSessionFacts.sampleResponse
  /\ attemptsOf (FetchSession.wire (FetchSession.fetchSession slowStart "abc123" 3))
     = 1 + 1
  /\ length (delays (FetchSession.wire (FetchSession.fetchSession slowStart "abc123" 3)))
     = 1.
Proof.
  apply (fetchSession_retries_until_found slowStart "abc123" 3 1
           {| status := 200; body := GoodJSON FetchSessionFacts.sampleResponse |}
           FetchSessionFacts.sampleResponse).
  - exact sample_cleanId.
  - lia.
  - intros [|k] Hk; [split; reflexivity|lia].
  - reflexivity.
  - reflexivity.
  - reflexivity.
Defined.

(** X24. An error that is not transient ends [fetchSession]. For a session
    id that passes the opening checks: when the first [n] attempts fail
    transiently and attempt [n < maxRetries] is answered with an error
    status that is neither >= 500 nor 429 (404 among them), the call
    returns [null] after [n + 1] attempts: the error is not retried. *)
Theorem fetchSession_not_found_is_final
    (env : FetchSession.FetchEnv) (sessionId : string) (maxRetries n : nat)
    (res : Response) :
  cleanId sessionId ->
  n < maxRetries ->
  (forall k, k < n -> transientFailure (fetchOutcomeAt env k)) ->
  fetchOutcomeAt env n = Got res ->
  ok res = false ->
  retryable res = false ->
  FetchSession.result (FetchSession.fetchSession env sessionId maxRetries) = None
  /\ attemptsOf (FetchSession.wire (FetchSession.fetchSession env sessionId maxRetries))
     = n + 1
  /\ length (delays (FetchSession.wire
                       (FetchSession.fetchSession env sessionId maxRetries)))
     = n.
Proof.
  intros Hclean Hn Hfirst Hout Hok Hretry.
  rewrite (fetchSession_unfold env sessionId maxRetries Hclean).
  cbn [FetchSession.result FetchSession.wire]. unfold fetchLoop.
  apply (retryLoop_decisive maxRetries _ waited None (fun w => w)).
  - reflexivity.
  - apply fetchIteration_sends.
  - exact Hn.
  - intros k w Hk. rewrite fetchIteration_retry by now apply Hfirst.
    apply retryOr_continue. lia.
  - intros w. now apply (fetchIteration_refused env maxRetries _ n w res).
  - reflexivity.
Qed.

Definition missingSession : FetchSession.FetchEnv :=
  {| FetchSession.net := fun _ =>
       {| primary := Responds {| status := 404; body := BadJSON |};
          fallbackTry := Responds {| status := 404; body := BadJSON |};
          fallbackCatch := Responds {| status := 404; body := BadJSON |};
          page := ""; random := 1 # 2 |};
     FetchSession.now := "2025-01-01T00:00:00.000Z" |}.

Lemma fetchSession_not_found_is_final_witness :
  FetchSession.result (FetchSession.fetchSession missingSession "abc123" 3) = None
  /\ attemptsOf (FetchSession.wire (FetchSession.fetchSession missingSession "abc123" 3))
     = 0 + 1
  /\ length (delays (FetchSession.wire
                       (FetchSession.fetchSession missingSession "abc123" 3)))
     = 0.
Proof.
  apply (fetchSession_not_found_is_final missingSession "abc123" 3 0
           {| status := 404; body := BadJSON |}).
  - exact sample_cleanId.
  - lia.
  - intros k Hk. lia.
  - reflexivity.
  - reflexivity.
  - reflexivity.
Defined.

(** *** What the requests carry *)

(** X17. Every request of [createSession] carries the three arguments after
    [sanitizeInput], and none of the three holds a ["<"]. *)
Theorem createSession_sends_sanitized_input
    (env : CreateSession.CreateEnv) (saasId email plan : string) (maxRetries : nat) :
  Forall (fun x =>
            payload (request x)
            = [CreateSession.sanitizeInput saasId; CreateSession.sanitizeInput email;
               CreateSession.sanitizeInput plan]
            /\ Forall (fun s => allChars noTagOpen s = true) (payload (request x)))
    (exchanges (CreateSession.wire
                  (CreateSession.createSession env saasId email plan maxRetries))).
Proof.
  unfold CreateSession.createSession.
  destruct (String.eqb saasId ""); [constructor|].
  destruct (_ || _); [constructor|].
  destruct (String.eqb plan ""); [constructor|].
  pose proof (retryLoop_exchanges maxRetries
    (CreateSession.createIteration env maxRetries
       (CreateSession.sanitizeInput saasId) (CreateSession.sanitizeInput email)
       (CreateSession.sanitizeInput plan))
    waited None (fun w => w) (fun _ _ => eq_refl)
    (fun x =>
       payload (request x)
       = [CreateSession.sanitizeInput saasId; CreateSession.sanitizeInput email;
          CreateSession.sanitizeInput plan]
       /\ Forall (fun s => allChars noTagOpen s = true) (payload (request x)))
    silent) as H.
  destruct (retryLoop _ _ _ _ _ _ _) as [r w]. cbn [CreateSession.wire snd] in *.
  apply H; [|reflexivity].
  intros k st.
  exists (snd (fetchBoth false
                 (fun e => {| endpoint := e;
                              payload := [CreateSession.sanitizeInput saasId;
                                          CreateSession.sanitizeInput email;
                                          CreateSession.sanitizeInput plan] |})
                 (CreateSession.net env k))).
  split.
  - unfold CreateSession.createIteration. now destruct (fetchBoth false _ _).
  - generalize (fetchBoth_carries false
                  (fun e => {| endpoint := e;
                               payload := [CreateSession.sanitizeInput saasId;
                                           CreateSession.sanitizeInput email;
                                           CreateSession.sanitizeInput plan] |})
                  (CreateSession.net env k)).
    apply List.Forall_impl.
    intros x [e ->]. cbn [payload]. split; [reflexivity|].
    repeat constructor; apply trim_keeps, stripTags_clean.
Qed.

(** X22. Every request of [verifyPayment] carries the session id, the
    trimmed signature and the payer's key, as given. *)
Theorem verifyPayment_sends_trimmed_signature
    (env : VerifyPayment.VerifyEnv) (sessionId signature userPubKey : string)
    (maxRetries : nat) (storage0 : option VerifyPayment.StorageItem) :
  Forall (fun x => payload (request x) = [sessionId; trim signature; userPubKey])
    (exchanges
       (VerifyPayment.wire
          (VerifyPayment.after
             (VerifyPayment.verifyPayment env sessionId signature userPubKey
                maxRetries storage0)))).
Proof.
  rewrite VerifyPaymentFacts.verifyPayment_unfold.
  destruct (negb _); [constructor|].
  destruct (VerifyPayment.alreadyVerified _ _); [constructor|].
  destruct (_ && _); [constructor|].
  cbn [VerifyPayment.after]. unfold VerifyPaymentFacts.verifyLoop.
  apply (retryLoop_exchanges maxRetries _ VerifyPaymentFacts.pauseV _ VerifyPayment.wire).
  - reflexivity.
  - intros k st.
    exists (VerifyPaymentFacts.exchangesAt env sessionId (trim signature) userPubKey k).
    split; [apply VerifyPaymentFacts.iteration_wire|].
    unfold VerifyPaymentFacts.exchangesAt.
    generalize (fetchBoth_carries
                  (VerifyPayment.hasDocument env
                   && VerifyPayment.redisMarkers (page (VerifyPayment.net env k)))
                  (fun e => {| endpoint := e;
                               payload := [sessionId; trim signature; userPubKey] |})
                  (VerifyPayment.net env k)).
    apply List.Forall_impl.
    now intros x [e ->].
  - reflexivity.
Qed.

(** X25. Every request of [fetchSession] carries the session id as the
    caller gave it, and that id holds only letters, digits, ["-"] and
    ["_"]. *)
Theorem fetchSession_sends_clean_id
    (env : FetchSession.FetchEnv) (sessionId : string) (maxRetries : nat) :
  Forall (fun x => payload (request x) = [sessionId]
                   /\ allChars FetchSession.idChar sessionId = true)
    (exchanges (FetchSession.wire (FetchSession.fetchSession env sessionId maxRetries))).
Proof.
  unfold FetchSession.fetchSession.
  destruct (String.eqb sessionId ""); [constructor|].
  destruct (String.eqb_spec (keepChars FetchSession.idChar sessionId) sessionId)
    as [Hsame|_]; [|constructor].
  cbn [negb]. rewrite Hsame.
  pose proof (retryLoop_exchanges maxRetries
    (FetchSession.fetchIteration env maxRetries sessionId)
    waited None (fun w => w) (fun _ _ => eq_refl)
    (fun x => payload (request x) = [sessionId]
              /\ allChars FetchSession.idChar sessionId = true)
    silent) as H.
  destruct (retryLoop _ _ _ _ _ _ _) as [r w]. cbn [FetchSession.wire snd] in *.
  apply H; [|reflexivity].
  intros k st.
  exists (snd (fetchBoth false (fun e => {| endpoint := e; payload := [sessionId] |})
                 (FetchSession.net env k))).
  split.
  - unfold FetchSession.fetchIteration. now destruct (fetchBoth false _ _).
  - generalize (fetchBoth_carries false
                  (fun e => {| endpoint := e; payload := [sessionId] |})
                  (FetchSession.net env k)).
    apply List.Forall_impl.
    intros x [e ->]. split; [reflexivity|].
    now apply FetchSessionFacts.keepChars_fixed.
Qed.


(** *** Server errors to the end *)

Lemma verifyIteration_last env maxRetries sessionId sig userPubKey k st res :
  VerifyPaymentFacts.outcomeAt env k = Got res ->
  ok res = false -> retryable res = true -> errorReadable res = true ->
  maxRetries = S k ->
  fst (VerifyPayment.verifyIteration env maxRetries sessionId sig userPubKey k st)
  = Return (if VerifyPayment.hasDocument env
               && VerifyPayment.lateMarkers (page (VerifyPayment.net env k))
            then VerifyPayment.verified "Payment appears to be processed successfully"
            else VerifyPayment.refused
                   (errorMessage res ||| JStr "Payment verification failed")).
Proof.
  intros Hout Hok Hretry Hread ->.
  unfold VerifyPaymentFacts.outcomeAt in Hout.
  rewrite <- (fetchBoth_outcome _
                (fun e => {| endpoint := e;
                             payload := [sessionId; sig; userPubKey] |})) in Hout.
  unfold VerifyPayment.verifyIteration, errorMessage.
  destruct (fetchBoth _ _ (VerifyPayment.net env k)) as [fetched xs].
  cbn [fst] in Hout. subst fetched.
  assert (H409 : (status res =? 409) = false).
  { unfold retryable in Hretry. apply Nat.eqb_neq.
    apply orb_true_iff in Hretry as [H|H];
      [apply Nat.leb_le in H|apply Nat.eqb_eq in H]; lia. }
  assert (H400 : (status res =? 400) = false).
  { unfold retryable in Hretry. apply Nat.eqb_neq.
    apply orb_true_iff in Hretry as [H|H];
      [apply Nat.leb_le in H|apply Nat.eqb_eq in H]; lia. }
  rewrite H409, Hok, H400, (retryable_not_404 res Hretry), Hretry, Nat.ltb_irrefl.
  cbn [negb andb]. unfold errorReadable in Hread.
  destruct (body res) as [|[o|[]]]; try discriminate;
    cbn [getProp];
    now destruct (VerifyPayment.hasDocument env
                  && VerifyPayment.lateMarkers (page (VerifyPayment.net env k))).
Qed.

(** The final response of attempt [k] is a server error with a readable
    body. *)
Definition serverErrorAt (env : VerifyPayment.VerifyEnv) (k : nat) (res : Response)
  : Prop :=
  VerifyPaymentFacts.outcomeAt env k = Got res
  /\ ok res = false /\ retryable res = true /\ errorReadable res = true.

(** X20. [verifyPayment] against a backend that keeps answering HTTP >= 500
    or 429. For a call that reaches its loop, with [maxRetries > 0]:
    the call makes [maxRetries] attempts with [maxRetries - 1] pauses.
    When the page then shows one of the late markers, it returns
    success and records the signature; otherwise it returns a failure
    with the [message] of the last error body, or the default text, and
    leaves the session storage alone. *)
Theorem verifyPayment_server_errors_exhaust
    (env : VerifyPayment.VerifyEnv) (sessionId signature userPubKey : string)
    (maxRetries : nat) (storage0 : option VerifyPayment.StorageItem)
    (last : Response) :
  reachesLoop env sessionId signature userPubKey storage0 ->
  0 < maxRetries ->
  (forall k, k < maxRetries - 1 -> exists res, serverErrorAt env k res) ->
  serverErrorAt env (maxRetries - 1) last ->
  (if VerifyPayment.hasDocument env
      && VerifyPayment.lateMarkers (page (VerifyPayment.net env (maxRetries - 1)))
   then
     VerifyPayment.result
       (VerifyPayment.verifyPayment env sessionId signature userPubKey maxRetries storage0)
     = VerifyPayment.verified "Payment appears to be processed successfully"
     /\ VerifyPayment.storage
          (VerifyPayment.after
             (VerifyPayment.verifyPayment env sessionId signature userPubKey
                maxRetries storage0))
        = VerifyPayment.storeVerifiedSignature (trim signature) storage0
   else
     VerifyPayment.result
       (VerifyPayment.verifyPayment env sessionId signature userPubKey maxRetries storage0)
     = VerifyPayment.refused (errorMessage last ||| JStr "Payment verification failed")
     /\ VerifyPayment.storage
          (VerifyPayment.after
             (VerifyPayment.verifyPayment env sessionId signature userPubKey
                maxRetries storage0))
        = storage0)
  /\ attemptsOf
       (VerifyPayment.wire
          (VerifyPayment.after
             (VerifyPayment.verifyPayment env sessionId signature userPubKey
                maxRetries storage0)))
     = maxRetries
  /\ length
       (delays
          (VerifyPayment.wire
             (VerifyPayment.after
                (VerifyPayment.verifyPayment env sessionId signature userPubKey
                   maxRetries storage0))))
     = maxRetries - 1.
Proof.
  intros Hloop Hmax Hfirst (Hout & Hok & Hretry & Hread).
  pose proof (VerifyPaymentFacts.verifyPayment_storage env sessionId signature
                userPubKey maxRetries storage0) as Hsto.
  cbn zeta in Hsto. revert Hsto.
  rewrite (verifyPayment_loop env sessionId signature userPubKey maxRetries storage0 Hloop).
  cbn [VerifyPayment.result VerifyPayment.after].
  destruct (retryLoop_decisive maxRetries
              (VerifyPayment.verifyIteration env maxRetries sessionId (trim signature)
                 userPubKey)
              VerifyPaymentFacts.pauseV
              (VerifyPayment.refused (JStr VerifyPayment.exhaustedMessage))
              VerifyPayment.wire
              (fun _ _ => eq_refl)
              (verifyIteration_sends env maxRetries sessionId (trim signature) userPubKey)
              (maxRetries - 1)
              (if VerifyPayment.hasDocument env
                  && VerifyPayment.lateMarkers
                       (page (VerifyPayment.net env (maxRetries - 1)))
               then VerifyPayment.verified "Payment appears to be processed successfully"
               else VerifyPayment.refused
                      (errorMessage last ||| JStr "Payment verification failed"))
              {| VerifyPayment.storage := storage0; VerifyPayment.wire := silent |})
    as (Hr & Ha & Hd).
  - lia.
  - intros k st Hk. destruct (Hfirst k Hk) as (res & Hout' & Hok' & Hretry' & Hread').
    apply verifyIteration_retry; [| |lia].
    + rewrite Hout'. now split.
    + rewrite Hout'. exact Hread'.
  - intros st. apply verifyIteration_last; try assumption. lia.
  - reflexivity.
  - unfold VerifyPaymentFacts.verifyLoop. rewrite Hr, Ha, Hd.
    destruct (VerifyPayment.hasDocument env
              && VerifyPayment.lateMarkers (page (VerifyPayment.net env (maxRetries - 1))));
      cbn [VerifyPayment.success VerifyPayment.verified VerifyPayment.refused].
    + intros [Hsto|[Hno _]]; [|discriminate Hno].
      split; [split; [reflexivity|exact Hsto]|]. split; lia.
    + intros Hsto. split; [split; [reflexivity|exact Hsto]|]. split; lia.
Qed.

Lemma verifyPayment_server_errors_exhaust_witness :
  VerifyPayment.result
    (VerifyPayment.verifyPayment
       (VerifyPaymentFacts.answering VerifyPaymentFacts.serverError)
       "abc123" " 5sig " "payer" 3 (Some VerifyPayment.NoItem))
  = VerifyPayment.refused (JStr "Unknown error (could not parse response)")
  /\ VerifyPayment.storage
       (VerifyPayment.after
          (VerifyPayment.verifyPayment
             (VerifyPaymentFacts.answering VerifyPaymentFacts.serverError)
             "abc123" " 5sig " "payer" 3 (Some VerifyPayment.NoItem)))
     = Some VerifyPayment.NoItem.
Proof.
  destruct (verifyPayment_server_errors_exhaust
              (VerifyPaymentFacts.answering VerifyPaymentFacts.serverError)
              "abc123" " 5sig " "payer" 3 (Some VerifyPayment.NoItem)
              {| status := 500; body := BadJSON |})
    as (Hresult & _).
  - apply sample_reachesLoop. reflexivity.
  - lia.
  - intros k _. exists {| status := 500; body := BadJSON |}. repeat split.
  - repeat split.
  - exact Hresult.
Defined.

(** *** What a call changes in the session storage *)

Lemma store_appends signature storage :
  VerifyPaymentFacts.storedList (VerifyPayment.storeVerifiedSignature signature storage)
  = VerifyPaymentFacts.storedList storage
  \/ VerifyPaymentFacts.storedList (VerifyPayment.storeVerifiedSignature signature storage)
     = VerifyPaymentFacts.storedList storage ++ [signature].
Proof.
  destruct storage as [item|]; [|now left].
  unfold VerifyPayment.storeVerifiedSignature.
  destruct (VerifyPayment.readSignatures item) as [l|] eqn:Hl; [|now left].
  destruct (VerifyPayment.listed signature l); cbn [negb]; [now left|].
  right. cbn. now rewrite Hl.
Qed.

(** X21. [verifyPayment] records nothing but its own signature, and only on
    success: a call that fails leaves the session storage as it was; any
    call leaves the stored signatures as they were or has appended the
    trimmed signature of the call, once. *)
Theorem verifyPayment_records_only_its_signature
    (env : VerifyPayment.VerifyEnv) (sessionId signature userPubKey : string)
    (maxRetries : nat) (storage0 : option VerifyPayment.StorageItem) :
  (VerifyPayment.success
     (VerifyPayment.result
        (VerifyPayment.verifyPayment env sessionId signature userPubKey
           maxRetries storage0)) = false ->
   VerifyPayment.storage
     (VerifyPayment.after
        (VerifyPayment.verifyPayment env sessionId signature userPubKey
           maxRetries storage0))
   = storage0)
  /\ (VerifyPaymentFacts.storedList
        (VerifyPayment.storage
           (VerifyPayment.after
              (VerifyPayment.verifyPayment env sessionId signature userPubKey
                 maxRetries storage0)))
      = VerifyPaymentFacts.storedList storage0
      \/ VerifyPaymentFacts.storedList
           (VerifyPayment.storage
              (VerifyPayment.after
                 (VerifyPayment.verifyPayment env sessionId signature userPubKey
                    maxRetries storage0)))
         = VerifyPaymentFacts.storedList storage0 ++ [trim signature]).
Proof.
  pose proof (VerifyPaymentFacts.verifyPayment_storage env sessionId signature
                userPubKey maxRetries storage0) as H.
  cbn zeta in H.
  destruct (VerifyPayment.success _).
  - split; [discriminate|].
    destruct H as [-> |[_ ->]]; [apply store_appends|now left].
  - split; [intros _; exact H|]. rewrite H. now left.
Qed.

(** *** Where the session id of createSession comes from *)

Lemma createIteration_result env maxRetries sid em pl k w v :
  match CreateSession.createIteration env maxRetries sid em pl k w with
  | (Return r, w') =>
      r = Some v ->
      truthy v = true
      /\ exists x res d, In x (exchanges w') /\ reply x = Responds res
                         /\ ok res = true /\ body res = GoodJSON d
                         /\ getProp d "sessionId" = Some v
  | (Continue _, _) => True
  end.
Proof.
  unfold CreateSession.createIteration.
  destruct (fetchBoth false _ (CreateSession.net env k)) as [fetched xs] eqn:Hfetch.
  assert (Hgot : forall r, fetched = Got r ->
            exists x, In x xs /\ reply x = Responds r).
  { intros r ->.
    pose proof (fetchBoth_got false
      (fun e => {| endpoint := e; payload := [sid; em; pl] |})
      (CreateSession.net env k) r) as H.
    rewrite Hfetch in H. exact (H eq_refl). }
  destruct fetched as [res| |e].
  - destruct (ok res) eqn:Hok; cbn [negb].
    + destruct (body res) as [|d] eqn:Hbody; [discriminate|].
      destruct (dataTruthy d); cbn [negb]; [|discriminate].
      destruct (truthy (default JUndefined (getProp d "sessionId"))) eqn:Hv;
        cbn [negb]; [|discriminate].
      intros Hs. rewrite Hs in Hv. cbn in Hv. split; [exact Hv|].
      destruct (Hgot res eq_refl) as [x [Hin Hx]].
      exists x, res, d. cbn [sent exchanges]. rewrite in_app_iff. auto 10.
    + destruct (getProp _ "message");
        [destruct (retryable res)|]; destruct (S k <? maxRetries);
        try exact I; discriminate.
  - discriminate.
  - destruct (S k <? maxRetries); [exact I|discriminate].
Qed.

(** X16. A session id that [createSession] returns is truthy, and it is the
    [sessionId] of a JSON body the call received with an ok status. *)
Theorem createSession_returns_the_backend_id
    (env : CreateSession.CreateEnv) (saasId email plan : string) (maxRetries : nat)
    (v : JVal) :
  CreateSession.result (CreateSession.createSession env saasId email plan maxRetries)
  = Some v ->
  truthy v = true
  /\ exists x res d,
       In x (exchanges (CreateSession.wire
                          (CreateSession.createSession env saasId email plan maxRetries)))
       /\ reply x = Responds res /\ ok res = true /\ body res = GoodJSON d
       /\ getProp d "sessionId" = Some v.
Proof.
  unfold CreateSession.createSession.
  destruct (String.eqb saasId ""); [discriminate|].
  destruct (_ || _); [discriminate|].
  destruct (String.eqb plan ""); [discriminate|].
  set (iter := CreateSession.createIteration env maxRetries
                 (CreateSession.sanitizeInput saasId) (CreateSession.sanitizeInput email)
                 (CreateSession.sanitizeInput plan)).
  pose proof (retryLoop_rule maxRetries iter waited None
    (fun _ _ => True)
    (fun r w => r = Some v ->
       truthy v = true
       /\ exists x res d, In x (exchanges w) /\ reply x = Responds res
                          /\ ok res = true /\ body res = GoodJSON d
                          /\ getProp d "sessionId" = Some v))
    as Hrule.
  destruct (retryLoop maxRetries iter waited None maxRetries 0 silent) as [r w] eqn:Hloop.
  cbn [CreateSession.result CreateSession.wire]. intros ->.
  specialize (Hrule
    ltac:(intros k st _ _;
          pose proof (createIteration_result env maxRetries
                        (CreateSession.sanitizeInput saasId)
                        (CreateSession.sanitizeInput email)
                        (CreateSession.sanitizeInput plan) k st v) as H;
          subst iter; destruct (CreateSession.createIteration _ _ _ _ _ k st)
            as [[r'|d] st']; auto)
    ltac:(intros; discriminate)
    maxRetries 0 silent ltac:(lia) I).
  rewrite Hloop in Hrule. exact (Hrule eq_refl).
Qed.

Lemma createSession_returns_the_backend_id_witness :
  truthy (JStr "abc123") = true
  /\ exists x res d,
       In x (exchanges (CreateSession.wire
                          (CreateSession.createSession failingOnce
                             "merchant-1" "customer@example.com" "pro" 3)))
       /\ reply x = Responds res /\ ok res = true /\ body res = GoodJSON d
       /\ getProp d "sessionId" = Some (JStr "abc123").
Proof.
  apply (createSession_returns_the_backend_id failingOnce
           "merchant-1" "customer@example.com" "pro" 3 (JStr "abc123")).
  reflexivity.
Defined.

(** *** The pauses at the cap *)

Lemma isBackoff_capped cap i d :
  isBackoff cap i d ->
  (cap <= 1000 * inject_Z (2 ^ Z.of_nat (S i)))%Q ->
  (d == cap)%Q.
Proof.
  intros (rnd & jitter & [Hr0 _] & [Hj0 _] & ->) Hcap.
  unfold backoffTime, Math_min.
  assert (Hprod : (0 <= rnd * jitter)%Q) by (apply Qmult_le_0_compat; assumption).
  destruct (Qle_bool _ cap) eqn:Hle; [|reflexivity].
  apply Qle_bool_iff in Hle. apply Qle_antisym; [exact Hle|].
  lra.
Qed.

(** X27. From the fourth pause on ([createSession], [verifyPayment]) and from
    the third on ([fetchSession]) every pause is the cap: 10 s and 8 s.
    The delays stop growing there. *)
Theorem late_pauses_equal_the_cap
    (cenv : CreateSession.CreateEnv) (venv : VerifyPayment.VerifyEnv)
    (fenv : FetchSession.FetchEnv)
    (saasId email plan sessionId signature userPubKey : string)
    (maxRetries : nat) (storage0 : option VerifyPayment.StorageItem) :
  (forall k, unitInterval (random (CreateSession.net cenv k))) ->
  (forall k, unitInterval (random (VerifyPayment.net venv k))) ->
  (forall k, unitInterval (random (FetchSession.net fenv k))) ->
  (forall i d,
     3 <= i ->
     nth_error (delays (CreateSession.wire
                          (CreateSession.createSession cenv saasId email plan maxRetries)))
       i = Some d ->
     (d == 10000)%Q)
  /\ (forall i d,
        3 <= i ->
        nth_error (delays (VerifyPayment.wire
                             (VerifyPayment.after
                                (VerifyPayment.verifyPayment venv sessionId signature
                                   userPubKey maxRetries storage0))))
          i = Some d ->
        (d == 10000)%Q)
  /\ (forall i d,
        2 <= i ->
        nth_error (delays (FetchSession.wire
                             (FetchSession.fetchSession fenv sessionId maxRetries)))
          i = Some d ->
        (d == 8000)%Q).
Proof.
  intros Hc Hv Hf.
  assert (Hpow : forall m i, m <= i -> (2 ^ Z.of_nat (S m) <= 2 ^ Z.of_nat (S i))%Z)
    by (intros m i Hmi; apply Z.pow_le_mono_r; lia).
  split; [|split]; intros i d Hi Hnth.
  - destruct (createSession_policy cenv saasId email plan maxRetries Hc)
      as (_ & _ & Hall & _).
    apply (isBackoff_capped 10000 i d (Hall i d Hnth)).
    specialize (Hpow 3 i Hi). rewrite Zle_Qle in Hpow.
    change (inject_Z (2 ^ Z.of_nat 4)) with 16%Q in Hpow. lra.
  - destruct (verifyPayment_policy venv sessionId signature userPubKey maxRetries
                storage0 Hv) as (_ & _ & Hall & _).
    apply (isBackoff_capped 10000 i d (Hall i d Hnth)).
    specialize (Hpow 3 i Hi). rewrite Zle_Qle in Hpow.
    change (inject_Z (2 ^ Z.of_nat 4)) with 16%Q in Hpow. lra.
  - destruct (fetchSession_policy fenv sessionId maxRetries Hf) as (_ & _ & Hall & _).
    apply (isBackoff_capped 8000 i d (Hall i d Hnth)).
    specialize (Hpow 2 i Hi). rewrite Zle_Qle in Hpow.
    change (inject_Z (2 ^ Z.of_nat 3)) with 8%Q in Hpow. lra.
Qed.

Lemma late_pauses_equal_the_cap_witness :
  exists d,
    nth_error (delays (CreateSession.wire
                         (CreateSession.createSession alwaysFailing
                            "merchant-1" "customer@example.com" "pro" 6)))
      4 = Some d
    /\ (d == 10000)%Q.
Proof.
  destruct (late_pauses_equal_the_cap alwaysFailing
              (VerifyPaymentFacts.answering VerifyPaymentFacts.serverError)
              FetchSessionFacts.quietEnv
              "merchant-1" "customer@example.com" "pro" "abc123" "5sig" "payer"
              6 (Some VerifyPayment.NoItem)) as (Hcreate & _).
  - intros k. exact half_in_unit_interval.
  - intros k. exact half_in_unit_interval.
  - intros k. unfold unitInterval. cbn. split; lra.
  - exists 10000%Q. split; [vm_compute; reflexivity|].
    apply (Hcreate 4); [lia|vm_compute; reflexivity].
Defined.

End GatewayFacts.

(** ** The session effect of the component                             *)

Module PaymentModalFacts.
Import JS Net NetFacts FetchSessionFacts PaymentModal.

Lemma positive_truthy (p : float) : (0 <? p)%float = true -> truthy (JNum p) = true.
Proof.
  cbn [truthy]. unfold is_nan.
  rewrite FloatAxioms.ltb_spec, !FloatAxioms.eqb_spec.
  replace (Prim2SF 0) with (S754_zero false) by reflexivity.
  unfold SFltb, SFeqb.
  destruct (Prim2SF p) as [s|s| |s m e]; try destruct s; cbn;
    try discriminate; try reflexivity.
  intros _. now rewrite Pos.compare_refl, Z.compare_refl.
Qed.

Lemma or_else_truthy a b : truthy b = true -> truthy (a ||| b) = true.
Proof. intros Hb. unfold or_else. now destruct (truthy a) eqn:Ha. Qed.

Lemma or_else_left a b : truthy a = true -> a ||| b = a.
Proof. intros Ha. unfold or_else. now rewrite Ha. Qed.

(** A session [mapResponseToSessionType] yields passes the check of the
    component. *)
Lemma normalized_complete now data :
  now <> "" -> mandatoryPresent data = true ->
  incomplete (normalized now data) = false.
Proof.
  intros Hnow H. unfold mandatoryPresent in H.
  repeat (apply andb_true_iff in H as [H ?]).
  unfold incomplete, normalized.
  cbn [FetchSession._id FetchSession.address FetchSession.email FetchSession.plan
       FetchSession.price FetchSession.saasId FetchSession.time].
  assert (Hprice : truthy (JNum (priceOf (FetchSession.resolve_price data))) = true).
  { destruct (FetchSession.resolve_price data); try discriminate.
    now apply positive_truthy. }
  assert (Htime : truthy (FetchSession.resolve_time data ||| JStr now) = true).
  { apply or_else_truthy. cbn. apply negb_true_iff. now apply String.eqb_neq. }
  repeat match goal with Ht : truthy _ = true |- _ => rewrite Ht; clear Ht end.
  reflexivity.
Qed.

(** X9. The session effect redirects exactly when [fetchSession] returned no
    session. When the clock's ISO text is not empty and the prices of
    the bodies received are JSON numbers: without a session the effect
    calls [onRedirect]; with a session it never does, and it shows the
    e-mail address, logo, name, plan, price and merchant address of that
    session. *)
Theorem fetchSessionCaller_redirects_without_session
    (env : FetchSession.FetchEnv) (sessionId : string) :
  FetchSession.now env <> "" ->
  (forall data,
     received (FetchSession.wire (FetchSession.fetchSession env sessionId 3)) data ->
     jsonNumber (FetchSession.resolve_price data)) ->
  fetchSessionCaller env sessionId
  = match FetchSession.result (FetchSession.fetchSession env sessionId 3) with
    | None => {| redirected := true; display := None |}
    | Some res =>
        {| redirected := false;
           display := Some {| email := FetchSession.email res;
                              saasLogoURL := FetchSession.logoUrl res;
                              saasName := FetchSession.saasName res;
                              plan := FetchSession.plan res;
                              pricing := FetchSession.price res;
                              merchantWalletAddress := FetchSession.address res |} |}
    end.
Proof.
  intros Hnow Hjson. unfold fetchSessionCaller.
  destruct (FetchSession.result (FetchSession.fetchSession env sessionId 3))
    as [res|] eqn:Hres; [|reflexivity].
  destruct (fetchSession_result env sessionId 3 res Hres) as (data & Hrec & Hmap).
  rewrite (mapResponse_spec _ _ (Hjson data Hrec)) in Hmap.
  destruct (mandatoryPresent data) eqn:Hpresent; [|discriminate].
  injection Hmap as <-.
  rewrite (normalized_complete _ data Hnow Hpresent).
  rewrite or_else_left; [reflexivity|].
  unfold mandatoryPresent in Hpresent.
  repeat (apply andb_true_iff in Hpresent as [Hpresent ?]). assumption.
Qed.

Lemma fetchSessionCaller_redirects_without_session_witness :
  fetchSessionCaller GatewayFacts.slowStart "abc123"
  = {| redirected := false;
       display := Some {| email := JStr "e@x.com"; saasLogoURL := JStr "";
                          saasName := JStr "Merchant"; plan := JStr "pro";
                          pricing := 10; merchantWalletAddress := JStr "M" |} |}.
Proof.
  rewrite (fetchSessionCaller_redirects_without_session GatewayFacts.slowStart "abc123").
  - vm_compute. reflexivity.
  - discriminate.
  - intros data (x & r & Hin & Hr & Hok & Hbody).
    vm_compute in Hin.
    destruct Hin as [<-|[<-|[]]]; cbn in Hr; injection Hr as <-;
      try discriminate Hok.
    cbn in Hbody. injection Hbody as <-. reflexivity.
Defined.

End PaymentModalFacts.
